(** * Auto_Job_Applier_LinkedIn: the adaptive form-filling and
      session-resilience core, embedded from the Python sources.

    Python values are modelled as follows.
    - [str] is [string] (ASCII text); [int] is [Z].
    - A [dict] whose iteration order is observable (the per-identifier
      count table read by [max]) is an insertion-ordered association
      list; the other dicts are [gmap]s.
    - A [float] that only ever holds sums of small integers is [Z]; the
      back-off delays are exact rationals [Q], with the range of the
      doubles and of [time.sleep] kept apart in [FloatRange].
    - An exception is an explicit constructor of the result type. *)

From Stdlib Require Import ZArith QArith Qpower Lia Lqa List Ascii String Bool.
From stdpp Require Import base option gmap strings list fin_maps pretty.

Local Open Scope Z_scope.
Local Open Scope string_scope.

(** ** Exceptions and fallible results *)
Module Py.

(** A raised exception: an instance of a subclass of [Exception]
    (caught by [except Exception]) or of [BaseException] only, such
    as [KeyboardInterrupt] (caught by a bare [except:] only). *)
Inductive exn :=
| Exception (name : string)
| BaseOnly (name : string).

Definition is_Exception (e : exn) : bool :=
  match e with Exception _ => true | BaseOnly _ => false end.

Inductive result (A : Type) :=
| Ok (a : A)
| Raise (e : exn).
Arguments Ok {A} a.
Arguments Raise {A} e.

Definition bind {A B : Type} (r : result A) (k : A -> result B) : result B :=
  match r with
  | Ok a => k a
  | Raise e => Raise e
  end.

(** [try: body / except Exception: handler]. *)
Definition try_except_Exception {A : Type} (body : result A) (handler : exn -> result A)
    : result A :=
  match body with
  | Ok a => Ok a
  | Raise e => if is_Exception e then handler e else Raise e
  end.

(** [try: body / except: handler] (bare). *)
Definition try_except_all {A : Type} (body : result A) (handler : exn -> result A)
    : result A :=
  match body with
  | Ok a => Ok a
  | Raise e => handler e
  end.

End Py.

Notation "x <- c1 ;; c2" := (Py.bind c1 (fun x => c2))
  (at level 100, c1 at next level, right associativity).

(** ** Python [str] operations used by the sources *)
Module PyStr.

Definition is_upper (c : ascii) : bool :=
  let n := nat_of_ascii c in (Nat.leb 65 n && Nat.leb n 90)%bool.

(** [str.lower()] on ASCII text. *)
Definition lower_char (c : ascii) : ascii :=
  if is_upper c then ascii_of_nat (nat_of_ascii c + 32) else c.

Fixpoint lower (s : string) : string :=
  match s with
  | EmptyString => EmptyString
  | String c s' => String (lower_char c) (lower s')
  end.

(** [\s] of [re] and the characters removed by [str.strip()]:
    space, [\t], [\n], [\v], [\f], [\r] and the separators 28..31. *)
Definition is_space (c : ascii) : bool :=
  let n := nat_of_ascii c in
  (Nat.eqb n 32 || (Nat.leb 9 n && Nat.leb n 13)
   || (Nat.leb 28 n && Nat.leb n 31))%bool.

(** [\d] of [re] on ASCII text. *)
Definition is_digit (c : ascii) : bool :=
  let n := nat_of_ascii c in (Nat.leb 48 n && Nat.leb n 57)%bool.

Fixpoint startswith (pat s : string) : bool :=
  match pat, s with
  | EmptyString, _ => true
  | String _ _, EmptyString => false
  | String a pat', String b s' =>
      if Ascii.eqb a b then startswith pat' s' else false
  end.

(** [pat in s]. *)
Fixpoint contains (pat s : string) : bool :=
  if startswith pat s then true
  else match s with
       | EmptyString => false
       | String _ s' => contains pat s'
       end.

Fixpoint lstrip (s : string) : string :=
  match s with
  | EmptyString => EmptyString
  | String c s' => if is_space c then lstrip s' else s
  end.

Fixpoint rstrip (s : string) : string :=
  match s with
  | EmptyString => EmptyString
  | String c s' =>
      match rstrip s' with
      | EmptyString => if is_space c then EmptyString else String c EmptyString
      | r => String c r
      end
  end.

(** [str.strip()]. *)
Definition strip (s : string) : string := rstrip (lstrip s).

(** [int(s)] for a non-empty run of ASCII digits. *)
Definition digit_val (c : ascii) : Z := Z.of_nat (nat_of_ascii c) - 48.

Fixpoint int_acc (acc : Z) (s : string) : Z :=
  match s with
  | EmptyString => acc
  | String c s' => int_acc (10 * acc + digit_val c) s'
  end.

Definition int_of_digits (s : string) : Z := int_acc 0 s.

End PyStr.

(** ** modules/external/field_knowledge_base.py *)
Module FieldKnowledgeBase.

(** The inner table [field_mappings[identifier]]: field type to
    occurrence count, in insertion order (the order [max] iterates). *)
Abbreviation counts := (list (string * Z)).

Fixpoint dict_get (k : string) (d : counts) : option Z :=
  match d with
  | [] => None
  | (k', v) :: d' => if String.eqb k k' then Some v else dict_get k d'
  end.

Definition dict_mem (k : string) (d : counts) : bool :=
  match dict_get k d with Some _ => true | None => false end.

(** [d[k] = v]: an existing key keeps its position, a new key goes last. *)
Fixpoint dict_set (k : string) (v : Z) (d : counts) : counts :=
  match d with
  | [] => [(k, v)]
  | (k', v') :: d' =>
      if String.eqb k k' then (k', v) :: d' else (k', v') :: dict_set k v d'
  end.

(** The loop of [max(iterable, key=...)]: a later item replaces the
    current best only when its key value is strictly larger. *)
Fixpoint max_from (best : string) (bestv : Z) (rest : counts) : string :=
  match rest with
  | [] => best
  | (k, v) :: rest' =>
      if Z.ltb bestv v then max_from k v rest' else max_from best bestv rest'
  end.

(** [max(mappings, key=mappings.get)] on a non-empty table. *)
Definition max_key (d : counts) : option string :=
  match d with
  | [] => None
  | (k, v) :: rest => Some (max_from k v rest)
  end.

(** [self.knowledge] restricted to the two tables that
    [learn_field_mapping] and [get_field_type] read and write
    (['successful_patterns'] is never touched by either). *)
Record knowledge := Knowledge {
  field_mappings : gmap string counts;
  ats_specific_mappings : gmap string (gmap string string)
}.

(** The table [_load_knowledge] builds when no file exists. *)
Definition empty_knowledge : knowledge :=
  {| field_mappings := ∅; ats_specific_mappings := ∅ |}.

Definition learn_general (fm : gmap string counts)
    (field_identifier field_type : string) : gmap string counts :=
  let fm1 :=
    match fm !! field_identifier with
    | None => <[field_identifier := []]> fm
    | Some _ => fm
    end in
  let d := default [] (fm1 !! field_identifier) in
  let d1 := if dict_mem field_type d then d else dict_set field_type 0 d in
  let d2 := dict_set field_type (default 0 (dict_get field_type d1) + 1)%Z d1 in
  <[field_identifier := d2]> fm1.

Definition learn_ats (am : gmap string (gmap string string))
    (field_identifier field_type ats_platform : string)
    : gmap string (gmap string string) :=
  if String.eqb ats_platform "unknown" then am
  else
    let am1 :=
      match am !! ats_platform with
      | None => <[ats_platform := ∅]> am
      | Some _ => am
      end in
    let m := default ∅ (am1 !! ats_platform) in
    match m !! field_identifier with
    | None => <[ats_platform := <[field_identifier := field_type]> m]> am1
    | Some _ => am1
    end.

Definition learn_field_mapping (kb : knowledge)
    (field_identifier field_type ats_platform : string) : knowledge :=
  {| field_mappings :=
       learn_general (field_mappings kb) field_identifier field_type;
     ats_specific_mappings :=
       learn_ats (ats_specific_mappings kb)
                 field_identifier field_type ats_platform |}.

Definition get_general (fm : gmap string counts)
    (field_identifier : string) : option string :=
  match fm !! field_identifier with
  | Some mappings =>
      match mappings with
      | [] => None
      | _ => max_key mappings
      end
  | None => None
  end.

Definition get_field_type (kb : knowledge)
    (field_identifier ats_platform : string) : option string :=
  let specific :=
    if String.eqb ats_platform "unknown" then None
    else
      match ats_specific_mappings kb !! ats_platform with
      | Some m => m !! field_identifier
      | None => None
      end in
  match specific with
  | Some t => Some t
  | None => get_general (field_mappings kb) field_identifier
  end.

(** [knowledge['ats_specific_mappings'][p][id]], when present. *)
Definition platform_entry (am : gmap string (gmap string string))
    (ats_platform field_identifier : string) : option string :=
  match am !! ats_platform with
  | Some m => m !! field_identifier
  | None => None
  end.

(** [knowledge['field_mappings'][id].get(t, 0)]. *)
Definition occurrence_count (kb : knowledge) (field_identifier field_type : string) : Z :=
  default 0%Z (dict_get field_type (default [] (field_mappings kb !! field_identifier))).

(** What one call does to the counts of its identifier. *)
Definition bump (field_type : string) (d : counts) : counts :=
  let d1 := if dict_mem field_type d then d else dict_set field_type 0 d in
  dict_set field_type (default 0 (dict_get field_type d1) + 1)%Z d1.

(** Counts of [i] after [t] was learnt once and [t2] then [n] times. *)
Definition counts_after (t t2 : string) (n : nat) : counts :=
  match n with
  | O => [(t, 1%Z)]
  | S _ => [(t, 1%Z); (t2, Z.of_nat n)]
  end.

(** [n] further calls [learn_field_mapping(id, t, p)]. *)
Fixpoint learn_repeat (n : nat) (kb : knowledge)
    (field_identifier field_type ats_platform : string) : knowledge :=
  match n with
  | O => kb
  | S n' =>
      learn_repeat n'
        (learn_field_mapping kb field_identifier field_type ats_platform)
        field_identifier field_type ats_platform
  end.

(** A sequence of calls, each [(identifier, type, platform)]. *)
Fixpoint learn_all (calls : list (string * string * string))
    (kb : knowledge) : knowledge :=
  match calls with
  | [] => kb
  | (i, t, p) :: calls' => learn_all calls' (learn_field_mapping kb i t p)
  end.

End FieldKnowledgeBase.

(** ** The fragment of [re] used by the applicant-count extractors *)
Module Regex.

(** A pattern is a sequence of literal characters and of greedy
    [cls+] repetitions; a repetition may be the capturing group 1. *)
Inductive item :=
| Lit (c : ascii)
| Plus (cls : ascii -> bool) (capture : bool).

Definition pattern := list item.

Fixpoint lits (s : string) : pattern :=
  match s with
  | EmptyString => []
  | String c s' => Lit c :: lits s'
  end.

Definition char_eq (ignorecase : bool) (a b : ascii) : bool :=
  if ignorecase then Ascii.eqb (PyStr.lower_char a) (PyStr.lower_char b)
  else Ascii.eqb a b.

Definition keep (capture : bool) (c : ascii) (g : string) : string :=
  if capture then String c g else g.

(** Anchored backtracking match; the result is the text of group 1.
    A repetition first tries to take one more character and gives
    characters back only when the rest of the pattern fails. *)
Fixpoint match_here (ignorecase : bool) (re : pattern) : string -> option string :=
  match re with
  | [] => fun _ => Some EmptyString
  | Lit c :: re' => fun s =>
      match s with
      | String c' s' =>
          if char_eq ignorecase c c' then match_here ignorecase re' s' else None
      | EmptyString => None
      end
  | Plus cls capture :: re' =>
      fix plus (s : string) : option string :=
        match s with
        | String c s' =>
            if cls c then
              match plus s' with
              | Some g => Some (keep capture c g)
              | None =>
                  match match_here ignorecase re' s' with
                  | Some g => Some (keep capture c g)
                  | None => None
                  end
              end
            else None
        | EmptyString => None
        end
  end.

(** [re.search]: the leftmost position at which the pattern matches. *)
Fixpoint search (ignorecase : bool) (re : pattern) (s : string) : option string :=
  match match_here ignorecase re s with
  | Some g => Some g
  | None =>
      match s with
      | EmptyString => None
      | String _ s' => search ignorecase re s'
      end
  end.

Definition ws : item := Plus PyStr.is_space false.
Definition digits : item := Plus PyStr.is_digit true.

(** [over\s+(\d+)] *)
Definition re_over : pattern := (lits "over" ++ [ws; digits])%list.
(** [(\d+)\s+applicant] *)
Definition re_n_applicant : pattern := ([digits; ws] ++ lits "applicant")%list.
(** [first\s+(\d+)] *)
Definition re_first : pattern := (lits "first" ++ [ws; digits])%list.
(** [(\d+)] *)
Definition re_number : pattern := [digits].

End Regex.

(** ** modules/smart_filter.py *)
Module SmartFilter.

(** One entry of [rejected_companies["companies"]]; the count is
    optional because the code reads it with [.get("rejection_count", 0)]. *)
Record company_entry := CompanyEntry {
  first_rejection : string;
  rejection_count : option Z;
  reasons : list string;
  last_rejection : option string
}.

(** [self.rejected_companies]: [None] when the loaded JSON object has
    no ["companies"] key. *)
Definition rejected_companies := option (gmap string company_entry).

Definition companies_or_empty (rc : rejected_companies) : gmap string company_entry :=
  default ∅ rc.

Definition should_skip_company (rc : rejected_companies)
    (company : string) (rejection_threshold : Z) : bool :=
  match companies_or_empty rc !! company with
  | Some e => Z.leb rejection_threshold (default 0%Z (rejection_count e))
  | None => false
  end.

(** [calculate_job_priority]. The score starts at the float [50.0] and
    only integers are added, so it is an integer-valued float. *)
Definition calculate_job_priority (applicant_count days_posted : option Z)
    (is_easy_apply : bool) (company_rejection_count : Z) : Z :=
  let score := 50%Z in
  let score :=
    match applicant_count with
    | Some a =>
        if Z.ltb a 10 then (score + 20)%Z
        else if Z.ltb a 50 then (score + 10)%Z
        else if Z.ltb 200 a then (score - 20)%Z
        else score
    | None => score
    end in
  let score :=
    match days_posted with
    | Some d =>
        if Z.eqb d 0 then (score + 15)%Z
        else if Z.leb d 2 then (score + 10)%Z
        else if Z.leb d 7 then (score + 5)%Z
        else if Z.ltb 30 d then (score - 10)%Z
        else score
    | None => score
    end in
  let score := if is_easy_apply then (score + 10)%Z else score in
  let score := (score - company_rejection_count * 5)%Z in
  Z.max 0 (Z.min 100 score).

(** [SmartFilter.extract_applicant_count]. *)
Definition extract_applicant_count (applicant_text : string) : option Z :=
  let text := PyStr.lower applicant_text in
  let over :=
    if PyStr.contains "over" text then
      match Regex.search false Regex.re_over text with
      | Some g => Some (PyStr.int_of_digits g + 50)%Z
      | None => None
      end
    else None in
  match over with
  | Some n => Some n
  | None =>
      match Regex.search false Regex.re_n_applicant text with
      | Some g => Some (PyStr.int_of_digits g)
      | None =>
          if PyStr.contains "first" text then
            match Regex.search false Regex.re_first text with
            | Some g => Some (PyStr.int_of_digits g / 2)%Z
            | None => None
            end
          else None
      end
  end.

End SmartFilter.

(** ** modules/smart_filters.py *)
Module SmartFilters.

Definition selectors : list string :=
  [ ".//span[contains(text(), 'applicant')]";
    ".//span[contains(text(), 'applications')]";
    ".//li[contains(@class, 'job-details') and contains(., 'applicant')]" ].

(** The selector loop: [find_element] gives the text of the element it
    finds, or [None] when it raises; the first hit ends the loop. *)
Fixpoint first_text (find_element : string -> option string)
    (sels : list string) : option string :=
  match sels with
  | [] => None
  | sel :: sels' =>
      match find_element sel with
      | Some t => Some t
      | None => first_text find_element sels'
      end
  end.

(** The text processing of [extract_applicant_count], after the
    element lookup. *)
Definition count_of_text (applicant_text : string) : option Z :=
  let over :=
    if PyStr.contains "over" (PyStr.lower applicant_text) then
      match Regex.search true Regex.re_over applicant_text with
      | Some g => Some (PyStr.int_of_digits g)
      | None => None
      end
    else None in
  match over with
  | Some n => Some n
  | None =>
      match Regex.search false Regex.re_number applicant_text with
      | Some g => Some (PyStr.int_of_digits g)
      | None => None
      end
  end.

Definition extract_applicant_count (find_element : string -> option string)
    : option Z :=
  match first_text find_element selectors with
  | None => None
  | Some EmptyString => None
  | Some applicant_text => count_of_text applicant_text
  end.

End SmartFilters.

(** ** modules/retry_handler.py *)
Module RetryHandler.

(** [random.uniform(a, b)] is [a + (b - a) * random()]; [u] is the
    value of [random()], a number of the interval from 0 to 1. *)
Definition uniform (a b u : Q) : Q := (a + (b - a) * u)%Q.

(** The delay in exact arithmetic: the value of the float computation
    while it stays in the range of the doubles
    ([FloatRange.exponential_backoff]), rounding aside. *)
Definition exponential_backoff (attempt : Z) (base_delay u : Q) : Q :=
  let delay := (base_delay * (2 ^ attempt))%Q in
  let jitter := uniform 0 (delay * (1 # 10)) u in
  (delay + jitter)%Q.

(** What the call has done to the outside world. *)
Record world := World {
  calls : nat;            (* invocations of [func] so far *)
  draws : nat;            (* values taken from [random()] so far *)
  slept : list Q;         (* arguments of [sleep], oldest first; [FloatRange.sleep]
                             tells which of them [time.sleep] takes *)
  retried : list Z        (* attempts passed to [on_retry], oldest first *)
}.

Definition start : world :=
  {| calls := 0; draws := 0; slept := []; retried := [] |}.

Section Retry.
Context {V : Type}.
(** [func k] is the outcome of the invocation made after [k] earlier
    ones; [random k] the [k]-th value of [random()]. *)
Variable func : nat -> Py.result V.
Variable random : nat -> Q.
Variable max_retries : Z.
Variable base_delay : Q.
(** [isinstance(e, exceptions)]. *)
Variable exceptions : Py.exn -> bool.
(** [on_retry], with the exception it raises, if any. *)
Variable on_retry : option (Z -> Py.exn -> option Py.exn).

(** [raise last_exception]; raising [None] is a [TypeError]. *)
Definition raise_last (last_exception : option Py.exn) : Py.result V :=
  match last_exception with
  | Some e => Py.Raise e
  | None => Py.Raise (Py.Exception "TypeError")
  end.

(** The [for attempt in range(max_retries + 1)] loop with
    [remaining] iterations left, followed by the final [raise]. *)
Fixpoint retry_loop (remaining : nat) (attempt : Z)
    (last_exception : option Py.exn) (w : world) : Py.result V * world :=
  match remaining with
  | O => (raise_last last_exception, w)
  | S remaining' =>
      let w1 := {| calls := S (calls w); draws := draws w;
                   slept := slept w; retried := retried w |} in
      match func (calls w) with
      | Py.Ok v => (Py.Ok v, w1)
      | Py.Raise e =>
          if exceptions e then
            if Z.ltb attempt max_retries then
              let delay :=
                exponential_backoff attempt base_delay (random (draws w1)) in
              let w2 := {| calls := calls w1; draws := S (draws w1);
                           slept := slept w1; retried := retried w1 |} in
              let after_sleep (w' : world) :=
                {| calls := calls w'; draws := draws w';
                   slept := (slept w' ++ [delay])%list;
                   retried := retried w' |} in
              match on_retry with
              | Some callback =>
                  let w3 := {| calls := calls w2; draws := draws w2;
                               slept := slept w2;
                               retried := (retried w2 ++ [attempt])%list |} in
                  match callback attempt e with
                  | Some e' => (Py.Raise e', w3)
                  | None =>
                      retry_loop remaining' (attempt + 1)%Z (Some e) (after_sleep w3)
                  end
              | None =>
                  retry_loop remaining' (attempt + 1)%Z (Some e) (after_sleep w2)
              end
            else retry_loop remaining' (attempt + 1)%Z (Some e) w1
          else (Py.Raise e, w1)
      end
  end.

(** The world after a failed attempt: one more call, and below
    [max_retries] one more draw and one more sleep. *)
Definition after_failure (attempt : Z) (w : world) : world :=
  if Z.ltb attempt max_retries then
    {| calls := S (calls w);
       draws := S (draws w);
       slept :=
         (slept w ++
            [exponential_backoff attempt base_delay
               (random (draws w))])%list;
       retried := retried w |}
  else
    {| calls := S (calls w);
       draws := draws w;
       slept := slept w;
       retried := retried w |}.

Definition retry_with_backoff : Py.result V * world :=
  retry_loop (Z.to_nat (max_retries + 1)) 0%Z None start.

End Retry.

End RetryHandler.

(** ** The range of the doubles

    The delays of [RetryHandler] are Python floats.  Its exact values
    are what the source computes while every operand stays in the range
    of a double, rounding aside.  This module adds the edge of that
    range: a product or a sum that is too large becomes an infinity, an
    integer power of two that is too large for a double raises
    [OverflowError] when the multiplication converts it, and
    [time.sleep] refuses a delay that is negative, not a number or too
    long. *)
Module FloatRange.

Inductive double :=
| Finite (q : Q)
| PosInf
| NegInf
| NaN.

(** Magnitudes from [2^1024 - 2^970] on round to an infinity. *)
Definition overflow_threshold : Q := inject_Z (2 ^ 1024 - 2 ^ 970).

Definition of_real (q : Q) : double :=
  if Qle_bool overflow_threshold q then PosInf
  else if Qle_bool q (- overflow_threshold) then NegInf
  else Finite q.

Definition neg (x : double) : double :=
  match x with
  | Finite q => Finite (- q)
  | PosInf => NegInf
  | NegInf => PosInf
  | NaN => NaN
  end.

(** An infinity times [q]: not a number for zero, else the sign rule. *)
Definition scale_inf (positive : bool) (q : Q) : double :=
  if Qeq_bool q 0 then NaN
  else if Bool.eqb positive (Qle_bool 0 q) then PosInf
  else NegInf.

Definition mul (x y : double) : double :=
  match x, y with
  | NaN, _ | _, NaN => NaN
  | Finite a, Finite b => of_real (a * b)
  | Finite a, PosInf | PosInf, Finite a => scale_inf true a
  | Finite a, NegInf | NegInf, Finite a => scale_inf false a
  | PosInf, PosInf | NegInf, NegInf => PosInf
  | PosInf, NegInf | NegInf, PosInf => NegInf
  end.

Definition add (x y : double) : double :=
  match x, y with
  | NaN, _ | _, NaN => NaN
  | Finite a, Finite b => of_real (a + b)
  | PosInf, NegInf | NegInf, PosInf => NaN
  | PosInf, _ | _, PosInf => PosInf
  | NegInf, _ | _, NegInf => NegInf
  end.

Definition sub (x y : double) : double := add x (neg y).

(** [x < y] on floats: false as soon as one side is not a number. *)
Definition lt (x y : double) : bool :=
  match x, y with
  | NaN, _ | _, NaN => false
  | Finite a, Finite b => negb (Qle_bool b a)
  | _, NegInf | PosInf, _ => false
  | NegInf, _ | _, PosInf => true
  end.

(** [2 ** attempt] as the operand of a float multiplication: an [int]
    for [attempt >= 0], converted to a float there, which raises from
    [2 ** 1024] on; a float already for a negative [attempt]. *)
Definition power_of_two (attempt : Z) : Py.result double :=
  if Z.ltb attempt 0 then Py.Ok (Finite (2 ^ attempt)%Q)
  else if Z.leb 1024 attempt then Py.Raise (Py.Exception "OverflowError")
  else Py.Ok (Finite (2 ^ attempt)%Q).

(** [random.uniform(a, b)], with [u] the value of [random()]. *)
Definition uniform (a b u : double) : double := add a (mul (sub b a) u).

Definition exponential_backoff (attempt : Z) (base_delay u : Q) : Py.result double :=
  p <- power_of_two attempt ;;
  let delay := mul (Finite base_delay) p in
  let jitter := uniform (Finite 0) (mul delay (Finite (1 # 10))) (Finite u) in
  Py.Ok (add delay jitter).

(** [time.sleep] counts nanoseconds in 64 bits. *)
Definition sleep_limit : Q := (inject_Z (2 ^ 63) / inject_Z (10 ^ 9))%Q.

(** The exception [sleep(secs)] raises, if any: the conversion to
    nanoseconds comes first, the sign second. *)
Definition sleep (secs : double) : option Py.exn :=
  match secs with
  | NaN => Some (Py.Exception "ValueError")
  | PosInf | NegInf => Some (Py.Exception "OverflowError")
  | Finite q =>
      if Qle_bool sleep_limit q then Some (Py.Exception "OverflowError")
      else if Qle_bool q (- sleep_limit) then Some (Py.Exception "OverflowError")
      else if Qle_bool 0 q then None
      else Some (Py.Exception "ValueError")
  end.

(** The delay of [attempt] is one the source can compute and sleep:
    the float computation ends in a finite number, which is the exact
    value, and [sleep] takes it. *)
Definition delay_in_range (attempt : Z) (base_delay u : Q) : Prop :=
  (exists d, exponential_backoff attempt base_delay u = Py.Ok (Finite d)
             /\ (d == RetryHandler.exponential_backoff attempt base_delay u)%Q)
  /\ sleep (Finite (RetryHandler.exponential_backoff attempt base_delay u)) = None.

End FloatRange.

(** ** modules/external/universal_form_filler.py *)
Module UniversalFormFiller.

(** The categories the prompt lists. *)
Definition CATEGORIES : list string :=
  [ "first_name"; "last_name"; "full_name"; "email"; "phone"; "linkedin";
    "website"; "github"; "address"; "city"; "state"; "zip"; "country";
    "resume"; "cover_letter"; "unknown" ].

(** What [gemini_completion] hands back when it returns: text, or
    some other object (on which [.strip()] raises [AttributeError]). *)
Inductive response :=
| Text (s : string)
| NotText.

Definition get_or (field_info : gmap string string) (k dflt : string) : string :=
  default dflt (field_info !! k).

Definition prompt (field_info : gmap string string) : string :=
  "You are analyzing a form field to determine what information it's asking for.

Field Information:
- Label: " ++ get_or field_info "label" "N/A" ++ "
- Name attribute: " ++ get_or field_info "name" "N/A" ++ "
- ID attribute: " ++ get_or field_info "id" "N/A" ++ "
- Placeholder: " ++ get_or field_info "placeholder" "N/A" ++ "
- Type: " ++ get_or field_info "type" "text" ++ "

Classify this field into ONE of these categories:
first_name, last_name, full_name, email, phone, linkedin, website, github, address, city, state, zip, country, resume, cover_letter, unknown

Respond with ONLY the category name, nothing else.".

Definition str_strip (r : response) : Py.result string :=
  match r with
  | Text s => Py.Ok (PyStr.strip s)
  | NotText => Py.Raise (Py.Exception "AttributeError")
  end.

Section Classify.
Context {Client : Type}.
(** [modules.ai.geminiConnections.gemini_completion], called with
    [stream=False]: the import and the call are one fallible step. *)
Variable gemini_completion : Client -> list (string * string) -> Py.result response.

Definition classify_body (gemini_client : Client)
    (field_info : gmap string string) : Py.result string :=
  let messages := [("user", prompt field_info)] in
  response <- gemini_completion gemini_client messages ;;
  stripped <- str_strip response ;;
  Py.Ok (PyStr.lower stripped).

Definition classify_field_with_gemini (gemini_client : Client)
    (field_info : gmap string string) : Py.result string :=
  Py.try_except_Exception (classify_body gemini_client field_info)
    (fun _ => Py.Ok "unknown").

End Classify.

End UniversalFormFiller.

(** ** modules/session_manager.py *)
Module SessionManager.

(** A value of the loaded checkpoint object, as far as truthiness and
    [fromisoformat] tell values apart. *)
Inductive pyval :=
| PNone
| PInt (z : Z)
| PStr (s : string)
| POther (truthy : bool).

Definition truthy (v : pyval) : bool :=
  match v with
  | PNone => false
  | PInt z => negb (Z.eqb z 0)
  | PStr s => negb (String.eqb s "")
  | POther b => b
  end.

(** What [json.load] returns: an object or some other JSON value. *)
Inductive loaded :=
| JObject (d : gmap string pyval)
| JOther.

(** The checkpoint slot: [None] when [CHECKPOINT_FILE] does not exist,
    otherwise the outcome of opening and parsing it. *)
Definition slot := option (Py.result loaded).

(** A parsed time stamp in microseconds; [datetime.now()] is naive. *)
Inductive datetime :=
| Naive (us : Z)
| Aware (us : Z).

(** [checkpoint.get('timestamp')]. *)
Definition get_timestamp (c : loaded) : Py.result pyval :=
  match c with
  | JObject d => Py.Ok (default PNone (d !! "timestamp"))
  | JOther => Py.Raise (Py.Exception "AttributeError")
  end.

(** [datetime.now() - checkpoint_time], in microseconds. *)
Definition since (now : Z) (t : datetime) : Py.result Z :=
  match t with
  | Naive us => Py.Ok (now - us)%Z
  | Aware _ => Py.Raise (Py.Exception "TypeError")
  end.

(** [timedelta.total_seconds()]. *)
Definition total_seconds (delta_us : Z) : Q := (inject_Z delta_us / inject_Z 1000000)%Q.

Definition Qltb (a b : Q) : bool := negb (Qle_bool b a).

Section Resume.
(** [datetime.fromisoformat] on a string. *)
Variable fromisoformat : string -> Py.result datetime.

Definition parse_timestamp (v : pyval) : Py.result datetime :=
  match v with
  | PStr s => fromisoformat s
  | _ => Py.Raise (Py.Exception "TypeError")
  end.

Definition should_resume_body (f : slot) (now : Z) : Py.result bool :=
  match f with
  | None => Py.Ok false
  | Some content =>
      checkpoint <- content ;;
      timestamp_str <- get_timestamp checkpoint ;;
      if truthy timestamp_str then
        checkpoint_time <- parse_timestamp timestamp_str ;;
        delta <- since now checkpoint_time ;;
        let age_hours := (total_seconds delta / inject_Z 3600)%Q in
        Py.Ok (Qltb age_hours (inject_Z 24))
      else Py.Ok false
  end.

Definition should_resume (f : slot) (now : Z) : Py.result bool :=
  Py.try_except_all (should_resume_body f now) (fun _ => Py.Ok false).

End Resume.

(** One hour, in microseconds. *)
Definition hour : Z := 3600 * 1000000.

End SessionManager.

(** ** modules/external/ats_detector.py *)
Module AtsDetector.

Definition ATS_PATTERNS : list (string * list string) :=
  [ ("greenhouse", ["greenhouse.io"; "boards.greenhouse.io"; "job-boards.greenhouse.io"]);
    ("lever", ["lever.co"; "jobs.lever.co"]);
    ("workday", ["myworkdayjobs.com"; "wd1.myworkdayjobs.com"; "wd5.myworkdayjobs.com"]);
    ("taleo", ["taleo.net"; "tbe.taleo.net"]);
    ("icims", ["icims.com"; "careers.icims.com"]);
    ("bamboohr", ["bamboohr.com"]);
    ("jobvite", ["jobvite.com"]);
    ("smartrecruiters", ["smartrecruiters.com"]) ].

(** The selectors are opaque keys here; their inner quotation marks
    are written as apostrophes. *)
Definition ATS_DOM_SIGNATURES : list (string * list string) :=
  [ ("greenhouse", ["div[id*='application']"; "div[class*='application']";
                    "form[id*='greenhouse']"]);
    ("lever", ["div[class*='posting']"; "div[class*='application-form']"]) ].

(** The inner [for pattern in patterns] loop. *)
Fixpoint any_pattern (patterns : list string) (url_lower : string) : bool :=
  match patterns with
  | [] => false
  | pattern :: patterns' =>
      if PyStr.contains pattern url_lower then true
      else any_pattern patterns' url_lower
  end.

Fixpoint scan_url (table : list (string * list string)) (url_lower : string) : string :=
  match table with
  | [] => "unknown"
  | (ats_name, patterns) :: table' =>
      if any_pattern patterns url_lower then ats_name
      else scan_url table' url_lower
  end.

Definition detect_ats_from_url (url : string) : string :=
  scan_url ATS_PATTERNS (PyStr.lower url).

(** The browser: the page's URL, and for a selector the number of
    elements [find_elements] returns, or the exception it raises. *)
Record driver := Driver {
  current_url : string;
  find_elements : string -> Py.result nat
}.

(** The inner selector loop; [probed] lists the selectors handed to
    [find_elements] so far, oldest first. *)
Fixpoint probe (d : driver) (selectors probed : list string) : bool * list string :=
  match selectors with
  | [] => (false, probed)
  | selector :: selectors' =>
      let probed' := (probed ++ [selector])%list in
      match find_elements d selector with
      | Py.Ok n => if Nat.ltb 0 n then (true, probed') else probe d selectors' probed'
      | Py.Raise _ => probe d selectors' probed'
      end
  end.

Fixpoint scan_dom (d : driver) (table : list (string * list string))
    (probed : list string) : string * list string :=
  match table with
  | [] => ("unknown", probed)
  | (ats_name, selectors) :: table' =>
      match probe d selectors probed with
      | (true, probed') => (ats_name, probed')
      | (false, probed') => scan_dom d table' probed'
      end
  end.

Definition detect_ats_from_dom (d : driver) (probed : list string)
    : string * list string :=
  scan_dom d ATS_DOM_SIGNATURES probed.

(** The detected platform and the selectors probed in the DOM. *)
Definition detect_ats_platform (d : driver) : string * list string :=
  let ats := detect_ats_from_url (current_url d) in
  if negb (String.eqb ats "unknown") then (ats, [])
  else detect_ats_from_dom d [].

End AtsDetector.

(** ** modules/external/field_knowledge_base.py: statistics and history *)
Module KnowledgeStats.

(** The two entries of [get_stats] that count tables written by
    [learn_field_mapping]: [len(knowledge['field_mappings'])] and
    [len(knowledge['ats_specific_mappings'])]. *)
Definition total_field_mappings (kb : FieldKnowledgeBase.knowledge) : nat :=
  size (FieldKnowledgeBase.field_mappings kb).

Definition ats_platforms_learned (kb : FieldKnowledgeBase.knowledge) : nat :=
  size (FieldKnowledgeBase.ats_specific_mappings kb).

(** How often a sequence of calls teaches type [t] for identifier [i],
    on whatever platform. *)
Fixpoint times_taught (calls : list (string * string * string)) (i t : string) : Z :=
  match calls with
  | [] => 0
  | (i', t', _) :: calls' =>
      ((if (String.eqb i' i && String.eqb t' t)%bool then 1 else 0)
       + times_taught calls' i t)%Z
  end.

(** The keys of a count table, in iteration order. *)
Definition keys (d : list (string * Z)) : list string := map fst d.

(** Every count table of the knowledge base has distinct keys, as the
    keys of a [dict] are. *)
Definition well_keyed (kb : FieldKnowledgeBase.knowledge) : Prop :=
  forall i d, FieldKnowledgeBase.field_mappings kb !! i = Some d ->
              List.NoDup (keys d).

End KnowledgeStats.

(** ** modules/retry_handler.py: [retry_click] *)
Module RetryClick.

(** Whether an invocation ends the retry loop: it returned, or raised
    an exception outside the retried classes. *)
Definition settled {V : Type} (exceptions : Py.exn -> bool) (r : Py.result V) : bool :=
  match r with
  | Py.Ok _ => true
  | Py.Raise e => negb (exceptions e)
  end.

Section Click.
(** [click x k] is what waiting for the element of selector [x] and
    clicking it does on the invocation made after [k] earlier ones:
    [None] when the click went through, else the exception raised. *)
Variable click : string -> nat -> option Py.exn.
Variable random : nat -> Q.
Variable max_retries : Z.
(** [isinstance(e, WebDriverException)]. *)
Variable is_webdriver_exception : Py.exn -> bool.

Definition click_action (xpath_selector : string) (k : nat) : Py.result bool :=
  match click xpath_selector k with
  | None => Py.Ok true
  | Some e => Py.Raise e
  end.

(** The [for xpath_selector in xpaths_to_try] loop; each selector gets a
    [retry_with_backoff] of its own with [base_delay=1.0], and the world
    records the clicks and sleeps of all of them. *)
Fixpoint try_selectors (xpaths_to_try : list string) (w : RetryHandler.world)
    : Py.result bool * RetryHandler.world :=
  match xpaths_to_try with
  | [] => (Py.Ok false, w)
  | xpath_selector :: rest =>
      match RetryHandler.retry_loop (click_action xpath_selector) random max_retries 1
              is_webdriver_exception None (Z.to_nat (max_retries + 1)) 0%Z None w with
      | (Py.Ok clicked, w') => (Py.Ok clicked, w')
      | (Py.Raise e, w') =>
          if Py.is_Exception e then try_selectors rest w' else (Py.Raise e, w')
      end
  end.

(** A selector that can never be clicked: every try raises a
    [WebDriverException], which is an [Exception]. *)
Definition never_clicks (x : string) : Prop :=
  forall k, exists e, click x k = Some e
                      /\ is_webdriver_exception e = true /\ Py.is_Exception e = true.

Definition retry_click (xpath : string) (fallback_xpaths : list string)
    : Py.result bool * RetryHandler.world :=
  try_selectors (xpath :: fallback_xpaths) RetryHandler.start.

End Click.

End RetryClick.

(** ** modules/smart_filter.py: the tables kept in memory *)
Module SmartFilterState.

(** [self.viewed_jobs] and [self.rejected_companies]. The writes to disk
    that follow each change are not part of this model. *)
Record filter_state := FilterState {
  viewed_jobs : gset string;
  rejected : SmartFilter.rejected_companies
}.

Definition mark_as_viewed (st : filter_state) (job_id : string) : filter_state :=
  {| viewed_jobs := {[job_id]} ∪ viewed_jobs st; rejected := rejected st |}.

Definition is_viewed (st : filter_state) (job_id : string) : bool :=
  bool_decide (job_id ∈ viewed_jobs st).

(** [cleanup_old_data]: any positive [days] clears the viewed set. *)
Definition cleanup_old_data (st : filter_state) (days : Z) : filter_state :=
  if Z.ltb 0 days then {| viewed_jobs := ∅; rejected := rejected st |} else st.

(** [add_rejected_company]; [now_first] and [now_last] are the two
    readings of [datetime.now().isoformat()]. The [+= 1] reads the
    stored count, so an entry loaded without one raises [KeyError],
    before anything was changed. *)
Definition add_rejected_company (rc : SmartFilter.rejected_companies)
    (company reason now_first now_last : string)
    : Py.result SmartFilter.rejected_companies :=
  let cs := SmartFilter.companies_or_empty rc in
  let cs1 :=
    match cs !! company with
    | None =>
        <[company := {| SmartFilter.first_rejection := now_first;
                        SmartFilter.rejection_count := Some 0%Z;
                        SmartFilter.reasons := [];
                        SmartFilter.last_rejection := None |}]> cs
    | Some _ => cs
    end in
  match cs1 !! company with
  | Some e =>
      match SmartFilter.rejection_count e with
      | Some n =>
          let rs := SmartFilter.reasons e in
          let rs' := if existsb (String.eqb reason) rs then rs else (rs ++ [reason])%list in
          Py.Ok (Some (<[company := {| SmartFilter.first_rejection :=
                                         SmartFilter.first_rejection e;
                                       SmartFilter.rejection_count := Some (n + 1)%Z;
                                       SmartFilter.reasons := rs';
                                       SmartFilter.last_rejection := Some now_last |}]> cs1))
      | None => Py.Raise (Py.Exception "KeyError")
      end
  | None => Py.Raise (Py.Exception "KeyError")
  end.

(** Successive rejections of one company, each with its reason and its
    two clock readings. *)
Fixpoint add_rejections (rc : SmartFilter.rejected_companies) (company : string)
    (events : list (string * string * string))
    : Py.result SmartFilter.rejected_companies :=
  match events with
  | [] => Py.Ok rc
  | (reason, now_first, now_last) :: events' =>
      match add_rejected_company rc company reason now_first now_last with
      | Py.Ok rc' => add_rejections rc' company events'
      | Py.Raise e => Py.Raise e
      end
  end.

(** The count [should_skip_company] compares with the threshold. *)
Definition recorded_count (rc : SmartFilter.rejected_companies) (company : string)
    : option Z :=
  match SmartFilter.companies_or_empty rc !! company with
  | Some e => Some (default 0%Z (SmartFilter.rejection_count e))
  | None => None
  end.

End SmartFilterState.

(** ** modules/smart_filters.py: applicant threshold and title keywords *)
Module JobScreening.

(** [should_skip_high_applicants]; the element lookup is that of
    [extract_applicant_count]. *)
Definition should_skip_high_applicants (find_element : string -> option string)
    (threshold : Z) : bool * option string :=
  match SmartFilters.extract_applicant_count find_element with
  | None => (false, None)
  | Some applicant_count =>
      if Z.ltb threshold applicant_count then
        (true, Some ("Too many applicants (" ++ pretty applicant_count ++ " > "
                     ++ pretty threshold ++ ")"))
      else (false, None)
  end.

(** Why [match_title_keywords] skips a title. The source renders the
    first as a sentence quoting the keyword and the second as a sentence
    followed by the printed list. *)
Inductive title_reason :=
| ExcludedKeyword (keyword : string)
| RequiredMissing (required_keywords : list string).

(** The loop over [exclude_keywords]: the first keyword found in the
    title. *)
Fixpoint first_excluded (title_lower : string) (exclude_keywords : list string)
    : option string :=
  match exclude_keywords with
  | [] => None
  | keyword :: rest =>
      if PyStr.contains (PyStr.lower keyword) title_lower then Some keyword
      else first_excluded title_lower rest
  end.

(** [any(keyword.lower() in title_lower for keyword in required_keywords)]. *)
Definition has_required (title_lower : string) (required_keywords : list string) : bool :=
  existsb (fun keyword => PyStr.contains (PyStr.lower keyword) title_lower)
    required_keywords.

(** [match_title_keywords]; an absent [exclude_keywords] is the empty
    list. *)
Definition match_title_keywords (title : string)
    (required_keywords exclude_keywords : list string) : bool * option title_reason :=
  let title_lower := PyStr.lower title in
  match first_excluded title_lower exclude_keywords with
  | Some keyword => (true, Some (ExcludedKeyword keyword))
  | None =>
      match required_keywords with
      | [] => (false, None)
      | _ =>
          if has_required title_lower required_keywords then (false, None)
          else (true, Some (RequiredMissing required_keywords))
      end
  end.

(** A non-empty run of ASCII digits. *)
Fixpoint all_digits (s : string) : bool :=
  match s with
  | EmptyString => true
  | String c s' => (PyStr.is_digit c && all_digits s')%bool
  end.

Definition is_number (s : string) : Prop :=
  s <> EmptyString /\ all_digits s = true.

(** Whether a text starts with a character of the class. *)
Definition starts_with (cls : ascii -> bool) (s : string) : bool :=
  match s with
  | EmptyString => false
  | String c _ => cls c
  end.

End JobScreening.

(** ** modules/session_manager.py: saving, loading and clearing *)
Module CheckpointStore.

(** What happens to the file when [save_checkpoint] writes it:
    the write completes; or the directory or the file cannot be opened
    and the old file stays; or the file was opened, hence emptied, and
    the dump fails, which leaves text that does not parse. *)
Inductive write_outcome :=
| Written
| NotOpened
| Truncated.

(** [save_checkpoint]; [now_iso] is [datetime.now().isoformat()]. *)
Definition save_checkpoint (data : SessionManager.pyval) (now_iso : string)
    (io : write_outcome) (f : SessionManager.slot) : bool * SessionManager.slot :=
  match io with
  | Written =>
      (true,
       Some (Py.Ok (SessionManager.JObject
                      (<["timestamp" := SessionManager.PStr now_iso]>
                         (<["data" := data]> ∅)))))
  | NotOpened => (false, f)
  | Truncated => (false, Some (Py.Raise (Py.Exception "JSONDecodeError")))
  end.

(** [checkpoint.get('data')]. *)
Definition get_data (c : SessionManager.loaded) : Py.result SessionManager.pyval :=
  match c with
  | SessionManager.JObject d => Py.Ok (default SessionManager.PNone (d !! "data"))
  | SessionManager.JOther => Py.Raise (Py.Exception "AttributeError")
  end.

(** [load_checkpoint]; Python's [None] is [PNone]. The time stamp is
    read first, for the log line. *)
Definition load_checkpoint (f : SessionManager.slot) : Py.result SessionManager.pyval :=
  Py.try_except_Exception
    (match f with
     | None => Py.Ok SessionManager.PNone
     | Some content =>
         checkpoint <- content ;;
         _ <- SessionManager.get_timestamp checkpoint ;;
         get_data checkpoint
     end)
    (fun _ => Py.Ok SessionManager.PNone).

(** [clear_checkpoint]; [removed] tells whether [os.remove] went through. *)
Definition clear_checkpoint (removed : bool) (f : SessionManager.slot)
    : bool * SessionManager.slot :=
  match f with
  | None => (true, None)
  | Some _ => if removed then (true, None) else (false, f)
  end.

End CheckpointStore.

(** ** modules/external/greenhouse_handler.py and ats_detector.py: site checks *)
Module SiteChecks.

(** [is_greenhouse_site]. *)
Definition is_greenhouse_site (d : AtsDetector.driver) : bool :=
  let url := PyStr.lower (AtsDetector.current_url d) in
  (PyStr.contains "greenhouse.io" url || PyStr.contains "boards.greenhouse.io" url)%bool.

(** Every selector of [ATS_DOM_SIGNATURES], in probing order. *)
Definition all_signatures : list string :=
  concat (map snd AtsDetector.ATS_DOM_SIGNATURES).

(** Whether probing a selector finds an element. *)
Definition finds (d : AtsDetector.driver) (selector : string) : bool :=
  match AtsDetector.find_elements d selector with
  | Py.Ok n => Nat.ltb 0 n
  | Py.Raise _ => false
  end.

End SiteChecks.

(** ** modules/external/universal_form_filler.py: detecting and filling a field *)
Module FieldDetection.

Definition STANDARD_FIELD_PATTERNS : list (string * list string) :=
  [ ("first_name", ["first_name"; "firstname"; "fname"; "given_name"; "forename";
                    "first name"; "given name"]);
    ("last_name", ["last_name"; "lastname"; "lname"; "surname"; "family_name";
                   "last name"; "family name"]);
    ("full_name", ["full_name"; "fullname"; "name"; "your_name"; "applicant_name";
                   "full name"; "your name"]);
    ("email", ["email"; "email_address"; "e_mail"; "mail"; "contact_email";
               "email address"; "e-mail"]);
    ("phone", ["phone"; "phone_number"; "mobile"; "telephone"; "contact_number";
               "phone number"; "mobile number"; "tel"]);
    ("linkedin", ["linkedin"; "linkedin_url"; "linkedin_profile"; "linkedin url"]);
    ("website", ["website"; "portfolio"; "personal_website"; "url"; "homepage"]);
    ("github", ["github"; "github_url"; "github_username"]) ].

(** A form field as the code uses it: reading an attribute, the text of
    the label that precedes it, clearing it and typing into it; each may
    raise. *)
Record web_element := WebElement {
  get_attribute : string -> Py.result (option string);
  preceding_label : Py.result string;
  clear : Py.result unit;
  send_keys : string -> Py.result unit
}.

(** [field.get_attribute(name) or dflt]. *)
Definition attribute_or (field : web_element) (name dflt : string) : Py.result string :=
  v <- get_attribute field name ;;
  Py.Ok (match v with
         | Some EmptyString | None => dflt
         | Some s => s
         end).

(** The inner [for pattern in patterns] loop. *)
Fixpoint any_pattern (patterns : list string) (combined_text : string) : bool :=
  match patterns with
  | [] => false
  | pattern :: patterns' =>
      if PyStr.contains pattern combined_text then true
      else any_pattern patterns' combined_text
  end.

(** The pattern loops, ending in ['unknown']. *)
Fixpoint match_patterns (table : list (string * list string)) (combined_text : string)
    : string :=
  match table with
  | [] => "unknown"
  | (field_type, patterns) :: table' =>
      if any_pattern patterns combined_text then field_type
      else match_patterns table' combined_text
  end.

(** The loop over [[field_name, field_id]]: the first non-empty
    identifier for which the knowledge base gives a non-empty type. *)
Fixpoint known_type (kb : FieldKnowledgeBase.knowledge) (identifiers : list string)
    (ats_platform : string) : option string :=
  match identifiers with
  | [] => None
  | identifier :: rest =>
      if String.eqb identifier "" then known_type kb rest ats_platform
      else
        match FieldKnowledgeBase.get_field_type kb identifier ats_platform with
        | Some t => if String.eqb t "" then known_type kb rest ats_platform else Some t
        | None => known_type kb rest ats_platform
        end
  end.

(** The text the patterns are searched in. *)
Definition combined (field_name field_id field_placeholder label_text : string) : string :=
  PyStr.lower (field_name ++ " " ++ field_id ++ " " ++ field_placeholder ++ " "
               ++ label_text).

Definition detect_field_type (field : web_element)
    (knowledge_base : option FieldKnowledgeBase.knowledge) (ats_platform : string)
    : Py.result string :=
  Py.try_except_Exception
    (field_name <- attribute_or field "name" "" ;;
     field_id <- attribute_or field "id" "" ;;
     field_placeholder <- attribute_or field "placeholder" "" ;;
     let label_text :=
       match preceding_label field with
       | Py.Ok t => t
       | Py.Raise _ => ""
       end in
     let combined_text := combined field_name field_id field_placeholder label_text in
     match match knowledge_base with
           | Some kb => known_type kb [field_name; field_id] ats_platform
           | None => None
           end with
     | Some t => Py.Ok t
     | None => Py.Ok (match_patterns STANDARD_FIELD_PATTERNS combined_text)
     end)
    (fun _ => Py.Ok "unknown").

(** What [fill_field] tried to do to the element, oldest first. *)
Inductive action :=
| Cleared
| Typed (text : string).

(** [fill_field]; the profile maps a field type to the text to type. *)
Definition fill_field (field : web_element) (field_type : string)
    (user_data : gmap string string) : Py.result bool * list action :=
  match default "" (user_data !! field_type) with
  | EmptyString => (Py.Ok false, [])
  | value =>
      match clear field with
      | Py.Raise e =>
          (Py.try_except_Exception (Py.Raise e) (fun _ => Py.Ok false), [Cleared])
      | Py.Ok _ =>
          match send_keys field value with
          | Py.Raise e =>
              (Py.try_except_Exception (Py.Raise e) (fun _ => Py.Ok false),
               [Cleared; Typed value])
          | Py.Ok _ => (Py.Ok true, [Cleared; Typed value])
          end
      end
  end.

(** A field all of whose attributes can be read. *)
Definition readable (field : web_element) (field_name field_id field_placeholder : string)
    : Prop :=
  attribute_or field "name" "" = Py.Ok field_name
  /\ attribute_or field "id" "" = Py.Ok field_id
  /\ attribute_or field "placeholder" "" = Py.Ok field_placeholder.

Definition label_or_empty (field : web_element) : string :=
  match preceding_label field with
  | Py.Ok t => t
  | Py.Raise _ => ""
  end.

End FieldDetection.

(** ** modules/external/greenhouse_handler.py: filling an application *)
Module GreenhouseHandler.

(** A file input: assigning the path directly, and the scripted
    drag-and-drop used when that fails. *)
Record file_input := FileInput {
  direct_upload : Py.result unit;
  scripted_upload : Py.result unit
}.

(** [upload_file_drag_drop] (universal_form_filler.py). *)
Definition upload_file_drag_drop (input : file_input) : Py.result bool :=
  Py.try_except_Exception
    (_ <- direct_upload input ;; Py.Ok true)
    (fun _ =>
       Py.try_except_Exception
         (_ <- scripted_upload input ;; Py.Ok true)
         (fun _ => Py.Ok false)).

(** The page: its text inputs, its file inputs, and for a submit
    selector whether a control is found and its text can be read. *)
Record page := Page {
  input_fields : Py.result (list FieldDetection.web_element);
  file_inputs : Py.result (list file_input);
  find_submit : string -> Py.result unit
}.

(** The selectors are opaque keys here; their inner quotation marks are
    written as apostrophes. *)
Definition submit_selectors : list string :=
  [ "button[type='submit']"; "input[type='submit']"; "button[id*='submit']";
    "button[class*='submit']"; "button:contains('Submit')"; "button:contains('Apply')" ].

(** The message returned with the success flag; the source renders it
    as a sentence with the number of fields, or with the text of the
    exception. *)
Inductive report :=
| FormFilled (filled_count : nat)
| PartiallyFilled (filled_count : nat)
| NoFieldsFilled
| ApplicationFailed (e : Py.exn).

(** The number of filled fields a report speaks of. *)
Definition reported_count (r : report) : nat :=
  match r with
  | FormFilled n | PartiallyFilled n => n
  | NoFieldsFilled | ApplicationFailed _ => 0
  end.

(** [field.get_attribute('name') or field.get_attribute('id')]. *)
Definition name_or_id (field : FieldDetection.web_element) : Py.result (option string) :=
  v <- FieldDetection.get_attribute field "name" ;;
  match v with
  | Some EmptyString | None => FieldDetection.get_attribute field "id"
  | Some s => Py.Ok (Some s)
  end.

Section Fill.
Context {Client : Type}.
Variable gemini_completion :
  Client -> list (string * string) -> Py.result UniversalFormFiller.response.
Variable gemini_client : option Client.
Variable user_data : gmap string string.

(** The knowledge base object, if one was passed, and [filled_count]. *)
Definition state : Type := option FieldKnowledgeBase.knowledge * nat.

(** The metadata sent to the classifier. *)
Definition field_info (field : FieldDetection.web_element)
    : Py.result (gmap string string) :=
  label <- FieldDetection.attribute_or field "aria-label" "" ;;
  name <- FieldDetection.attribute_or field "name" "" ;;
  id <- FieldDetection.attribute_or field "id" "" ;;
  placeholder <- FieldDetection.attribute_or field "placeholder" "" ;;
  type <- FieldDetection.attribute_or field "type" "text" ;;
  Py.Ok (<["type" := type]> (<["placeholder" := placeholder]> (<["id" := id]>
           (<["name" := name]> (<["label" := label]> ∅))))).

(** The type used for filling: the detected one, or the classifier's
    answer when detection says ['unknown'] and a client was passed. *)
Definition resolve_type (field : FieldDetection.web_element)
    (kb : option FieldKnowledgeBase.knowledge) : Py.result string :=
  field_type <- FieldDetection.detect_field_type field kb "greenhouse" ;;
  if String.eqb field_type "unknown" then
    match gemini_client with
    | Some client =>
        info <- field_info field ;;
        UniversalFormFiller.classify_field_with_gemini gemini_completion client info
    | None => Py.Ok field_type
    end
  else Py.Ok field_type.

(** The body of the loop over the input fields, with its
    [except Exception: continue]. *)
Definition process_field (st : state) (field : FieldDetection.web_element)
    : Py.result state :=
  Py.try_except_Exception
    (field_type <- resolve_type field (fst st) ;;
     if String.eqb field_type "unknown" then Py.Ok st
     else
       success <- fst (FieldDetection.fill_field field field_type user_data) ;;
       if success : bool then
         let counted : state := (fst st, S (snd st)) in
         match fst st with
         | None => Py.Ok counted
         | Some kb =>
             Py.try_except_Exception
               (field_name <- name_or_id field ;;
                match field_name with
                | Some EmptyString | None => Py.Ok counted
                | Some n =>
                    Py.Ok (Some (FieldKnowledgeBase.learn_field_mapping
                                   kb n field_type "greenhouse"), S (snd st))
                end)
               (fun _ => Py.Ok counted)
         end
       else Py.Ok st)
    (fun _ => Py.Ok st).

(** The loop; an exception that is not an [Exception] ends it. *)
Fixpoint fill_fields (fields : list FieldDetection.web_element) (st : state)
    : Py.result unit * state :=
  match fields with
  | [] => (Py.Ok tt, st)
  | field :: rest =>
      match process_field st field with
      | Py.Ok st' => fill_fields rest st'
      | Py.Raise e => (Py.Raise e, st)
      end
  end.

(** The resume block: only the first file input is used, and only when
    a path was given. *)
Definition upload_resume (p : page) (resume_path : string) : Py.result unit :=
  Py.try_except_Exception
    (inputs <- file_inputs p ;;
     match inputs with
     | input :: _ =>
         if String.eqb resume_path "" then Py.Ok tt
         else (_ <- upload_file_drag_drop input ;; Py.Ok tt)
     | [] => Py.Ok tt
     end)
    (fun _ => Py.Ok tt).

(** Whether the search over [submit_selectors] finds a control. *)
Definition submit_found (p : page) : bool :=
  existsb (fun selector =>
             match find_submit p selector with
             | Py.Ok _ => true
             | Py.Raise _ => false
             end) submit_selectors.

(** The outer [except Exception]. *)
Definition failed (e : Py.exn) : Py.result (bool * report) :=
  if Py.is_Exception e then Py.Ok (false, ApplicationFailed e) else Py.Raise e.

(** [fill_greenhouse_application]: the returned pair, and the knowledge
    base object as the call leaves it. *)
Definition fill_greenhouse_application (p : page) (resume_path : string)
    (knowledge_base : option FieldKnowledgeBase.knowledge)
    : Py.result (bool * report) * option FieldKnowledgeBase.knowledge :=
  match input_fields p with
  | Py.Raise e => (failed e, knowledge_base)
  | Py.Ok fields =>
      match fill_fields fields (knowledge_base, 0%nat) with
      | (Py.Raise e, (kb, _)) => (failed e, kb)
      | (Py.Ok _, (kb, filled_count)) =>
          match upload_resume p resume_path with
          | Py.Raise e => (failed e, kb)
          | Py.Ok _ =>
              if submit_found p then (Py.Ok (true, FormFilled filled_count), kb)
              else if Nat.ltb 0 filled_count
                   then (Py.Ok (true, PartiallyFilled filled_count), kb)
                   else (Py.Ok (false, NoFieldsFilled), kb)
          end
      end
  end.

(** What a teaching done by the handler looks like: a non-empty
    identifier, a type other than ['unknown'] for which the profile holds
    a non-empty text, on the platform ['greenhouse']. *)
Definition taught_by_fill (call : string * string * string) : Prop :=
  let '(identifier, field_type, platform) := call in
  platform = "greenhouse" /\ identifier <> ""
  /\ field_type <> "unknown"
  /\ exists value, user_data !! field_type = Some value /\ value <> "".

(** What the state can be after a field was processed. *)
Definition step_teaches (st st' : state) : Prop :=
  (snd st <= snd st')%nat
  /\ (fst st = None -> fst st' = None)
  /\ forall kb, fst st = Some kb ->
       exists calls,
         fst st' = Some (FieldKnowledgeBase.learn_all calls kb)
         /\ Forall (taught_by_fill) calls
         /\ (snd st + length calls <= snd st')%nat.

End Fill.

End GreenhouseHandler.

(** * Sample inputs *)

(** A fresh knowledge base taught one mapping, without and with a
    platform. *)
Definition taught_email : FieldKnowledgeBase.knowledge :=
  FieldKnowledgeBase.learn_field_mapping
    FieldKnowledgeBase.empty_knowledge "applicant_email" "email" "unknown".

Definition taught_email_on_greenhouse : FieldKnowledgeBase.knowledge :=
  FieldKnowledgeBase.learn_field_mapping
    FieldKnowledgeBase.empty_knowledge "applicant_email" "email" "greenhouse".

(** A rejection table with a company at the threshold and one below it. *)
Definition sample_rejections : SmartFilter.rejected_companies :=
  Some (<["Acme" := {| SmartFilter.first_rejection := "2024-05-01T10:00:00";
                       SmartFilter.rejection_count := Some 2;
                       SmartFilter.reasons := ["Rejected application"];
                       SmartFilter.last_rejection := Some "2024-05-03T09:30:00" |}]>
        (<["Bolt" := {| SmartFilter.first_rejection := "2024-05-02T08:00:00";
                        SmartFilter.rejection_count := Some 1;
                        SmartFilter.reasons := ["Rejected application"];
                        SmartFilter.last_rejection := Some "2024-05-02T08:00:00" |}]> ∅)).


(** A parser that knows two time stamps, for the examples below; times
    are microseconds counted from 2024-01-01T00:00:00. *)
Definition two_stamps (s : string) : Py.result SessionManager.datetime :=
  if String.eqb s "2024-01-01T00:00:00" then Py.Ok (SessionManager.Naive 0)
  else if String.eqb s "2024-01-02T00:00:00"
       then Py.Ok (SessionManager.Naive (24 * SessionManager.hour))
       else Py.Raise (Py.Exception "ValueError").

Definition checkpoint_at (stamp : string) : SessionManager.slot :=
  Some (Py.Ok (SessionManager.JObject
                 (<["timestamp" := SessionManager.PStr stamp]>
                    (<["data" := SessionManager.POther true]> ∅)))).

(** A service that always answers with the given text. *)
Definition answers (reply : string) (_ : unit) (_ : list (string * string))
    : Py.result UniversalFormFiller.response :=
  Py.Ok (UniversalFormFiller.Text reply).

Definition failing_service (_ : unit) (_ : list (string * string))
    : Py.result UniversalFormFiller.response :=
  Py.Raise (Py.Exception "ConnectionError").

(** A click that never finds its element. *)
Definition never_clickable (_ : nat) : Py.result bool :=
  Py.Raise (Py.Exception "TimeoutException").

(** A knowledge base in which two types tie for the largest count. *)
Definition tied_knowledge : FieldKnowledgeBase.knowledge :=
  {| FieldKnowledgeBase.field_mappings :=
       <["contact" := [("email", 2); ("phone", 3); ("city", 3)]]> ∅;
     FieldKnowledgeBase.ats_specific_mappings := ∅ |}.

(** A click that goes through on the third try. *)
Definition clicks_on_third_try (k : nat) : Py.result bool :=
  if Nat.ltb k 2 then Py.Raise (Py.Exception "StaleElementReferenceException")
  else Py.Ok true.

(** A page on which no selector is ever clickable, and one on which
    only the second fallback selector is, from its second try on. *)
Definition nothing_clickable (_ : string) (_ : nat) : option Py.exn :=
  Some (Py.Exception "TimeoutException").

Definition only_apply_button (x : string) (k : nat) : option Py.exn :=
  if (String.eqb x "//button[text()='Apply']" && Nat.leb 9 k)%bool then None
  else Some (Py.Exception "TimeoutException").

Definition is_selenium_exception (e : Py.exn) : bool :=
  match e with
  | Py.Exception name =>
      (String.eqb name "TimeoutException" || String.eqb name "WebDriverException")%bool
  | Py.BaseOnly _ => false
  end.

(** A callback that records nothing and never raises. *)
Definition quiet_callback (_ : Z) (_ : Py.exn) : option Py.exn := None.

(** A text input named [email] with the id [username], under the label
    [Work e-mail]. *)
Definition email_input : FieldDetection.web_element :=
  {| FieldDetection.get_attribute := fun name =>
       if String.eqb name "name" then Py.Ok (Some "email")
       else if String.eqb name "id" then Py.Ok (Some "username")
       else Py.Ok None;
     FieldDetection.preceding_label := Py.Ok "Work e-mail";
     FieldDetection.clear := Py.Ok tt;
     FieldDetection.send_keys := fun _ => Py.Ok tt |}.

(** An applicant profile. *)
Definition sample_profile : gmap string string :=
  <["email" := "ada@example.org"]> (<["first_name" := "Ada"]> (<["phone" := ""]> ∅)).

(** A page without text inputs that shows a submit button. *)
Definition bare_submit_page : GreenhouseHandler.page :=
  {| GreenhouseHandler.input_fields := Py.Ok [];
     GreenhouseHandler.file_inputs := Py.Ok [];
     GreenhouseHandler.find_submit := fun selector =>
       if String.eqb selector "input[type='submit']" then Py.Ok tt
       else Py.Raise (Py.Exception "NoSuchElementException") |}.

(** * Verified properties *)

(** ** Substring search *)
Section Substrings.

Lemma startswith_app (pat post : string) : PyStr.startswith pat (pat ++ post) = true.
Proof.
  induction pat as [|c pat IH]; simpl; [reflexivity|].
  now rewrite Ascii.eqb_refl.
Qed.

Lemma startswith_inv (pat s : string) :
  PyStr.startswith pat s = true -> exists post, s = pat ++ post.
Proof.
  revert s; induction pat as [|c pat IH]; intros s H.
  - exists s; reflexivity.
  - destruct s as [|c' s]; simpl in H; [discriminate|].
    destruct (Ascii.eqb_spec c c') as [->|]; [|discriminate].
    destruct (IH _ H) as [post ->]. exists post; reflexivity.
Qed.

Lemma contains_inv (pat s : string) :
  PyStr.contains pat s = true -> exists pre post, s = pre ++ pat ++ post.
Proof.
  induction s as [|c s IH]; simpl; intros H.
  - destruct (PyStr.startswith pat "") eqn:E; [|discriminate].
    apply startswith_inv in E as [post E]. exists "", post. exact E.
  - destruct (PyStr.startswith pat (String c s)) eqn:E.
    + apply startswith_inv in E as [post E]. exists "", post. exact E.
    + destruct (IH H) as (pre & post & ->).
      exists (String c pre), post. reflexivity.
Qed.

Lemma contains_intro (pat pre post : string) :
  PyStr.contains pat (pre ++ pat ++ post) = true.
Proof.
  induction pre as [|c pre IH]; simpl.
  - destruct (pat ++ post) eqn:E; simpl; rewrite <- E, startswith_app; reflexivity.
  - rewrite IH. now destruct (PyStr.startswith pat _).
Qed.

Lemma append_assoc3 (pre a rest : string) :
  pre ++ (a ++ rest) = (pre ++ a) ++ rest.
Proof.
  induction pre as [|c pre IH]; [reflexivity|].
  change (String c (pre ++ (a ++ rest)) = String c ((pre ++ a) ++ rest)).
  now rewrite IH.
Qed.

(** A text that contains [a ++ b] contains [b]. *)
Lemma contains_suffix (a b s : string) :
  PyStr.contains (a ++ b) s = true -> PyStr.contains b s = true.
Proof.
  intros H. apply contains_inv in H as (pre & post & ->).
  rewrite <- (append_assoc3 a b post), (append_assoc3 pre a (b ++ post)).
  apply contains_intro.
Qed.

End Substrings.

(** ** Smart filter *)

(** C7. [calculate_job_priority(5, 0, True, 0)] is 95, and whatever the
    applicant count, posting age, easy-apply flag and rejection count
    are, the score lies between 0 and 100. *)
Theorem calculate_job_priority_example_and_range :
  SmartFilter.calculate_job_priority (Some 5) (Some 0) true 0 = 95
  /\ forall (applicant_count days_posted : option Z) (is_easy_apply : bool)
            (company_rejection_count : Z),
       0 <= SmartFilter.calculate_job_priority applicant_count days_posted
              is_easy_apply company_rejection_count <= 100.
Proof.
  split; [reflexivity|].
  intros a d e r. unfold SmartFilter.calculate_job_priority. lia.
Qed.

(** C6. A company is skipped exactly when the table holds an entry for
    it whose rejection count reaches the threshold; with threshold 2 a
    count of 2 is skipped and a count of 1 is not, and a company without
    an entry is never skipped. *)
Theorem should_skip_company_threshold
    (rc : SmartFilter.rejected_companies) (company : string) (rejection_threshold : Z) :
  (SmartFilter.should_skip_company rc company rejection_threshold = true <->
     exists e, SmartFilter.companies_or_empty rc !! company = Some e
               /\ rejection_threshold <= default 0 (SmartFilter.rejection_count e))
  /\ (forall e, SmartFilter.companies_or_empty rc !! company = Some e ->
        SmartFilter.rejection_count e = Some 2 ->
        SmartFilter.should_skip_company rc company 2 = true)
  /\ (forall e, SmartFilter.companies_or_empty rc !! company = Some e ->
        SmartFilter.rejection_count e = Some 1 ->
        SmartFilter.should_skip_company rc company 2 = false)
  /\ (SmartFilter.companies_or_empty rc !! company = None ->
        SmartFilter.should_skip_company rc company rejection_threshold = false).
Proof.
  unfold SmartFilter.should_skip_company.
  repeat split.
  - destruct (SmartFilter.companies_or_empty rc !! company) as [e|]; [|discriminate].
    intros H. exists e. split; [reflexivity|]. now apply Z.leb_le.
  - intros (e & -> & H). now apply Z.leb_le.
  - intros e -> ->. reflexivity.
  - intros e -> ->. reflexivity.
  - intros ->. reflexivity.
Qed.

Lemma should_skip_company_threshold_witness :
  SmartFilter.should_skip_company sample_rejections "Acme" 2 = true
  /\ SmartFilter.should_skip_company sample_rejections "Bolt" 2 = false
  /\ SmartFilter.should_skip_company sample_rejections "Cato" 2 = false.
Proof.
  split; [|split].
  - apply (proj1 (proj2 (should_skip_company_threshold sample_rejections "Acme" 2))
             {| SmartFilter.first_rejection := "2024-05-01T10:00:00";
                SmartFilter.rejection_count := Some 2;
                SmartFilter.reasons := ["Rejected application"];
                SmartFilter.last_rejection := Some "2024-05-03T09:30:00" |});
      reflexivity.
  - apply (proj1 (proj2 (proj2 (should_skip_company_threshold sample_rejections "Bolt" 2)))
             {| SmartFilter.first_rejection := "2024-05-02T08:00:00";
                SmartFilter.rejection_count := Some 1;
                SmartFilter.reasons := ["Rejected application"];
                SmartFilter.last_rejection := Some "2024-05-02T08:00:00" |});
      reflexivity.
  - apply (proj2 (proj2 (proj2 (should_skip_company_threshold sample_rejections "Cato" 2))));
      reflexivity.
Defined.

(** C3. On the three phrasings the class method returns 37 for
    ["37 applicants"] and 150 for ["Over 100 applicants"], but 50, not
    25, for ["Be in the first 50 applicants"]: the [N applicants] rule
    is tried before the [first N] rule and already matches. The halving
    rule is reached only without the word [applicants]. The module-level
    extractor returns 37, 100 and 50. *)
Theorem extract_applicant_count_three_phrasings :
  SmartFilter.extract_applicant_count "37 applicants" = Some 37
  /\ SmartFilter.extract_applicant_count "Over 100 applicants" = Some 150
  /\ SmartFilter.extract_applicant_count "Be in the first 50 applicants" = Some 50
  /\ SmartFilter.extract_applicant_count "Be in the first 50" = Some 25
  /\ SmartFilters.count_of_text "37 applicants" = Some 37
  /\ SmartFilters.count_of_text "Over 100 applicants" = Some 100
  /\ SmartFilters.count_of_text "Be in the first 50 applicants" = Some 50
  /\ SmartFilters.extract_applicant_count
       (fun selector =>
          if String.eqb selector ".//span[contains(text(), 'applicant')]"
          then Some "Be in the first 50 applicants" else None) = Some 50.
Proof. vm_compute. repeat split. Qed.

(** ** ATS detection *)
Section UrlTable.





End UrlTable.



(** ** Checkpoint staleness *)
Section Staleness.

(** [age_hours < 24] holds exactly below 24 hours of microseconds. *)
Lemma age_below_24 (delta : Z) :
  SessionManager.Qltb
    (SessionManager.total_seconds delta / inject_Z 3600)%Q (inject_Z 24) = true
  <-> delta < 24 * SessionManager.hour.
Proof.
  unfold SessionManager.Qltb, SessionManager.total_seconds, SessionManager.hour,
    Qle_bool, Qdiv, Qmult, Qinv, inject_Z.
  simpl. rewrite negb_true_iff, Z.leb_gt. lia.
Qed.

Lemma age_not_below_24 (delta : Z) :
  SessionManager.Qltb
    (SessionManager.total_seconds delta / inject_Z 3600)%Q (inject_Z 24) = false
  <-> 24 * SessionManager.hour <= delta.
Proof.
  rewrite <- not_true_iff_false, age_below_24. lia.
Qed.

End Staleness.

(** C5. [should_resume] always returns, and returns [True] exactly when
    the checkpoint file exists, parses to an object whose [timestamp] is
    a non-empty string that [fromisoformat] reads as a naive time less
    than 24 hours before now. A time stamp of 25 hours ago gives
    [False], one of 1 hour ago gives [True]. *)
Theorem should_resume_iff_fresh
    (fromisoformat : string -> Py.result SessionManager.datetime)
    (f : SessionManager.slot) (now : Z) :
  (exists b, SessionManager.should_resume fromisoformat f now = Py.Ok b)
  /\ (SessionManager.should_resume fromisoformat f now = Py.Ok true <->
        exists d s t,
          f = Some (Py.Ok (SessionManager.JObject d))
          /\ d !! "timestamp" = Some (SessionManager.PStr s)
          /\ s <> ""
          /\ fromisoformat s = Py.Ok (SessionManager.Naive t)
          /\ now - t < 24 * SessionManager.hour)
  /\ (forall d s,
        f = Some (Py.Ok (SessionManager.JObject d)) ->
        d !! "timestamp" = Some (SessionManager.PStr s) -> s <> "" ->
        (fromisoformat s = Py.Ok (SessionManager.Naive (now - 25 * SessionManager.hour)) ->
           SessionManager.should_resume fromisoformat f now = Py.Ok false)
        /\ (fromisoformat s = Py.Ok (SessionManager.Naive (now - 1 * SessionManager.hour)) ->
           SessionManager.should_resume fromisoformat f now = Py.Ok true)).
Proof.
  assert (Hiff : SessionManager.should_resume fromisoformat f now = Py.Ok true <->
        exists d s t,
          f = Some (Py.Ok (SessionManager.JObject d))
          /\ d !! "timestamp" = Some (SessionManager.PStr s)
          /\ s <> ""
          /\ fromisoformat s = Py.Ok (SessionManager.Naive t)
          /\ now - t < 24 * SessionManager.hour).
  { unfold SessionManager.should_resume, SessionManager.should_resume_body,
      Py.try_except_all, Py.bind.
    split.
    - destruct f as [[[d|]|e]|]; simpl; try discriminate.
      destruct (d !! "timestamp") as [[|z|s|b]|] eqn:Ets; simpl; try discriminate.
      + destruct (negb (z =? 0)%Z); discriminate.
      + destruct (String.eqb_spec s "") as [->|Hs]; simpl; [discriminate|].
        destruct (fromisoformat s) as [[t|t]|e] eqn:Eiso; simpl; try discriminate.
        intros H. injection H as H. apply age_below_24 in H.
        exists d, s, t. auto.
      + destruct b; discriminate.
    - intros (d & s & t & -> & Ets & Hs & Eiso & Hage). simpl.
      rewrite Ets. simpl.
      destruct (String.eqb_spec s "") as [->|_]; [contradiction|]. simpl.
      rewrite Eiso. simpl. f_equal. now apply age_below_24. }
  assert (Htotal : exists b, SessionManager.should_resume fromisoformat f now = Py.Ok b).
  { unfold SessionManager.should_resume, Py.try_except_all.
    destruct (SessionManager.should_resume_body fromisoformat f now) as [b|e]; eauto. }
  split; [exact Htotal|]. split; [exact Hiff|].
  intros d s Hf Hts Hs. split; intros Hiso.
  - destruct Htotal as [[|] Hb]; [|exact Hb].
    apply Hiff in Hb as (d' & s' & t & Hf' & Hts' & _ & Hiso' & Hage).
    rewrite Hf in Hf'. injection Hf' as <-.
    rewrite Hts in Hts'. injection Hts' as <-.
    rewrite Hiso in Hiso'. injection Hiso' as <-.
    unfold SessionManager.hour in Hage. lia.
  - apply Hiff. exists d, s, (now - 1 * SessionManager.hour).
    repeat split; try assumption. unfold SessionManager.hour. lia.
Qed.

Lemma should_resume_iff_fresh_witness :
  SessionManager.should_resume two_stamps (checkpoint_at "2024-01-01T00:00:00")
      (25 * SessionManager.hour) = Py.Ok false
  /\ SessionManager.should_resume two_stamps (checkpoint_at "2024-01-02T00:00:00")
      (25 * SessionManager.hour) = Py.Ok true.
Proof.
  split.
  - apply (proj1 (proj2 (proj2 (should_resume_iff_fresh two_stamps
             (checkpoint_at "2024-01-01T00:00:00") (25 * SessionManager.hour)))
             (<["timestamp" := SessionManager.PStr "2024-01-01T00:00:00"]>
                (<["data" := SessionManager.POther true]> ∅))
             "2024-01-01T00:00:00" eq_refl eq_refl
             ltac:(discriminate))).
    reflexivity.
  - apply (proj2 (proj2 (proj2 (should_resume_iff_fresh two_stamps
             (checkpoint_at "2024-01-02T00:00:00") (25 * SessionManager.hour)))
             (<["timestamp" := SessionManager.PStr "2024-01-02T00:00:00"]>
                (<["data" := SessionManager.POther true]> ∅))
             "2024-01-02T00:00:00" eq_refl eq_refl
             ltac:(discriminate))).
    reflexivity.
Defined.

(** ** AI classification fallback *)

(** C4. Whatever the service does, the classifier returns a tag unless
    a non-[Exception] is raised: [unknown] when the call raises an
    [Exception] or returns something that is not text, and otherwise the
    returned text stripped and lower-cased, which is the allowed tag when
    that text is one of the categories. The reply is not compared with
    the category list. *)
Theorem classify_field_with_gemini_result {Client : Type}
    (gemini_completion : Client -> list (string * string) ->
                         Py.result UniversalFormFiller.response)
    (gemini_client : Client) (field_info : gmap string string) :
  let call := gemini_completion gemini_client
                [("user", UniversalFormFiller.prompt field_info)] in
  let classified := UniversalFormFiller.classify_field_with_gemini
                      gemini_completion gemini_client field_info in
  (forall e, call = Py.Raise e -> Py.is_Exception e = true ->
             classified = Py.Ok "unknown")
  /\ (call = Py.Ok UniversalFormFiller.NotText -> classified = Py.Ok "unknown")
  /\ (forall s, call = Py.Ok (UniversalFormFiller.Text s) ->
                classified = Py.Ok (PyStr.lower (PyStr.strip s)))
  /\ (forall s, call = Py.Ok (UniversalFormFiller.Text s) ->
                In (PyStr.lower (PyStr.strip s)) UniversalFormFiller.CATEGORIES ->
                exists tag, In tag UniversalFormFiller.CATEGORIES
                            /\ classified = Py.Ok tag).
Proof.
  intros call classified. subst classified.
  unfold UniversalFormFiller.classify_field_with_gemini,
    UniversalFormFiller.classify_body, Py.try_except_Exception, Py.bind.
  fold call.
  repeat split.
  - intros e -> He. now rewrite He.
  - intros ->. reflexivity.
  - intros s ->. reflexivity.
  - intros s -> Hin. eauto.
Qed.

Lemma classify_field_with_gemini_result_witness :
  UniversalFormFiller.classify_field_with_gemini failing_service tt ∅ = Py.Ok "unknown"
  /\ UniversalFormFiller.classify_field_with_gemini (answers "  Email ") tt ∅
     = Py.Ok "email".
Proof.
  split.
  - apply (proj1 (classify_field_with_gemini_result failing_service tt ∅)
             (Py.Exception "ConnectionError")); reflexivity.
  - apply (proj1 (proj2 (proj2 (classify_field_with_gemini_result
                                  (answers "  Email ") tt ∅))) "  Email ").
    reflexivity.
Defined.

(** C4 as stated fails: a reply outside the category list is returned
    as the classification instead of [unknown]. *)
Lemma classify_field_with_gemini_outside_list :
  UniversalFormFiller.classify_field_with_gemini (answers " Date_Of_Birth ") tt ∅
    = Py.Ok "date_of_birth"
  /\ ~ In "date_of_birth" UniversalFormFiller.CATEGORIES
  /\ UniversalFormFiller.classify_field_with_gemini (answers " Date_Of_Birth ") tt ∅
    <> Py.Ok "unknown".
Proof.
  split; [vm_compute; reflexivity|]. split.
  - unfold UniversalFormFiller.CATEGORIES. simpl.
    intros H. repeat (destruct H as [H|H]; [discriminate|]). exact H.
  - vm_compute. discriminate.
Qed.

(** ** Retry with back-off *)
Section AlwaysFailing.
Context {V : Type}.
Variable func : nat -> Py.result V.
Variable random : nat -> Q.
Variable max_retries : Z.
Variable base_delay : Q.
Variable exceptions : Py.exn -> bool.

(** Every invocation raises an exception of the retried classes. *)
Hypothesis always_fails :
  forall k, exists e, func k = Py.Raise e /\ exceptions e = true.

Lemma after_failure_calls (attempt : Z) (w : RetryHandler.world) :
  RetryHandler.calls (RetryHandler.after_failure random max_retries base_delay attempt w) = S (RetryHandler.calls w).
Proof. unfold RetryHandler.after_failure. now destruct (Z.ltb attempt max_retries). Qed.

(** One iteration of the loop on a failing invocation. *)
Lemma retry_loop_step (remaining : nat) (attempt : Z) (last : option Py.exn)
    (w : RetryHandler.world) :
  exists e, func (RetryHandler.calls w) = Py.Raise e
    /\ RetryHandler.retry_loop func random max_retries base_delay exceptions None
         (S remaining) attempt last w
       = RetryHandler.retry_loop func random max_retries base_delay exceptions None
           remaining (attempt + 1) (Some e) (RetryHandler.after_failure random max_retries base_delay attempt w).
Proof.
  destruct (always_fails (RetryHandler.calls w)) as (e & He & Hex).
  exists e. split; [exact He|].
  simpl. rewrite He, Hex. unfold RetryHandler.after_failure.
  now destruct (Z.ltb attempt max_retries).
Qed.

(** Without a callback the loop uses all its iterations: [func] is
    invoked once per iteration and the exception of the last
    invocation is the one raised. *)
Lemma retry_loop_exhausts (remaining : nat) :
  forall (attempt : Z) (last : option Py.exn) (w : RetryHandler.world),
    RetryHandler.calls
      (snd (RetryHandler.retry_loop func random max_retries base_delay
              exceptions None (S remaining) attempt last w))
    = (RetryHandler.calls w + S remaining)%nat
    /\ fst (RetryHandler.retry_loop func random max_retries base_delay
              exceptions None (S remaining) attempt last w)
       = func (RetryHandler.calls w + remaining)%nat.
Proof.
  induction remaining as [|n IH]; intros attempt last w.
  - destruct (retry_loop_step 0 attempt last w) as (e & He & Hstep).
    rewrite Hstep. simpl. rewrite after_failure_calls, Nat.add_0_r, He.
    split; [lia | reflexivity].
  - destruct (retry_loop_step (S n) attempt last w) as (e & He & Hstep).
    rewrite Hstep.
    destruct (IH (attempt + 1)%Z (Some e)
                (RetryHandler.after_failure random max_retries base_delay attempt w))
      as [Hc Hr].
    rewrite Hc, Hr, after_failure_calls. split; [lia | f_equal; lia].
Qed.

(** For any [max_retries >= 0] an always-failing [func] is invoked
    [max_retries + 1] times and its last exception is raised. *)
Lemma retry_with_backoff_exhausts :
  0 <= max_retries ->
  let r := RetryHandler.retry_with_backoff func random max_retries base_delay
             exceptions None in
  RetryHandler.calls (snd r) = Z.to_nat (max_retries + 1)
  /\ fst r = func (Z.to_nat max_retries).
Proof.
  intros Hm. unfold RetryHandler.retry_with_backoff.
  replace (Z.to_nat (max_retries + 1)) with (S (Z.to_nat max_retries)) by lia.
  destruct (retry_loop_exhausts (Z.to_nat max_retries) 0 None RetryHandler.start)
    as [Hc Hr].
  split; [exact Hc | exact Hr].
Qed.

End AlwaysFailing.

(** C2. With [max_retries = 3] and [base_delay = 2.0], a function that
    raises a retried exception on every call is invoked exactly 4 times;
    the call then raises the exception of the 4th invocation, so it
    returns no value. It has slept 3 times, after the first 3 failures. *)
Theorem retry_with_backoff_four_calls {V : Type}
    (func : nat -> Py.result V) (random : nat -> Q) (exceptions : Py.exn -> bool) :
  (forall k, exists e, func k = Py.Raise e /\ exceptions e = true) ->
  let r := RetryHandler.retry_with_backoff func random 3 2 exceptions None in
  RetryHandler.calls (snd r) = 4%nat
  /\ (exists e, func 3%nat = Py.Raise e /\ fst r = Py.Raise e)
  /\ (forall v, fst r <> Py.Ok v)
  /\ RetryHandler.slept (snd r) =
       [ RetryHandler.exponential_backoff 0 2 (random 0%nat);
         RetryHandler.exponential_backoff 1 2 (random 1%nat);
         RetryHandler.exponential_backoff 2 2 (random 2%nat) ].
Proof.
  intros Hfail r.
  destruct (retry_with_backoff_exhausts func random 3 2 exceptions Hfail) as [Hc Hr];
    [lia|].
  fold r in Hc, Hr.
  destruct (Hfail 3%nat) as (e3 & He3 & _).
  change (Z.to_nat 3) with 3%nat in Hr. rewrite He3 in Hr.
  split; [exact Hc|]. split; [eauto|]. split; [rewrite Hr; discriminate|].
  subst r. unfold RetryHandler.retry_with_backoff.
  destruct (Hfail 0%nat) as (e0 & He0 & Hx0).
  destruct (Hfail 1%nat) as (e1 & He1 & Hx1).
  destruct (Hfail 2%nat) as (e2 & He2 & Hx2).
  destruct (Hfail 3%nat) as (e3' & He3' & Hx3).
  simpl. rewrite He0, Hx0. simpl. rewrite He1, Hx1. simpl. rewrite He2, Hx2.
  simpl. rewrite He3', Hx3. reflexivity.
Qed.

Lemma retry_with_backoff_four_calls_witness :
  RetryHandler.calls
    (snd (RetryHandler.retry_with_backoff never_clickable (fun _ => 1 # 2) 3 2
            Py.is_Exception None)) = 4%nat.
Proof.
  apply (retry_with_backoff_four_calls never_clickable (fun _ => 1 # 2) Py.is_Exception).
  intros k. exists (Py.Exception "TimeoutException"). split; reflexivity.
Defined.

(** ** Back-off delays and the range of the doubles *)
Section FloatRangeFacts.

Lemma of_real_finite (q : Q) :
  (- FloatRange.overflow_threshold < q)%Q -> (q < FloatRange.overflow_threshold)%Q ->
  FloatRange.of_real q = FloatRange.Finite q.
Proof.
  intros Hlo Hhi. unfold FloatRange.of_real.
  destruct (Qle_bool FloatRange.overflow_threshold q) eqn:E1.
  - apply Qle_bool_iff in E1. lra.
  - destruct (Qle_bool q (- FloatRange.overflow_threshold)) eqn:E2; [|reflexivity].
    apply Qle_bool_iff in E2. lra.
Qed.

Lemma sleep_limit_positive : (0 < FloatRange.sleep_limit)%Q.
Proof. reflexivity. Qed.

Lemma sleep_limit_below_overflow :
  (FloatRange.sleep_limit < FloatRange.overflow_threshold)%Q.
Proof. reflexivity. Qed.

Lemma sleep_accepts (q : Q) :
  (0 <= q)%Q -> (q < FloatRange.sleep_limit)%Q ->
  FloatRange.sleep (FloatRange.Finite q) = None.
Proof.
  intros Hlo Hhi. pose proof sleep_limit_positive as Hpos. unfold FloatRange.sleep.
  destruct (Qle_bool FloatRange.sleep_limit q) eqn:E1.
  { apply Qle_bool_iff in E1. lra. }
  destruct (Qle_bool q (- FloatRange.sleep_limit)) eqn:E2.
  { apply Qle_bool_iff in E2. lra. }
  destruct (Qle_bool 0 q) eqn:E3; [reflexivity|].
  apply Qle_bool_iff in Hlo. congruence.
Qed.

Lemma mul_finite (x y : Q) :
  (- FloatRange.overflow_threshold < x * y)%Q ->
  (x * y < FloatRange.overflow_threshold)%Q ->
  FloatRange.mul (FloatRange.Finite x) (FloatRange.Finite y) = FloatRange.Finite (x * y).
Proof. intros Hlo Hhi. unfold FloatRange.mul. now apply of_real_finite. Qed.

Lemma add_finite (x y : Q) :
  (- FloatRange.overflow_threshold < x + y)%Q ->
  (x + y < FloatRange.overflow_threshold)%Q ->
  FloatRange.add (FloatRange.Finite x) (FloatRange.Finite y) = FloatRange.Finite (x + y).
Proof. intros Hlo Hhi. unfold FloatRange.add. now apply of_real_finite. Qed.

(** Below the overflow threshold the float computation ends in the
    exact value. *)
Lemma exponential_backoff_finite (a : Z) (b u : Q) :
  (0 <= a <= 1023)%Z -> (0 <= b)%Q -> (0 <= u <= 1)%Q ->
  ((11 # 10) * (b * 2 ^ a) < FloatRange.overflow_threshold)%Q ->
  exists d, FloatRange.exponential_backoff a b u = Py.Ok (FloatRange.Finite d)
            /\ (d == RetryHandler.exponential_backoff a b u)%Q.
Proof.
  intros [Ha0 Ha1] Hb [Hu0 Hu1] Hbound.
  assert (Hp : (0 < 2 ^ a)%Q) by (apply Qpower_0_lt; reflexivity).
  unfold FloatRange.exponential_backoff, FloatRange.power_of_two.
  destruct (Z.ltb_spec a 0) as [Hneg|_]; [lia|].
  destruct (Z.leb_spec 1024 a) as [Hbig|_]; [lia|].
  unfold Py.bind, FloatRange.uniform, FloatRange.sub, FloatRange.neg. cbv zeta.
  unfold RetryHandler.exponential_backoff, RetryHandler.uniform.
  set (delay := (b * 2 ^ a)%Q) in *.
  assert (Hd : (0 <= delay)%Q).
  { subst delay. apply Qmult_le_0_compat; [exact Hb | now apply Qlt_le_weak]. }
  assert (Ht : (0 < FloatRange.overflow_threshold)%Q) by reflexivity.
  assert (Hdu0 : (0 <= delay * u)%Q) by (now apply Qmult_le_0_compat).
  assert (Hdu1 : (delay * u <= delay)%Q).
  { assert (H : (0 <= delay * (1 - u))%Q) by (apply Qmult_le_0_compat; lra).
    lra. }
  rewrite !(mul_finite b (2 ^ a)) by (fold delay; lra). fold delay.
  clearbody delay.
  rewrite (mul_finite delay (1 # 10)) by lra.
  rewrite (add_finite (delay * (1 # 10)) (- 0)) by lra.
  rewrite (mul_finite (delay * (1 # 10) + - 0) u) by lra.
  rewrite (add_finite 0 ((delay * (1 # 10) + - 0) * u)) by lra.
  rewrite (add_finite delay (0 + (delay * (1 # 10) + - 0) * u)) by lra.
  eexists. split; [reflexivity|]. ring.
Qed.

(** A delay below the limit of [sleep] is computed and slept. *)
Lemma delay_in_range_below_limit (a : Z) (b u : Q) :
  (0 <= a <= 1023)%Z -> (0 <= b)%Q -> (0 <= u <= 1)%Q ->
  ((11 # 10) * (b * 2 ^ a) < FloatRange.sleep_limit)%Q ->
  FloatRange.delay_in_range a b u.
Proof.
  intros Ha Hb Hu Hbound. pose proof sleep_limit_below_overflow as Hlim. split.
  - apply exponential_backoff_finite; try assumption. lra.
  - destruct Hu as [Hu0 Hu1].
    assert (Hp : (0 < 2 ^ a)%Q) by (apply Qpower_0_lt; reflexivity).
    unfold RetryHandler.exponential_backoff, RetryHandler.uniform.
    set (delay := (b * 2 ^ a)%Q) in *.
    assert (Hd : (0 <= delay)%Q).
    { subst delay. apply Qmult_le_0_compat; [exact Hb | now apply Qlt_le_weak]. }
    assert (Hdu0 : (0 <= delay * u)%Q) by (now apply Qmult_le_0_compat).
    assert (Hdu1 : (delay * u <= delay)%Q).
    { assert (H : (0 <= delay * (1 - u))%Q) by (apply Qmult_le_0_compat; lra).
      lra. }
    clearbody delay. apply sleep_accepts; lra.
Qed.

End FloatRangeFacts.

(** In exact arithmetic the delay is [b * 2^a] plus a jitter between 0
    and a tenth of [b * 2^a], and the delay of attempt [a + 1] exceeds
    the delay of attempt [a] whatever the two draws. *)
Lemma exact_backoff_increasing (a : Z) (b u v : Q) :
  (0 <= a)%Z -> (0 < b)%Q -> (0 <= u <= 1)%Q -> (0 <= v <= 1)%Q ->
  let delay := (b * 2 ^ a)%Q in
  let jitter := RetryHandler.uniform 0 (delay * (1 # 10)) u in
  (RetryHandler.exponential_backoff a b u == delay + jitter)%Q
  /\ (0 <= jitter <= (1 # 10) * delay)%Q
  /\ (RetryHandler.exponential_backoff a b u
      < RetryHandler.exponential_backoff (a + 1) b v)%Q.
Proof.
  intros Ha Hb [Hu0 Hu1] [Hv0 Hv1] delay jitter.
  assert (Hp : (0 < 2 ^ a)%Q) by (apply Qpower_0_lt; reflexivity).
  assert (Hd : (0 < delay)%Q) by (subst delay; now apply Qmult_lt_0_compat).
  assert (Hnext : (b * 2 ^ (a + 1) == delay * 2)%Q).
  { subst delay. rewrite Qpower_plus by discriminate.
    change (2 ^ 1)%Q with 2%Q. ring. }
  assert (Hnow : (RetryHandler.exponential_backoff a b u == delay + (1 # 10) * (delay * u))%Q).
  { subst delay. unfold RetryHandler.exponential_backoff, RetryHandler.uniform. ring. }
  assert (Hj : (jitter == delay * (1 # 10) * u)%Q).
  { subst jitter. unfold RetryHandler.uniform. ring. }
  assert (Hdu : (0 <= delay * u)%Q) by (apply Qmult_le_0_compat; [now apply Qlt_le_weak | exact Hu0]).
  assert (Hdu' : (delay * u <= delay)%Q).
  { rewrite <- (Qmult_1_r delay) at 2.
    apply Qmult_le_l; assumption. }
  assert (Hdv : (0 <= delay * v)%Q) by (apply Qmult_le_0_compat; [now apply Qlt_le_weak | exact Hv0]).
  split; [reflexivity|]. clearbody delay. split.
  - subst jitter. unfold RetryHandler.uniform. split; lra.
  - rewrite Hnow.
    unfold RetryHandler.exponential_backoff, RetryHandler.uniform.
    rewrite Hnext. lra.
Qed.

(** From attempt 1024 on the power of two itself has no double: the
    multiplication raises. *)
Lemma exponential_backoff_power_too_large :
  FloatRange.exponential_backoff 1024 2 (1 # 2)
  = Py.Raise (Py.Exception "OverflowError").
Proof. reflexivity. Qed.

(** C9 as stated fails at the edge of the doubles: with the base delay
    4 the delays of attempt 1022 and of attempt 1023 are both the
    positive infinity, whatever positive value [random()] takes (here
    one half), so the second is not greater than the first. *)
Lemma exponential_backoff_overflow_not_increasing :
  FloatRange.exponential_backoff 1022 4 (1 # 2) = Py.Ok FloatRange.PosInf
  /\ FloatRange.exponential_backoff (1022 + 1) 4 (1 # 2) = Py.Ok FloatRange.PosInf
  /\ FloatRange.lt FloatRange.PosInf FloatRange.PosInf = false.
Proof. repeat split; vm_compute; reflexivity. Qed.

(** C9, amended. For an attempt number [a >= 0] with [a + 1 <= 1023],
    a base delay [b > 0] with [1.1 * b * 2^(a+1)] below the overflow
    threshold of the doubles, and values [u], [v] of [random()] between
    0 and 1: the float computation of both delays ends in a finite
    number, the delay of attempt [a] is [b * 2^a] plus a jitter between
    0 and a tenth of [b * 2^a], and the delay of attempt [a + 1] is
    greater than the delay of attempt [a] whatever the two draws. *)
Theorem exponential_backoff_increasing_in_range (a : Z) (b u v : Q) :
  (0 <= a)%Z -> (a + 1 <= 1023)%Z -> (0 < b)%Q ->
  (0 <= u <= 1)%Q -> (0 <= v <= 1)%Q ->
  ((11 # 10) * (b * 2 ^ (a + 1)) < FloatRange.overflow_threshold)%Q ->
  let delay := (b * 2 ^ a)%Q in
  let jitter := RetryHandler.uniform 0 (delay * (1 # 10)) u in
  exists d d',
    FloatRange.exponential_backoff a b u = Py.Ok (FloatRange.Finite d)
    /\ FloatRange.exponential_backoff (a + 1) b v = Py.Ok (FloatRange.Finite d')
    /\ (d == delay + jitter)%Q
    /\ (0 <= jitter <= (1 # 10) * delay)%Q
    /\ FloatRange.lt (FloatRange.Finite d) (FloatRange.Finite d') = true.
Proof.
  intros Ha Ha1 Hb Hu Hv Hbound delay jitter.
  destruct (exact_backoff_increasing a b u v Ha Hb Hu Hv) as (Heq & Hj & Hlt).
  assert (Hp : (0 < 2 ^ a)%Q) by (apply Qpower_0_lt; reflexivity).
  assert (Hd : (0 < b * 2 ^ a)%Q) by (now apply Qmult_lt_0_compat).
  assert (Hnext : (b * 2 ^ (a + 1) == b * 2 ^ a * 2)%Q).
  { rewrite Qpower_plus by discriminate. change (2 ^ 1)%Q with 2%Q. ring. }
  destruct (exponential_backoff_finite a b u) as (d & Hd1 & Hd2);
    [lia | now apply Qlt_le_weak | exact Hu | rewrite Hnext in Hbound; lra |].
  destruct (exponential_backoff_finite (a + 1) b v) as (d' & Hd1' & Hd2');
    [lia | now apply Qlt_le_weak | exact Hv | exact Hbound |].
  exists d, d'. split; [exact Hd1|]. split; [exact Hd1'|].
  split; [now rewrite Hd2|]. split; [exact Hj|].
  unfold FloatRange.lt. apply negb_true_iff.
  destruct (Qle_bool d' d) eqn:E; [|reflexivity].
  apply Qle_bool_iff in E. rewrite Hd2, Hd2' in E. lra.
Qed.

Lemma exponential_backoff_increasing_in_range_witness :
  exists d d',
    FloatRange.exponential_backoff 0 2 1 = Py.Ok (FloatRange.Finite d)
    /\ FloatRange.exponential_backoff (0 + 1) 2 0 = Py.Ok (FloatRange.Finite d')
    /\ (d == 2 * 2 ^ 0 + RetryHandler.uniform 0 (2 * 2 ^ 0 * (1 # 10)) 1)%Q
    /\ (0 <= RetryHandler.uniform 0 (2 * 2 ^ 0 * (1 # 10)) 1 <= (1 # 10) * (2 * 2 ^ 0))%Q
    /\ FloatRange.lt (FloatRange.Finite d) (FloatRange.Finite d') = true.
Proof.
  apply (exponential_backoff_increasing_in_range 0 2 1 0);
    [reflexivity | discriminate | reflexivity | split; discriminate
    | split; discriminate | reflexivity].
Defined.

(** ** Field knowledge base *)
Section KnowledgeBase.
Import FieldKnowledgeBase.

Lemma dict_get_set_same (k : string) (v : Z) (d : counts) :
  dict_get k (dict_set k v d) = Some v.
Proof.
  induction d as [|[k' v'] d IH]; simpl.
  - now rewrite String.eqb_refl.
  - destruct (String.eqb k k') eqn:E; simpl; rewrite E; [reflexivity | exact IH].
Qed.

Lemma learn_general_same (fm : gmap string counts) (i t : string) :
  learn_general fm i t !! i = Some (bump t (default [] (fm !! i))).
Proof.
  unfold learn_general, bump. cbv zeta.
  destruct (fm !! i) as [d|] eqn:E; cbv beta iota.
  - rewrite lookup_insert_eq, ?E. reflexivity.
  - rewrite lookup_insert_eq, lookup_insert_eq. reflexivity.
Qed.

Lemma bump_first (t : string) : bump t [] = [(t, 1)].
Proof. unfold bump. simpl. now rewrite String.eqb_refl. Qed.

Lemma bump_second (t t2 : string) :
  t2 <> t -> bump t2 [(t, 1)] = [(t, 1); (t2, 1)].
Proof.
  intros Hne. apply String.eqb_neq in Hne.
  unfold bump, dict_mem.
  repeat (simpl; rewrite ?Hne, ?String.eqb_refl). reflexivity.
Qed.

Lemma bump_again (t t2 : string) (k : Z) :
  t2 <> t -> bump t2 [(t, 1); (t2, k)] = [(t, 1); (t2, k + 1)].
Proof.
  intros Hne. apply String.eqb_neq in Hne.
  unfold bump, dict_mem.
  repeat (simpl; rewrite ?Hne, ?String.eqb_refl). reflexivity.
Qed.

(** The stored platform entry survives any later call. *)
Lemma learn_ats_keeps (am : gmap string (gmap string string))
    (p i t : string) (j t2 q : string) :
  platform_entry am p i = Some t ->
  platform_entry (learn_ats am j t2 q) p i = Some t.
Proof.
  unfold platform_entry, learn_ats. intros H.
  destruct (String.eqb q "unknown"); [exact H|].
  destruct (decide (q = p)) as [->|Hqp].
  - destruct (am !! p) as [m|] eqn:Em; [|discriminate].
    rewrite Em. simpl.
    destruct (m !! j) as [x|] eqn:Ej.
    + now rewrite Em.
    + rewrite lookup_insert_eq.
      destruct (decide (j = i)) as [->|Hji]; [congruence|].
      now rewrite lookup_insert_ne.
  - destruct (am !! q) as [mq|] eqn:Eq; simpl.
    + rewrite Eq. simpl. destruct (mq !! j); [exact H|].
      now rewrite lookup_insert_ne.
    + rewrite lookup_insert_eq. simpl. rewrite lookup_empty.
      rewrite lookup_insert_ne by assumption.
      now rewrite lookup_insert_ne.
Qed.

(** The first call for a platform and identifier stores its type. *)
Lemma learn_ats_first (am : gmap string (gmap string string)) (p i t : string) :
  p <> "unknown" -> platform_entry am p i = None ->
  platform_entry (learn_ats am i t p) p i = Some t.
Proof.
  unfold platform_entry, learn_ats. intros Hp H.
  apply String.eqb_neq in Hp. rewrite Hp.
  destruct (am !! p) as [m|] eqn:Em; simpl.
  - rewrite Em. simpl. rewrite H, lookup_insert_eq. apply lookup_insert_eq.
  - rewrite lookup_insert_eq. simpl. rewrite lookup_empty.
    rewrite lookup_insert_eq. apply lookup_insert_eq.
Qed.

Lemma learn_all_keeps (calls : list (string * string * string)) :
  forall (kb : knowledge) (p i t : string),
    platform_entry (ats_specific_mappings kb) p i = Some t ->
    platform_entry (ats_specific_mappings (learn_all calls kb)) p i = Some t.
Proof.
  induction calls as [|[[j t2] q] calls IH]; intros kb p i t H; simpl.
  - exact H.
  - apply IH. simpl. now apply learn_ats_keeps.
Qed.

Lemma get_field_type_specific (kb : knowledge) (p i t : string) :
  p <> "unknown" ->
  platform_entry (ats_specific_mappings kb) p i = Some t ->
  get_field_type kb i p = Some t.
Proof.
  unfold platform_entry, get_field_type. intros Hp H.
  apply String.eqb_neq in Hp. rewrite Hp.
  destruct (ats_specific_mappings kb !! p); [|discriminate].
  now rewrite H.
Qed.

Lemma get_field_type_general (kb : knowledge) (i : string) :
  get_field_type kb i "unknown" = get_general (field_mappings kb) i.
Proof. reflexivity. Qed.

Lemma learn_repeat_keeps (n : nat) :
  forall (kb : knowledge) (p i t j t2 q : string),
    platform_entry (ats_specific_mappings kb) p i = Some t ->
    platform_entry (ats_specific_mappings (learn_repeat n kb j t2 q)) p i = Some t.
Proof.
  induction n as [|n IH]; intros kb p i t j t2 q H; simpl.
  - exact H.
  - apply IH. simpl. now apply learn_ats_keeps.
Qed.

Lemma learn_repeat_counts (n : nat) :
  forall (kb : knowledge) (i t t2 p : string) (k : nat),
    t2 <> t ->
    field_mappings kb !! i = Some (counts_after t t2 k) ->
    field_mappings (learn_repeat n kb i t2 p) !! i = Some (counts_after t t2 (k + n)).
Proof.
  induction n as [|n IH]; intros kb i t t2 p k Hne H; simpl.
  - now rewrite Nat.add_0_r.
  - replace (k + S n)%nat with (S k + n)%nat by lia.
    apply IH; [exact Hne|]. simpl.
    rewrite learn_general_same, H. simpl. f_equal.
    destruct k as [|k]; simpl counts_after.
    + now apply bump_second.
    + rewrite bump_again by exact Hne. do 3 f_equal. lia.
Qed.

End KnowledgeBase.

(** C1 (amended). In a knowledge base that holds nothing for [id],
    after [learn_field_mapping(id, t, p)] the lookup [get_field_type(id, p)]
    returns [t]. If a different type [t2] is then taught [n] times for the
    same [id] and [p], the counts of [id] are 1 for [t] and [n] for [t2];
    the general lookup (platform [unknown]) returns [t2] exactly when
    [n > 1], while for a platform [p] other than [unknown] the lookup
    scoped to [p] keeps returning [t]. *)
Theorem learn_then_get_round_trip
    (kb : FieldKnowledgeBase.knowledge) (id t t2 p : string) (n : nat) :
  FieldKnowledgeBase.field_mappings kb !! id = None ->
  (p <> "unknown" ->
   FieldKnowledgeBase.platform_entry
     (FieldKnowledgeBase.ats_specific_mappings kb) p id = None) ->
  t2 <> t ->
  let kb1 := FieldKnowledgeBase.learn_field_mapping kb id t p in
  let kbn := FieldKnowledgeBase.learn_repeat n kb1 id t2 p in
  FieldKnowledgeBase.get_field_type kb1 id p = Some t
  /\ FieldKnowledgeBase.field_mappings kbn !! id
     = Some (FieldKnowledgeBase.counts_after t t2 n)
  /\ FieldKnowledgeBase.get_field_type kbn id "unknown"
     = Some (if Nat.ltb 1 n then t2 else t)
  /\ (p <> "unknown" -> FieldKnowledgeBase.get_field_type kbn id p = Some t).
Proof.
  intros Hfresh Hnone Hne kb1 kbn.
  assert (H1 : FieldKnowledgeBase.field_mappings kb1 !! id
               = Some (FieldKnowledgeBase.counts_after t t2 0)).
  { subst kb1. simpl. rewrite learn_general_same, Hfresh. simpl.
    now rewrite bump_first. }
  assert (Hn : FieldKnowledgeBase.field_mappings kbn !! id
               = Some (FieldKnowledgeBase.counts_after t t2 n)).
  { subst kbn. now apply (learn_repeat_counts n kb1 id t t2 p 0%nat). }
  assert (Hp1 : p <> "unknown" ->
                FieldKnowledgeBase.platform_entry
                  (FieldKnowledgeBase.ats_specific_mappings kb1) p id = Some t).
  { intros Hp. subst kb1. simpl. apply learn_ats_first; auto. }
  repeat split.
  - destruct (String.eqb_spec p "unknown") as [->|Hp].
    + rewrite get_field_type_general.
      unfold FieldKnowledgeBase.get_general. now rewrite H1.
    + apply get_field_type_specific; auto.
  - exact Hn.
  - rewrite get_field_type_general.
    unfold FieldKnowledgeBase.get_general. rewrite Hn.
    destruct n as [|[|n]]; [reflexivity | reflexivity |].
    unfold FieldKnowledgeBase.counts_after, FieldKnowledgeBase.max_key,
      FieldKnowledgeBase.max_from.
    destruct (Z.ltb_spec 1 (Z.of_nat (S (S n)))) as [_|Hle]; [reflexivity | lia].
  - intros Hp. apply get_field_type_specific; [exact Hp|].
    subst kbn. apply learn_repeat_keeps. auto.
Qed.

Lemma learn_then_get_round_trip_witness :
  FieldKnowledgeBase.get_field_type taught_email "applicant_email" "unknown" = Some "email"
  /\ FieldKnowledgeBase.get_field_type
       (FieldKnowledgeBase.learn_repeat 1 taught_email "applicant_email" "phone" "unknown")
       "applicant_email" "unknown" = Some "email"
  /\ FieldKnowledgeBase.get_field_type
       (FieldKnowledgeBase.learn_repeat 2 taught_email "applicant_email" "phone" "unknown")
       "applicant_email" "unknown" = Some "phone".
Proof.
  split; [|split].
  - apply (proj1 (learn_then_get_round_trip
             FieldKnowledgeBase.empty_knowledge
             "applicant_email" "email" "phone" "unknown" 0
             eq_refl (fun H => False_ind _ (H eq_refl)) ltac:(discriminate))).
  - apply (proj1 (proj2 (proj2 (learn_then_get_round_trip
             FieldKnowledgeBase.empty_knowledge
             "applicant_email" "email" "phone" "unknown" 1
             eq_refl (fun H => False_ind _ (H eq_refl)) ltac:(discriminate))))).
  - apply (proj1 (proj2 (proj2 (learn_then_get_round_trip
             FieldKnowledgeBase.empty_knowledge
             "applicant_email" "email" "phone" "unknown" 2
             eq_refl (fun H => False_ind _ (H eq_refl)) ltac:(discriminate))))).
Defined.

(** C1 as stated fails for a known platform: after [email] was learnt
    once and [phone] twice for the same identifier on [greenhouse], the
    count of [phone] exceeds that of [email], yet the lookup scoped to
    [greenhouse] still returns [email]. *)
Lemma platform_lookup_does_not_switch :
  FieldKnowledgeBase.occurrence_count
    (FieldKnowledgeBase.learn_repeat 2 taught_email_on_greenhouse
       "applicant_email" "phone" "greenhouse")
    "applicant_email" "email" = 1
  /\ FieldKnowledgeBase.occurrence_count
       (FieldKnowledgeBase.learn_repeat 2 taught_email_on_greenhouse
          "applicant_email" "phone" "greenhouse")
       "applicant_email" "phone" = 2
  /\ FieldKnowledgeBase.get_field_type
       (FieldKnowledgeBase.learn_repeat 2 taught_email_on_greenhouse
          "applicant_email" "phone" "greenhouse")
       "applicant_email" "greenhouse" = Some "email"
  /\ FieldKnowledgeBase.get_field_type
       (FieldKnowledgeBase.learn_repeat 2 taught_email_on_greenhouse
          "applicant_email" "phone" "greenhouse")
       "applicant_email" "greenhouse" <> Some "phone".
Proof. vm_compute. repeat split. discriminate. Qed.

(** C10. For a platform [p] other than [unknown]: the first call for
    [(p, id)] stores its type; once a type [t] is stored, any sequence of
    later calls leaves the entry equal to [t] and the lookup scoped to
    [p] returns [t]; a later call with [t2] still raises the general
    count of [t2] by one. *)
Theorem platform_mapping_write_once
    (kb : FieldKnowledgeBase.knowledge) (id t p : string) :
  p <> "unknown" ->
  (FieldKnowledgeBase.platform_entry
     (FieldKnowledgeBase.ats_specific_mappings kb) p id = None ->
   FieldKnowledgeBase.platform_entry
     (FieldKnowledgeBase.ats_specific_mappings
        (FieldKnowledgeBase.learn_field_mapping kb id t p)) p id = Some t)
  /\ (FieldKnowledgeBase.platform_entry
        (FieldKnowledgeBase.ats_specific_mappings kb) p id = Some t ->
      (forall calls,
          FieldKnowledgeBase.platform_entry
            (FieldKnowledgeBase.ats_specific_mappings
               (FieldKnowledgeBase.learn_all calls kb)) p id = Some t
          /\ FieldKnowledgeBase.get_field_type
               (FieldKnowledgeBase.learn_all calls kb) id p = Some t)
      /\ (forall t2,
             let kb' := FieldKnowledgeBase.learn_field_mapping kb id t2 p in
             FieldKnowledgeBase.platform_entry
               (FieldKnowledgeBase.ats_specific_mappings kb') p id = Some t
             /\ FieldKnowledgeBase.occurrence_count kb' id t2
                = FieldKnowledgeBase.occurrence_count kb id t2 + 1)).
Proof.
  intros Hp. split; [|intros Hstored; split].
  - intros Hnone. simpl. now apply learn_ats_first.
  - intros calls.
    assert (Hkeep := learn_all_keeps calls kb p id t Hstored).
    split; [exact Hkeep | now apply get_field_type_specific].
  - intros t2 kb'. split.
    + subst kb'. simpl. now apply learn_ats_keeps.
    + subst kb'. unfold FieldKnowledgeBase.occurrence_count. simpl.
      rewrite learn_general_same. simpl.
      unfold FieldKnowledgeBase.bump. rewrite dict_get_set_same. simpl.
      unfold FieldKnowledgeBase.dict_mem.
      destruct (FieldKnowledgeBase.dict_get t2
                  (default [] (FieldKnowledgeBase.field_mappings kb !! id)))
        as [c|] eqn:E.
      * rewrite E. reflexivity.
      * rewrite dict_get_set_same. reflexivity.
Qed.

Lemma platform_mapping_write_once_witness :
  FieldKnowledgeBase.get_field_type
    (FieldKnowledgeBase.learn_all
       [("applicant_email", "phone", "greenhouse");
        ("applicant_email", "phone", "greenhouse");
        ("applicant_email", "city", "lever")] taught_email_on_greenhouse)
    "applicant_email" "greenhouse" = Some "email".
Proof.
  apply (proj2 (platform_mapping_write_once taught_email_on_greenhouse
                  "applicant_email" "email" "greenhouse" ltac:(discriminate))).
  reflexivity.
Defined.

(** ** Knowledge base: majority vote and teaching history *)
Section MajorityVote.
Import FieldKnowledgeBase.

(** The scan of [max] ends on the first entry carrying the largest
    value, or keeps the initial best when no later value exceeds it. *)
Lemma max_from_spec (rest : counts) :
  forall (best : string) (bestv : Z),
    (max_from best bestv rest = best
     /\ forall k v, In (k, v) rest -> v <= bestv)
    \/ (exists before t v after,
           rest = (before ++ (t, v) :: after)%list
           /\ max_from best bestv rest = t
           /\ bestv < v
           /\ (forall k' v', In (k', v') before -> v' < v)
           /\ (forall k' v', In (k', v') after -> v' <= v)).
Proof.
  induction rest as [|[k v] rest IH]; intros best bestv; simpl.
  - left. split; [reflexivity | intros ? ? []].
  - destruct (Z.ltb_spec bestv v) as [Hlt|Hge].
    + destruct (IH k v) as [[Hr Hall]|(before & t & v2 & after & -> & Hr & Hv & Hb & Ha)].
      * right. exists [], k, v, rest. repeat split; auto. intros ? ? [].
      * right. exists ((k, v) :: before), t, v2, after.
        repeat split; auto; try lia.
        intros k' v' [Heq|Hin]; [inversion Heq; subst; lia | eauto].
    + destruct (IH best bestv) as [[Hr Hall]|(before & t & v2 & after & -> & Hr & Hv & Hb & Ha)].
      * left. split; [exact Hr|].
        intros k' v' [Heq|Hin]; [inversion Heq; subst; lia | eauto].
      * right. exists ((k, v) :: before), t, v2, after.
        repeat split; auto.
        intros k' v' [Heq|Hin]; [inversion Heq; subst; lia | eauto].
Qed.

Lemma dict_get_set_other (k k' : string) (v : Z) (d : counts) :
  k' <> k -> dict_get k' (dict_set k v d) = dict_get k' d.
Proof.
  intros Hne. induction d as [|[k0 v0] d IH]; simpl.
  - apply String.eqb_neq in Hne. now rewrite Hne.
  - destruct (String.eqb_spec k k0) as [->|Hk]; simpl.
    + apply String.eqb_neq in Hne. now rewrite Hne.
    + now rewrite IH.
Qed.

Lemma dict_get_bump_same (t : string) (d : counts) :
  dict_get t (bump t d) = Some (default 0 (dict_get t d) + 1).
Proof.
  unfold bump, dict_mem. rewrite dict_get_set_same.
  destruct (dict_get t d) as [c|] eqn:E.
  - now rewrite E.
  - now rewrite dict_get_set_same.
Qed.

Lemma dict_get_bump_other (t t' : string) (d : counts) :
  t' <> t -> dict_get t' (bump t d) = dict_get t' d.
Proof.
  intros Hne. unfold bump, dict_mem.
  rewrite dict_get_set_other by exact Hne.
  destruct (dict_get t d); [reflexivity|].
  now rewrite dict_get_set_other.
Qed.

Lemma learn_general_other (fm : gmap string counts) (i j t : string) :
  i <> j -> learn_general fm j t !! i = fm !! i.
Proof.
  intros Hne. unfold learn_general. cbv zeta.
  rewrite lookup_insert_ne by congruence.
  destruct (fm !! j); [reflexivity|].
  now rewrite lookup_insert_ne by congruence.
Qed.

(** One call raises the count of the pair it teaches by one and leaves
    every other count as it was. *)
Lemma occurrence_count_learn (kb : knowledge) (j t' q i t : string) :
  occurrence_count (learn_field_mapping kb j t' q) i t
  = occurrence_count kb i t
    + (if (String.eqb j i && String.eqb t' t)%bool then 1 else 0).
Proof.
  unfold occurrence_count. simpl.
  destruct (String.eqb_spec j i) as [->|Hji]; simpl.
  - rewrite learn_general_same. simpl.
    destruct (String.eqb_spec t' t) as [->|Ht].
    + now rewrite dict_get_bump_same.
    + rewrite dict_get_bump_other by congruence. lia.
  - rewrite learn_general_other by congruence. lia.
Qed.

Lemma occurrence_count_learn_all (calls : list (string * string * string)) :
  forall (kb : knowledge) (i t : string),
    occurrence_count (learn_all calls kb) i t
    = occurrence_count kb i t + KnowledgeStats.times_taught calls i t.
Proof.
  induction calls as [|[[j t'] q] calls IH]; intros kb i t; simpl.
  - lia.
  - rewrite IH, occurrence_count_learn. lia.
Qed.

Lemma times_taught_nonneg (calls : list (string * string * string)) (i t : string) :
  0 <= KnowledgeStats.times_taught calls i t.
Proof.
  induction calls as [|[[j t'] q] calls IH]; simpl; [lia|].
  destruct (String.eqb j i && String.eqb t' t)%bool; lia.
Qed.

(** Keys stay distinct in a count table. *)
Lemma dict_set_keys_fresh (k : string) (v : Z) (d : counts) :
  dict_get k d = None ->
  KnowledgeStats.keys (dict_set k v d) = (KnowledgeStats.keys d ++ [k])%list.
Proof.
  unfold KnowledgeStats.keys.
  induction d as [|[k0 v0] d IH]; simpl; [reflexivity|].
  destruct (String.eqb k k0); [discriminate|]. intros H. simpl. now rewrite IH.
Qed.

Lemma dict_set_keys_present (k : string) (v : Z) (d : counts) :
  dict_get k d <> None ->
  KnowledgeStats.keys (dict_set k v d) = KnowledgeStats.keys d.
Proof.
  unfold KnowledgeStats.keys.
  induction d as [|[k0 v0] d IH]; simpl; [congruence|].
  destruct (String.eqb k k0); [reflexivity|]. intros H. simpl. now rewrite IH.
Qed.

Lemma dict_get_None_keys (k : string) (d : counts) :
  dict_get k d = None <-> ~ In k (KnowledgeStats.keys d).
Proof.
  unfold KnowledgeStats.keys.
  induction d as [|[k0 v0] d IH]; simpl; [tauto|].
  destruct (String.eqb_spec k k0) as [->|Hne].
  - split; [discriminate | intros H; exfalso; auto].
  - rewrite IH. split; [intros H [E|E]; [congruence | auto] | auto].
Qed.

Lemma dict_get_In (k : string) (v : Z) (d : counts) :
  List.NoDup (KnowledgeStats.keys d) -> In (k, v) d -> dict_get k d = Some v.
Proof.
  unfold KnowledgeStats.keys.
  induction d as [|[k0 v0] d IH]; simpl; [tauto|].
  intros Hnd [Heq|Hin].
  - inversion Heq; subst. now rewrite String.eqb_refl.
  - inversion Hnd as [|? ? Hnot Hnd']; subst.
    destruct (String.eqb_spec k k0) as [->|Hne]; [|auto].
    exfalso. apply Hnot. change (In (fst (k0, v)) (map fst d)). now apply in_map.
Qed.

Lemma bump_keys_nodup (t : string) (d : counts) :
  List.NoDup (KnowledgeStats.keys d) -> List.NoDup (KnowledgeStats.keys (bump t d)).
Proof.
  intros Hnd. unfold bump, dict_mem.
  destruct (dict_get t d) as [c|] eqn:E.
  - rewrite dict_set_keys_present by congruence. exact Hnd.
  - rewrite dict_set_keys_present by (rewrite dict_get_set_same; congruence).
    rewrite dict_set_keys_fresh by exact E.
    apply List.NoDup_app.
    + exact Hnd.
    + repeat constructor. intros [].
    + intros x Hx [<-|[]]. now apply dict_get_None_keys in E.
Qed.

Lemma learn_keeps_well_keyed (kb : knowledge) (j t q : string) :
  KnowledgeStats.well_keyed kb -> KnowledgeStats.well_keyed (learn_field_mapping kb j t q).
Proof.
  intros Hwk i d. simpl.
  destruct (String.eqb_spec i j) as [->|Hne].
  - rewrite learn_general_same. intros H. injection H as <-.
    apply bump_keys_nodup.
    destruct (field_mappings kb !! j) as [d0|] eqn:E; simpl; [eauto | constructor].
  - rewrite learn_general_other by exact Hne. apply Hwk.
Qed.

Lemma learn_all_keeps_well_keyed (calls : list (string * string * string)) :
  forall kb, KnowledgeStats.well_keyed kb -> KnowledgeStats.well_keyed (learn_all calls kb).
Proof.
  induction calls as [|[[j t] q] calls IH]; intros kb Hwk; simpl; [exact Hwk|].
  apply IH. now apply learn_keeps_well_keyed.
Qed.

End MajorityVote.

Section TeachingHistory.
Import FieldKnowledgeBase.

Lemma dict_get_Some_In (k : string) (v : Z) (d : counts) :
  dict_get k d = Some v -> In (k, v) d.
Proof.
  induction d as [|[k0 v0] d IH]; simpl; [discriminate|].
  destruct (String.eqb_spec k k0) as [->|Hne].
  - intros H. injection H as ->. now left.
  - intros H. right. auto.
Qed.

(** Stored counts are at least one. *)
Lemma learn_all_counts_positive (calls : list (string * string * string)) :
  forall kb,
    (forall i d k v, field_mappings kb !! i = Some d -> dict_get k d = Some v -> 1 <= v) ->
    forall i d k v,
      field_mappings (learn_all calls kb) !! i = Some d -> dict_get k d = Some v -> 1 <= v.
Proof.
  induction calls as [|[[j t] q] calls IH]; intros kb Hpos; simpl; [exact Hpos|].
  apply IH. clear IH. intros i d k v. simpl.
  destruct (String.eqb_spec i j) as [->|Hne].
  - rewrite learn_general_same. intros H. injection H as <-.
    destruct (String.eqb_spec k t) as [->|Hk].
    + rewrite dict_get_bump_same. intros H. injection H as <-.
      destruct (field_mappings kb !! j) as [d0|] eqn:E; simpl; [|lia].
      destruct (dict_get t d0) as [c|] eqn:Ec; simpl; [|lia].
      specialize (Hpos _ _ _ _ E Ec). lia.
    + rewrite dict_get_bump_other by exact Hk.
      destruct (field_mappings kb !! j) as [d0|] eqn:E; simpl; [eauto | discriminate].
  - rewrite learn_general_other by exact Hne. apply Hpos.
Qed.

End TeachingHistory.

(** X1. When the general table of an identifier is not empty, the
    general lookup returns the first key, in insertion order, among
    those with the largest count: every earlier key has a strictly
    smaller count and no later key has a larger one. *)
Theorem general_lookup_first_maximum
    (kb : FieldKnowledgeBase.knowledge) (id : string) (d : list (string * Z)) :
  FieldKnowledgeBase.field_mappings kb !! id = Some d -> d <> [] ->
  exists before t v after,
    d = (before ++ (t, v) :: after)%list
    /\ FieldKnowledgeBase.get_field_type kb id "unknown" = Some t
    /\ (forall k' v', In (k', v') before -> v' < v)
    /\ (forall k' v', In (k', v') after -> v' <= v).
Proof.
  intros Hd Hne. rewrite get_field_type_general.
  unfold FieldKnowledgeBase.get_general. rewrite Hd.
  destruct d as [|[k v] rest]; [contradiction|]. simpl.
  destruct (max_from_spec rest k v)
    as [[Hr Hall]|(before & t & v2 & after & -> & Hr & Hv & Hb & Ha)].
  - exists [], k, v, rest. rewrite Hr. repeat split; auto. intros ? ? [].
  - exists ((k, v) :: before), t, v2, after. rewrite Hr. repeat split; auto.
    intros k' v' [Heq|Hin]; [inversion Heq; subst; lia | eauto].
Qed.

Lemma general_lookup_first_maximum_witness :
  exists before t v after,
    [("email", 2); ("phone", 3); ("city", 3)] = (before ++ (t, v) :: after)%list
    /\ FieldKnowledgeBase.get_field_type tied_knowledge "contact" "unknown" = Some t
    /\ (forall k' v', In (k', v') before -> v' < v)
    /\ (forall k' v', In (k', v') after -> v' <= v).
Proof.
  apply (general_lookup_first_maximum tied_knowledge "contact"
           [("email", 2); ("phone", 3); ("city", 3)]);
    [reflexivity | discriminate].
Defined.

(** X2. After any sequence of calls, the count of a type for an
    identifier is its earlier count plus the number of calls that taught
    that type for that identifier, on whatever platform; so counts never
    decrease, and calls for other identifiers or types do not change it. *)
Theorem teaching_history_counts
    (calls : list (string * string * string))
    (kb : FieldKnowledgeBase.knowledge) (id t : string) :
  FieldKnowledgeBase.occurrence_count (FieldKnowledgeBase.learn_all calls kb) id t
  = FieldKnowledgeBase.occurrence_count kb id t + KnowledgeStats.times_taught calls id t
  /\ FieldKnowledgeBase.occurrence_count kb id t
     <= FieldKnowledgeBase.occurrence_count (FieldKnowledgeBase.learn_all calls kb) id t.
Proof.
  pose proof (occurrence_count_learn_all calls kb id t) as H.
  pose proof (times_taught_nonneg calls id t) as Hn.
  split; [exact H | lia].
Qed.

(** X3. Starting from the empty knowledge base, after any sequence of
    calls the general lookup of an identifier returns a type that was
    taught for it at least once and at least as often as every other
    type; it returns nothing exactly when the identifier was never
    taught. *)
Theorem general_lookup_most_taught
    (calls : list (string * string * string)) (id : string) :
  let kb := FieldKnowledgeBase.learn_all calls FieldKnowledgeBase.empty_knowledge in
  (forall t, FieldKnowledgeBase.get_field_type kb id "unknown" = Some t ->
             1 <= KnowledgeStats.times_taught calls id t
             /\ forall t', KnowledgeStats.times_taught calls id t'
                           <= KnowledgeStats.times_taught calls id t)
  /\ (FieldKnowledgeBase.get_field_type kb id "unknown" = None <->
      forall t, KnowledgeStats.times_taught calls id t = 0).
Proof.
  intros kb.
  assert (Hcount : forall t, FieldKnowledgeBase.occurrence_count kb id t
                             = KnowledgeStats.times_taught calls id t).
  { intros t. subst kb. rewrite occurrence_count_learn_all.
    unfold FieldKnowledgeBase.occurrence_count. simpl. rewrite lookup_empty. simpl. lia. }
  assert (Hwk : KnowledgeStats.well_keyed kb).
  { subst kb. apply learn_all_keeps_well_keyed.
    intros i d. simpl. rewrite lookup_empty. discriminate. }
  assert (Hpos : forall i d k v,
             FieldKnowledgeBase.field_mappings kb !! i = Some d ->
             FieldKnowledgeBase.dict_get k d = Some v -> 1 <= v).
  { subst kb. apply learn_all_counts_positive.
    intros i d k v. simpl. rewrite lookup_empty. discriminate. }
  rewrite get_field_type_general. unfold FieldKnowledgeBase.get_general.
  unfold FieldKnowledgeBase.occurrence_count in Hcount.
  destruct (FieldKnowledgeBase.field_mappings kb !! id) as [d|] eqn:Ed.
  - assert (Hc : forall t, default 0 (FieldKnowledgeBase.dict_get t d)
                           = KnowledgeStats.times_taught calls id t)
      by (intros t; rewrite <- Hcount; reflexivity).
    clear Hcount.
    destruct d as [|[k v] rest].
    + split; [discriminate|]. split; [|reflexivity].
      intros _ t. rewrite <- Hc. reflexivity.
    + assert (Hmax : exists t w,
                 FieldKnowledgeBase.max_from k v rest = t
                 /\ In (t, w) ((k, v) :: rest)
                 /\ forall k' v', In (k', v') ((k, v) :: rest) -> v' <= w).
      { destruct (max_from_spec rest k v)
          as [[Hr Hall]|(before & t & v2 & after & -> & Hr & Hv & Hb & Ha)].
        - exists k, v. split; [exact Hr|]. split; [now left|].
          intros k' v' [Heq|Hin]; [inversion Heq; subst; lia | eauto].
        - exists t, v2. split; [exact Hr|]. split.
          + right. apply in_or_app. right. now left.
          + intros k' v' [Heq|Hin]; [inversion Heq; subst; lia|].
            apply in_app_or in Hin as [Hin|[Heq|Hin]].
            * specialize (Hb _ _ Hin). lia.
            * inversion Heq; subst. lia.
            * eauto. }
      destruct Hmax as (t & w & Hr & Hin & Hall).
      assert (Hget : FieldKnowledgeBase.dict_get t ((k, v) :: rest) = Some w)
        by (apply dict_get_In; [eapply Hwk; exact Ed | exact Hin]).
      assert (Hw : w = KnowledgeStats.times_taught calls id t).
      { rewrite <- Hc, Hget. reflexivity. }
      assert (Hw1 : 1 <= w) by (eapply Hpos; [exact Ed | exact Hget]).
      split.
      * intros t0 H. injection H as <-. rewrite Hr.
        split; [lia|]. intros t'. rewrite <- (Hc t'), <- Hw.
        destruct (FieldKnowledgeBase.dict_get t' ((k, v) :: rest)) as [w'|] eqn:E'.
        -- apply dict_get_Some_In in E'. simpl. eauto.
        -- simpl. lia.
      * split; [discriminate|].
        intros Hzero. specialize (Hzero t). lia.
  - split; [discriminate|]. split; [|reflexivity].
    intros _ t. rewrite <- Hcount. reflexivity.
Qed.

(** X4. [get_stats] counts identifiers and platforms, not teachings: a
    call raises [total_field_mappings] by one exactly when its identifier
    was not yet in the table, and [ats_platforms_learned] by one exactly
    when its platform is not [unknown] and not yet in the table. *)
Theorem get_stats_counts_distinct_keys
    (kb : FieldKnowledgeBase.knowledge) (id t p : string) :
  KnowledgeStats.total_field_mappings (FieldKnowledgeBase.learn_field_mapping kb id t p)
  = (KnowledgeStats.total_field_mappings kb
     + match FieldKnowledgeBase.field_mappings kb !! id with
       | Some _ => 0
       | None => 1
       end)%nat
  /\ KnowledgeStats.ats_platforms_learned (FieldKnowledgeBase.learn_field_mapping kb id t p)
     = (KnowledgeStats.ats_platforms_learned kb
        + if String.eqb p "unknown" then 0
          else match FieldKnowledgeBase.ats_specific_mappings kb !! p with
               | Some _ => 0
               | None => 1
               end)%nat.
Proof.
  unfold KnowledgeStats.total_field_mappings, KnowledgeStats.ats_platforms_learned.
  simpl. split.
  - unfold FieldKnowledgeBase.learn_general. cbv zeta.
    destruct (FieldKnowledgeBase.field_mappings kb !! id) as [d|] eqn:E.
    + rewrite map_size_insert, E. simpl. lia.
    + rewrite insert_insert_eq, map_size_insert, E. simpl. lia.
  - unfold FieldKnowledgeBase.learn_ats.
    destruct (String.eqb p "unknown"); [lia|]. cbv zeta.
    destruct (FieldKnowledgeBase.ats_specific_mappings kb !! p) as [m|] eqn:E.
    + rewrite E. simpl. destruct (m !! id); [lia|].
      rewrite map_size_insert, E. simpl. lia.
    + rewrite lookup_insert_eq. simpl. rewrite lookup_empty.
      rewrite insert_insert_eq, map_size_insert, E. simpl. lia.
Qed.

(** ** Retry loop: the first settled invocation, and clicks with fallbacks *)
Section RetryLoopRuns.
Context {V : Type}.
Variable func : nat -> Py.result V.
Variable random : nat -> Q.
Variable max_retries : Z.
Variable base_delay : Q.
Variable exceptions : Py.exn -> bool.

(** The loop stops at the first invocation that returns or raises an
    exception that is not retried, as long as retries remain. *)
Lemma retry_loop_settles (k : nat) :
  forall (remaining : nat) (attempt : Z) (last : option Py.exn) (w : RetryHandler.world),
    (forall j, (j < k)%nat ->
       exists e, func (RetryHandler.calls w + j)%nat = Py.Raise e /\ exceptions e = true) ->
    RetryClick.settled exceptions (func (RetryHandler.calls w + k)%nat) = true ->
    attempt + Z.of_nat k <= max_retries -> (k < remaining)%nat ->
    fst (RetryHandler.retry_loop func random max_retries base_delay exceptions None
           remaining attempt last w) = func (RetryHandler.calls w + k)%nat
    /\ RetryHandler.calls
         (snd (RetryHandler.retry_loop func random max_retries base_delay exceptions None
                 remaining attempt last w)) = (RetryHandler.calls w + k + 1)%nat
    /\ length (RetryHandler.slept
         (snd (RetryHandler.retry_loop func random max_retries base_delay exceptions None
                 remaining attempt last w))) = (length (RetryHandler.slept w) + k)%nat
    /\ RetryHandler.draws
         (snd (RetryHandler.retry_loop func random max_retries base_delay exceptions None
                 remaining attempt last w)) = (RetryHandler.draws w + k)%nat.
Proof.
  induction k as [|k IH]; intros remaining attempt last w Hfail Hset Hle Hlt;
    (destruct remaining as [|remaining]; [lia|]).
  - rewrite Nat.add_0_r in *. simpl.
    destruct (func (RetryHandler.calls w)) as [v|e]; simpl in *.
    + repeat split; lia.
    + apply negb_true_iff in Hset. rewrite Hset. simpl. repeat split; lia.
  - destruct (Hfail 0%nat) as (e & He & Hex); [lia|].
    rewrite Nat.add_0_r in He. simpl. rewrite He, Hex.
    destruct (Z.ltb_spec attempt max_retries) as [_|Hge]; [|lia].
    match goal with
    | |- context [RetryHandler.retry_loop _ _ _ _ _ _ _ ?a ?l ?w'] =>
        destruct (IH remaining a l w') as (H1 & H2 & H3 & H4)
    end.
    + intros j Hj. simpl. destruct (Hfail (S j)) as (e' & He' & Hex'); [lia|].
      exists e'. split; [|exact Hex'].
      now replace (S (RetryHandler.calls w + j)) with (RetryHandler.calls w + S j)%nat by lia.
    + simpl.
      now replace (S (RetryHandler.calls w + k)) with (RetryHandler.calls w + S k)%nat by lia.
    + lia.
    + lia.
    + rewrite H1, H2, H3, H4. simpl. rewrite length_app. simpl.
      repeat split; try lia. f_equal. lia.
Qed.

(** What the loop has slept by then: the delay of each failed attempt,
    computed from the draw made for it. *)
Lemma retry_loop_settles_slept (k : nat) :
  forall (remaining : nat) (attempt : Z) (last : option Py.exn) (w : RetryHandler.world),
    (forall j, (j < k)%nat ->
       exists e, func (RetryHandler.calls w + j)%nat = Py.Raise e /\ exceptions e = true) ->
    RetryClick.settled exceptions (func (RetryHandler.calls w + k)%nat) = true ->
    attempt + Z.of_nat k <= max_retries -> (k < remaining)%nat ->
    RetryHandler.slept
      (snd (RetryHandler.retry_loop func random max_retries base_delay exceptions None
              remaining attempt last w))
    = (RetryHandler.slept w
       ++ map (fun j => RetryHandler.exponential_backoff (attempt + Z.of_nat j) base_delay
                          (random (RetryHandler.draws w + j)%nat))
              (seq 0 k))%list.
Proof.
  induction k as [|k IH]; intros remaining attempt last w Hfail Hset Hle Hlt;
    (destruct remaining as [|remaining]; [lia|]).
  - rewrite Nat.add_0_r in *. simpl.
    destruct (func (RetryHandler.calls w)) as [v|e]; simpl in *.
    + now rewrite app_nil_r.
    + apply negb_true_iff in Hset. rewrite Hset. simpl. now rewrite app_nil_r.
  - destruct (Hfail 0%nat) as (e & He & Hex); [lia|].
    rewrite Nat.add_0_r in He. simpl. rewrite He, Hex.
    destruct (Z.ltb_spec attempt max_retries) as [_|Hge]; [|lia].
    match goal with
    | |- context [RetryHandler.retry_loop _ _ _ _ _ _ _ ?a ?l ?w'] =>
        rewrite (IH remaining a l w')
    end.
    + cbn [RetryHandler.slept RetryHandler.draws RetryHandler.calls].
      rewrite <- app_assoc. f_equal.
      rewrite <- seq_shift, map_map. cbn [app map].
      rewrite Z.add_0_r, Nat.add_0_r. f_equal.
      apply map_ext. intros j. f_equal; [lia | f_equal; lia].
    + intros j Hj. simpl. destruct (Hfail (S j)) as (e' & He' & Hex'); [lia|].
      exists e'. split; [|exact Hex'].
      now replace (S (RetryHandler.calls w + j)) with (RetryHandler.calls w + S j)%nat by lia.
    + simpl.
      now replace (S (RetryHandler.calls w + k)) with (RetryHandler.calls w + S k)%nat by lia.
    + lia.
    + lia.
Qed.

End RetryLoopRuns.

(** X5. Take a base delay that is not negative, and let the first [k]
    invocations raise retried exceptions, with [k <= max_retries], each
    followed by a delay within range: one the float computation ends
    with a finite number for and [sleep] takes.  When the next
    invocation returns or raises an exception outside the retried
    classes, [retry_with_backoff] hands back the outcome of that
    invocation: [func] has been called [k + 1] times and the call has
    slept [k] times, for the delays of the attempts [0, ..., k - 1], none
    of which [sleep] refuses. In particular an exception that is not
    retried propagates from the first call without any retry. *)
Theorem retry_with_backoff_first_settled {V : Type}
    (func : nat -> Py.result V) (random : nat -> Q) (max_retries : Z) (base_delay : Q)
    (exceptions : Py.exn -> bool) (k : nat) :
  (0 <= base_delay)%Q ->
  (forall j, (j < k)%nat ->
     FloatRange.delay_in_range (Z.of_nat j) base_delay (random j)) ->
  (forall j, (j < k)%nat -> exists e, func j = Py.Raise e /\ exceptions e = true) ->
  RetryClick.settled exceptions (func k) = true ->
  Z.of_nat k <= max_retries ->
  let r := RetryHandler.retry_with_backoff func random max_retries base_delay
             exceptions None in
  fst r = func k
  /\ RetryHandler.calls (snd r) = (k + 1)%nat
  /\ RetryHandler.slept (snd r)
     = map (fun j => RetryHandler.exponential_backoff (Z.of_nat j) base_delay (random j))
           (seq 0 k)
  /\ Forall (fun delay => FloatRange.sleep (FloatRange.Finite delay) = None)
            (RetryHandler.slept (snd r)).
Proof.
  intros Hbase Hrange Hfail Hset Hle r. subst r. unfold RetryHandler.retry_with_backoff.
  destruct (retry_loop_settles func random max_retries base_delay exceptions k
              (Z.to_nat (max_retries + 1)) 0 None RetryHandler.start)
    as (H1 & H2 & _ & _); simpl; auto; try lia.
  assert (H3 := retry_loop_settles_slept func random max_retries base_delay exceptions k
              (Z.to_nat (max_retries + 1)) 0 None RetryHandler.start).
  simpl in H3. rewrite H3 by (auto; lia).
  split; [exact H1|]. split; [exact H2|]. split; [reflexivity|].
  apply List.Forall_forall. intros delay Hin.
  apply in_map_iff in Hin. destruct Hin as (j & <- & Hj).
  apply in_seq in Hj. apply (Hrange j). lia.
Qed.

Lemma retry_with_backoff_first_settled_witness :
  fst (RetryHandler.retry_with_backoff clicks_on_third_try (fun _ => 1 # 2) 3 2
         Py.is_Exception None) = Py.Ok true
  /\ RetryHandler.calls
       (snd (RetryHandler.retry_with_backoff clicks_on_third_try (fun _ => 1 # 2) 3 2
               Py.is_Exception None)) = 3%nat
  /\ RetryHandler.slept
       (snd (RetryHandler.retry_with_backoff clicks_on_third_try (fun _ => 1 # 2) 3 2
               Py.is_Exception None))
     = map (fun j => RetryHandler.exponential_backoff (Z.of_nat j) 2 (1 # 2)) (seq 0 2)
  /\ Forall (fun delay => FloatRange.sleep (FloatRange.Finite delay) = None)
       (RetryHandler.slept
          (snd (RetryHandler.retry_with_backoff clicks_on_third_try (fun _ => 1 # 2) 3 2
                  Py.is_Exception None))).
Proof.
  apply (retry_with_backoff_first_settled clicks_on_third_try (fun _ => 1 # 2) 3 2
           Py.is_Exception 2).
  - discriminate.
  - intros j Hj. destruct j as [|[|j]]; [| | lia];
      (split; [eexists; split; [reflexivity | reflexivity] | reflexivity]).
  - intros j Hj. exists (Py.Exception "StaleElementReferenceException").
    destruct j as [|[|j]]; [split; reflexivity | split; reflexivity | lia].
  - reflexivity.
  - lia.
Defined.

Section ClickFallbacks.
Variable click : string -> nat -> option Py.exn.
Variable random : nat -> Q.
Variable max_retries : Z.
Variable is_webdriver_exception : Py.exn -> bool.

Lemma click_action_fails (x : string) :
  RetryClick.never_clicks click is_webdriver_exception x ->
  forall k, exists e, RetryClick.click_action click x k = Py.Raise e
                      /\ is_webdriver_exception e = true.
Proof.
  intros H k. destruct (H k) as (e & He & Hw & _).
  exists e. unfold RetryClick.click_action. now rewrite He.
Qed.

(** Selectors that never click use up their whole budget, one after
    the other, and the loop goes on with the selectors that follow. *)
Lemma try_selectors_all_fail (xpaths : list string) :
  0 <= max_retries ->
  Forall (RetryClick.never_clicks click is_webdriver_exception) xpaths ->
  forall w rest,
    RetryClick.try_selectors click random max_retries is_webdriver_exception
      (xpaths ++ rest)%list w
    = RetryClick.try_selectors click random max_retries is_webdriver_exception rest
        (snd (RetryClick.try_selectors click random max_retries is_webdriver_exception
                xpaths w))
    /\ fst (RetryClick.try_selectors click random max_retries is_webdriver_exception
              xpaths w) = Py.Ok false
    /\ RetryHandler.calls
         (snd (RetryClick.try_selectors click random max_retries is_webdriver_exception
                 xpaths w))
       = (RetryHandler.calls w + length xpaths * Z.to_nat (max_retries + 1))%nat.
Proof.
  intros Hm Hall. induction Hall as [|x xs Hx Hxs IH]; intros w rest.
  - simpl. repeat split; lia.
  - pose proof (retry_loop_exhausts (RetryClick.click_action click x) random max_retries 1
                  is_webdriver_exception (click_action_fails x Hx)
                  (Z.to_nat max_retries) 0 None w) as [Hc Hr].
    destruct (Hx (RetryHandler.calls w + Z.to_nat max_retries)%nat) as (e & He & _ & Hexc).
    unfold RetryClick.click_action in Hr at 2. rewrite He in Hr.
    simpl app. cbn [RetryClick.try_selectors].
    replace (Z.to_nat (max_retries + 1)) with (S (Z.to_nat max_retries)) by lia.
    destruct (RetryHandler.retry_loop (RetryClick.click_action click x) random max_retries 1
                is_webdriver_exception None (S (Z.to_nat max_retries)) 0 None w)
      as [res w'] eqn:Eloop.
    simpl in Hc, Hr. subst res. rewrite Hexc.
    destruct (IH w' rest) as (H1 & H2 & H3).
    replace (Z.to_nat (max_retries + 1)) with (S (Z.to_nat max_retries)) in H3 by lia.
    rewrite H1, H2, H3, Hc. repeat split. simpl length. lia.
Qed.

End ClickFallbacks.

(** X6. With [max_retries >= 0], when neither the primary selector nor
    any fallback can ever be clicked, [retry_click] returns [False]
    after trying every selector [max_retries + 1] times, in order. *)
Theorem retry_click_all_selectors_fail
    (click : string -> nat -> option Py.exn) (random : nat -> Q) (max_retries : Z)
    (is_webdriver_exception : Py.exn -> bool)
    (xpath : string) (fallback_xpaths : list string) :
  0 <= max_retries ->
  Forall (RetryClick.never_clicks click is_webdriver_exception) (xpath :: fallback_xpaths) ->
  fst (RetryClick.retry_click click random max_retries is_webdriver_exception
         xpath fallback_xpaths) = Py.Ok false
  /\ RetryHandler.calls
       (snd (RetryClick.retry_click click random max_retries is_webdriver_exception
               xpath fallback_xpaths))
     = (S (length fallback_xpaths) * Z.to_nat (max_retries + 1))%nat.
Proof.
  intros Hm Hall. unfold RetryClick.retry_click.
  destruct (try_selectors_all_fail click random max_retries is_webdriver_exception
              (xpath :: fallback_xpaths) Hm Hall RetryHandler.start [])
    as (_ & H2 & H3).
  split; [exact H2|]. rewrite H3. reflexivity.
Qed.

Lemma retry_click_all_selectors_fail_witness :
  fst (RetryClick.retry_click nothing_clickable (fun _ => 0%Q) 3 is_selenium_exception
         "//button[@id='apply']" ["//a[@role='button']"]) = Py.Ok false
  /\ RetryHandler.calls
       (snd (RetryClick.retry_click nothing_clickable (fun _ => 0%Q) 3 is_selenium_exception
               "//button[@id='apply']" ["//a[@role='button']"])) = 8%nat.
Proof.
  apply (retry_click_all_selectors_fail nothing_clickable (fun _ => 0%Q) 3
           is_selenium_exception "//button[@id='apply']" ["//a[@role='button']"]).
  - lia.
  - repeat constructor; intros k; exists (Py.Exception "TimeoutException");
      repeat split; reflexivity.
Defined.

(** X7. With a negative [max_retries] no selector is ever tried:
    [retry_click] returns [False] without a single click, whatever the
    page would have done. *)
Theorem retry_click_negative_budget
    (click : string -> nat -> option Py.exn) (random : nat -> Q) (max_retries : Z)
    (is_webdriver_exception : Py.exn -> bool)
    (xpath : string) (fallback_xpaths : list string) :
  max_retries < 0 ->
  RetryClick.retry_click click random max_retries is_webdriver_exception
    xpath fallback_xpaths = (Py.Ok false, RetryHandler.start).
Proof.
  intros Hm. unfold RetryClick.retry_click.
  generalize (xpath :: fallback_xpaths) as xpaths.
  induction xpaths as [|x xs IH]; [reflexivity|].
  cbn [RetryClick.try_selectors].
  replace (Z.to_nat (max_retries + 1)) with 0%nat by lia.
  simpl. exact IH.
Qed.

Lemma retry_click_negative_budget_witness :
  RetryClick.retry_click (fun _ _ => None) (fun _ => 0%Q) (-1) is_selenium_exception
    "//button[@id='apply']" [] = (Py.Ok false, RetryHandler.start).
Proof.
  apply (retry_click_negative_budget (fun _ _ => None) (fun _ => 0%Q) (-1)
           is_selenium_exception "//button[@id='apply']" []).
  lia.
Defined.

(** X8. [retry_click] succeeds on the first selector and try that
    clicks: when the selectors before [x] can never be clicked, and [x]
    fails [k <= max_retries] times and then clicks, the result is [True]
    after all tries of the earlier selectors plus [k + 1] tries of [x];
    the selectors after [x] are not tried. *)
Theorem retry_click_first_click_wins
    (click : string -> nat -> option Py.exn) (random : nat -> Q) (max_retries : Z)
    (is_webdriver_exception : Py.exn -> bool)
    (xpath : string) (fallback_xpaths failed rest : list string) (x : string) (k : nat) :
  xpath :: fallback_xpaths = (failed ++ x :: rest)%list ->
  Forall (RetryClick.never_clicks click is_webdriver_exception) failed ->
  Z.of_nat k <= max_retries ->
  (forall j, (j < k)%nat ->
     exists e, click x (length failed * Z.to_nat (max_retries + 1) + j)%nat = Some e
               /\ is_webdriver_exception e = true) ->
  click x (length failed * Z.to_nat (max_retries + 1) + k)%nat = None ->
  fst (RetryClick.retry_click click random max_retries is_webdriver_exception
         xpath fallback_xpaths) = Py.Ok true
  /\ RetryHandler.calls
       (snd (RetryClick.retry_click click random max_retries is_webdriver_exception
               xpath fallback_xpaths))
     = (length failed * Z.to_nat (max_retries + 1) + k + 1)%nat.
Proof.
  intros Hsplit Hfailed Hk Hbefore Hclick. unfold RetryClick.retry_click.
  rewrite Hsplit.
  assert (Hm : 0 <= max_retries) by lia.
  destruct (try_selectors_all_fail click random max_retries is_webdriver_exception
              failed Hm Hfailed RetryHandler.start (x :: rest)) as (H1 & _ & H3).
  rewrite H1. clear H1.
  set (w := snd (RetryClick.try_selectors click random max_retries
                   is_webdriver_exception failed RetryHandler.start)) in *.
  simpl in H3.
  cbn [RetryClick.try_selectors].
  destruct (retry_loop_settles (RetryClick.click_action click x) random max_retries 1
              is_webdriver_exception k (Z.to_nat (max_retries + 1)) 0 None w)
    as (R1 & R2 & _).
  - intros j Hj. rewrite H3. destruct (Hbefore j Hj) as (e & He & Hw).
    exists e. unfold RetryClick.click_action. now rewrite He.
  - rewrite H3. unfold RetryClick.click_action. now rewrite Hclick.
  - lia.
  - lia.
  - destruct (RetryHandler.retry_loop (RetryClick.click_action click x) random max_retries 1
                is_webdriver_exception None (Z.to_nat (max_retries + 1)) 0 None w)
      as [res w'] eqn:Eloop.
    simpl in R1, R2. rewrite H3 in R1, R2.
    unfold RetryClick.click_action in R1. rewrite Hclick in R1. subst res.
    simpl. split; [reflexivity | exact R2].
Qed.

Lemma retry_click_first_click_wins_witness :
  fst (RetryClick.retry_click only_apply_button (fun _ => 0%Q) 3 is_selenium_exception
         "//button[@id='apply']" ["//a[@role='button']"; "//button[text()='Apply']"])
    = Py.Ok true
  /\ RetryHandler.calls
       (snd (RetryClick.retry_click only_apply_button (fun _ => 0%Q) 3 is_selenium_exception
               "//button[@id='apply']" ["//a[@role='button']"; "//button[text()='Apply']"]))
     = 10%nat.
Proof.
  apply (retry_click_first_click_wins only_apply_button (fun _ => 0%Q) 3
           is_selenium_exception "//button[@id='apply']"
           ["//a[@role='button']"; "//button[text()='Apply']"]
           ["//button[@id='apply']"; "//a[@role='button']"] []
           "//button[text()='Apply']" 1).
  - reflexivity.
  - repeat constructor; intros k; exists (Py.Exception "TimeoutException");
      repeat split; reflexivity.
  - lia.
  - intros j Hj. exists (Py.Exception "TimeoutException").
    destruct j as [|j]; [split; reflexivity | lia].
  - reflexivity.
Defined.

Section RetryCallback.
Context {V : Type}.
Variable func : nat -> Py.result V.
Variable random : nat -> Q.
Variable max_retries : Z.
Variable base_delay : Q.
Variable exceptions : Py.exn -> bool.
Variable callback : Z -> Py.exn -> option Py.exn.

Hypothesis always_fails :
  forall k, exists e, func k = Py.Raise e /\ exceptions e = true.
Hypothesis callback_returns : forall attempt e, callback attempt e = None.

(** With a callback that never raises, every failed attempt but the
    last one is reported to it, in order. *)
Lemma retry_loop_reports (remaining : nat) :
  forall (attempt : Z) (last : option Py.exn) (w : RetryHandler.world),
    0 <= attempt -> attempt + Z.of_nat remaining = max_retries ->
    RetryHandler.retried
      (snd (RetryHandler.retry_loop func random max_retries base_delay exceptions
              (Some callback) (S remaining) attempt last w))
    = (RetryHandler.retried w
       ++ map Z.of_nat (seq (Z.to_nat attempt) remaining))%list
    /\ length (RetryHandler.slept
         (snd (RetryHandler.retry_loop func random max_retries base_delay exceptions
                 (Some callback) (S remaining) attempt last w)))
       = (length (RetryHandler.slept w) + remaining)%nat.
Proof.
  induction remaining as [|n IH]; intros attempt last w Ha Hsum;
    destruct (always_fails (RetryHandler.calls w)) as (e & He & Hex).
  - simpl. rewrite He, Hex.
    destruct (Z.ltb_spec attempt max_retries) as [Hlt|_]; [lia|].
    simpl. rewrite app_nil_r. split; [reflexivity | lia].
  - change (RetryHandler.retry_loop func random max_retries base_delay exceptions
              (Some callback) (S (S n)) attempt last w)
      with (match func (RetryHandler.calls w) with
            | Py.Ok v =>
                (Py.Ok v, {| RetryHandler.calls := S (RetryHandler.calls w);
                             RetryHandler.draws := RetryHandler.draws w;
                             RetryHandler.slept := RetryHandler.slept w;
                             RetryHandler.retried := RetryHandler.retried w |})
            | Py.Raise e =>
                if exceptions e then
                  if Z.ltb attempt max_retries then
                    match callback attempt e with
                    | Some e' =>
                        (Py.Raise e',
                         {| RetryHandler.calls := S (RetryHandler.calls w);
                            RetryHandler.draws := S (RetryHandler.draws w);
                            RetryHandler.slept := RetryHandler.slept w;
                            RetryHandler.retried :=
                              (RetryHandler.retried w ++ [attempt])%list |})
                    | None =>
                        RetryHandler.retry_loop func random max_retries base_delay
                          exceptions (Some callback) (S n) (attempt + 1) (Some e)
                          {| RetryHandler.calls := S (RetryHandler.calls w);
                             RetryHandler.draws := S (RetryHandler.draws w);
                             RetryHandler.slept :=
                               (RetryHandler.slept w ++
                                  [RetryHandler.exponential_backoff attempt base_delay
                                     (random (RetryHandler.draws w))])%list;
                             RetryHandler.retried :=
                               (RetryHandler.retried w ++ [attempt])%list |}
                    end
                  else
                    RetryHandler.retry_loop func random max_retries base_delay
                      exceptions (Some callback) (S n) (attempt + 1) (Some e)
                      {| RetryHandler.calls := S (RetryHandler.calls w);
                         RetryHandler.draws := RetryHandler.draws w;
                         RetryHandler.slept := RetryHandler.slept w;
                         RetryHandler.retried := RetryHandler.retried w |}
                else
                  (Py.Raise e, {| RetryHandler.calls := S (RetryHandler.calls w);
                                  RetryHandler.draws := RetryHandler.draws w;
                                  RetryHandler.slept := RetryHandler.slept w;
                                  RetryHandler.retried := RetryHandler.retried w |})
            end).
    rewrite He, Hex, callback_returns.
    destruct (Z.ltb_spec attempt max_retries) as [_|Hge]; [|lia].
    match goal with
    | |- context [RetryHandler.retry_loop _ _ _ _ _ _ _ ?a ?l ?w'] =>
        destruct (IH a l w') as [H1 H2]; [lia | lia |]
    end.
    rewrite H1, H2. cbn [RetryHandler.retried RetryHandler.slept].
    rewrite length_app, <- app_assoc. simpl length.
    replace (Z.to_nat (attempt + 1)) with (S (Z.to_nat attempt)) by lia.
    cbn [seq map app]. rewrite Z2Nat.id by exact Ha.
    split; [reflexivity | lia].
Qed.

(** One failed attempt below [max_retries]: the callback, the sleep,
    and on to the next attempt. *)
Lemma retry_loop_callback_step (n : nat) (attempt : Z) (last : option Py.exn)
    (w : RetryHandler.world) (e : Py.exn) :
  func (RetryHandler.calls w) = Py.Raise e -> exceptions e = true ->
  attempt < max_retries ->
  RetryHandler.retry_loop func random max_retries base_delay exceptions
    (Some callback) (S n) attempt last w
  = RetryHandler.retry_loop func random max_retries base_delay exceptions
      (Some callback) n (attempt + 1) (Some e)
      {| RetryHandler.calls := S (RetryHandler.calls w);
         RetryHandler.draws := S (RetryHandler.draws w);
         RetryHandler.slept :=
           (RetryHandler.slept w ++
              [RetryHandler.exponential_backoff attempt base_delay
                 (random (RetryHandler.draws w))])%list;
         RetryHandler.retried := (RetryHandler.retried w ++ [attempt])%list |}.
Proof.
  intros He Hex Hlt. destruct n; simpl; rewrite He, Hex, callback_returns;
    (destruct (Z.ltb_spec attempt max_retries) as [_|Hge]; [reflexivity | lia]).
Qed.

(** What the loop sleeps: the delay of every attempt but the last. *)
Lemma retry_loop_reports_slept (remaining : nat) :
  forall (attempt : Z) (last : option Py.exn) (w : RetryHandler.world),
    0 <= attempt -> attempt + Z.of_nat remaining = max_retries ->
    RetryHandler.slept
      (snd (RetryHandler.retry_loop func random max_retries base_delay exceptions
              (Some callback) (S remaining) attempt last w))
    = (RetryHandler.slept w
       ++ map (fun j => RetryHandler.exponential_backoff (attempt + Z.of_nat j) base_delay
                          (random (RetryHandler.draws w + j)%nat))
              (seq 0 remaining))%list.
Proof.
  induction remaining as [|n IH]; intros attempt last w Ha Hsum;
    destruct (always_fails (RetryHandler.calls w)) as (e & He & Hex).
  - simpl. rewrite He, Hex.
    destruct (Z.ltb_spec attempt max_retries) as [Hlt|_]; [lia|].
    simpl. now rewrite app_nil_r.
  - rewrite (retry_loop_callback_step (S n) attempt last w e He Hex) by lia.
    rewrite IH by lia.
    cbn [RetryHandler.slept RetryHandler.draws].
    rewrite <- app_assoc. f_equal.
    change (seq 0 (S n)) with (0%nat :: seq 1 n).
    rewrite <- seq_shift. cbn [app map]. rewrite map_map.
    rewrite Z.add_0_r, Nat.add_0_r. f_equal.
    apply map_ext. intros j. f_equal; [lia | f_equal; lia].
Qed.

End RetryCallback.

(** X9. With [max_retries >= 0], a base delay that is not negative and
    the delay of every attempt below [max_retries] within range (the
    float computation ends with a finite number, which [sleep] takes),
    a function that fails on every call and an [on_retry] callback that
    never raises: the callback is called once after each failure but the
    last, with the attempt numbers [0, 1, ..., max_retries - 1] in this
    order, and the call sleeps [max_retries] times, for the delays of
    these attempts, none of which [sleep] refuses. *)
Theorem on_retry_called_once_per_retry {V : Type}
    (func : nat -> Py.result V) (random : nat -> Q) (max_retries : Z) (base_delay : Q)
    (exceptions : Py.exn -> bool) (callback : Z -> Py.exn -> option Py.exn) :
  0 <= max_retries ->
  (0 <= base_delay)%Q ->
  (forall j, (j < Z.to_nat max_retries)%nat ->
     FloatRange.delay_in_range (Z.of_nat j) base_delay (random j)) ->
  (forall k, exists e, func k = Py.Raise e /\ exceptions e = true) ->
  (forall attempt e, callback attempt e = None) ->
  let r := RetryHandler.retry_with_backoff func random max_retries base_delay
             exceptions (Some callback) in
  RetryHandler.retried (snd r) = map Z.of_nat (seq 0 (Z.to_nat max_retries))
  /\ RetryHandler.slept (snd r)
     = map (fun j => RetryHandler.exponential_backoff (Z.of_nat j) base_delay (random j))
           (seq 0 (Z.to_nat max_retries))
  /\ Forall (fun delay => FloatRange.sleep (FloatRange.Finite delay) = None)
            (RetryHandler.slept (snd r)).
Proof.
  intros Hm Hbase Hrange Hfail Hcb r. subst r. unfold RetryHandler.retry_with_backoff.
  replace (Z.to_nat (max_retries + 1)) with (S (Z.to_nat max_retries)) by lia.
  destruct (retry_loop_reports func random max_retries base_delay exceptions callback
              Hfail Hcb (Z.to_nat max_retries) 0 None RetryHandler.start) as [H1 _];
    [lia | lia |].
  rewrite H1.
  rewrite (retry_loop_reports_slept func random max_retries base_delay exceptions callback
             Hfail Hcb (Z.to_nat max_retries) 0 None RetryHandler.start) by lia.
  split; [reflexivity|]. split; [reflexivity|].
  apply List.Forall_forall. intros delay Hin.
  apply in_map_iff in Hin. destruct Hin as (j & <- & Hj).
  apply in_seq in Hj. apply (Hrange j). simpl in Hj. lia.
Qed.

Lemma on_retry_called_once_per_retry_witness :
  RetryHandler.retried
    (snd (RetryHandler.retry_with_backoff never_clickable (fun _ => 1 # 2) 3 2
            Py.is_Exception (Some quiet_callback))) = [0; 1; 2]
  /\ RetryHandler.slept
       (snd (RetryHandler.retry_with_backoff never_clickable (fun _ => 1 # 2) 3 2
               Py.is_Exception (Some quiet_callback)))
     = map (fun j => RetryHandler.exponential_backoff (Z.of_nat j) 2 (1 # 2)) (seq 0 3)
  /\ Forall (fun delay => FloatRange.sleep (FloatRange.Finite delay) = None)
       (RetryHandler.slept
          (snd (RetryHandler.retry_with_backoff never_clickable (fun _ => 1 # 2) 3 2
                  Py.is_Exception (Some quiet_callback)))).
Proof.
  apply (on_retry_called_once_per_retry never_clickable (fun _ => 1 # 2) 3 2
           Py.is_Exception quiet_callback).
  - lia.
  - discriminate.
  - intros j Hj. destruct j as [|[|[|j]]]; [| | | simpl in Hj; lia];
      (split; [eexists; split; [reflexivity | reflexivity] | reflexivity]).
  - intros k. exists (Py.Exception "TimeoutException"). split; reflexivity.
  - reflexivity.
Defined.

(** ** Smart filter: rejections and viewed jobs *)
Section Rejections.

(** A company whose entry, if any, carries a count. *)
Lemma add_rejected_company_entry (rc : SmartFilter.rejected_companies)
    (company reason now_first now_last : string) :
  (forall e, SmartFilter.companies_or_empty rc !! company = Some e ->
             SmartFilter.rejection_count e <> None) ->
  exists cs' e',
    SmartFilterState.add_rejected_company rc company reason now_first now_last
      = Py.Ok (Some cs')
    /\ cs' !! company = Some e'
    /\ SmartFilter.rejection_count e'
       = Some (default 0 (SmartFilterState.recorded_count rc company) + 1)
    /\ In reason (SmartFilter.reasons e')
    /\ (forall other, other <> company ->
          cs' !! other = SmartFilter.companies_or_empty rc !! other)
    /\ (forall e, SmartFilter.companies_or_empty rc !! company = Some e ->
          SmartFilter.first_rejection e' = SmartFilter.first_rejection e
          /\ (List.NoDup (SmartFilter.reasons e) -> List.NoDup (SmartFilter.reasons e'))
          /\ (forall r, In r (SmartFilter.reasons e) -> In r (SmartFilter.reasons e'))).
Proof.
  intros Hcount.
  unfold SmartFilterState.add_rejected_company, SmartFilterState.recorded_count.
  cbv zeta.
  destruct (SmartFilter.companies_or_empty rc !! company) as [e|] eqn:E.
  - rewrite E.
    destruct (SmartFilter.rejection_count e) as [n|] eqn:En;
      [|exfalso; eapply Hcount; eauto].
    eexists _, _. split; [reflexivity|].
    split; [apply lookup_insert_eq|]. simpl.
    split; [reflexivity|]. split; [|split].
    + destruct (existsb (String.eqb reason) (SmartFilter.reasons e)) eqn:Ex.
      * apply existsb_exists in Ex as (r & Hr & Heq).
        apply String.eqb_eq in Heq. now subst.
      * apply in_or_app. right. now left.
    + intros other Hne. now rewrite lookup_insert_ne by congruence.
    + intros e0 He0. injection He0 as <-. split; [reflexivity|]. split.
      * intros Hnd.
        destruct (existsb (String.eqb reason) (SmartFilter.reasons e)) eqn:Ex; [exact Hnd|].
        apply List.NoDup_app; [exact Hnd | repeat constructor; intros [] |].
        intros r Hr [<-|[]].
        assert (existsb (String.eqb reason) (SmartFilter.reasons e) = true); [|congruence].
        apply existsb_exists. exists reason. split; [exact Hr | apply String.eqb_refl].
      * intros r Hr.
        destruct (existsb (String.eqb reason) (SmartFilter.reasons e)); [exact Hr|].
        apply in_or_app. now left.
  - rewrite lookup_insert_eq. simpl.
    eexists _, _. split; [reflexivity|].
    split; [apply lookup_insert_eq|]. simpl.
    split; [reflexivity|]. split; [now left|]. split.
    + intros other Hne. now rewrite !lookup_insert_ne by congruence.
    + intros e0 He0. discriminate.
Qed.

Lemma add_rejections_count (events : list (string * string * string)) :
  forall (rc : SmartFilter.rejected_companies) (company : string),
    (forall e, SmartFilter.companies_or_empty rc !! company = Some e ->
               SmartFilter.rejection_count e <> None) ->
    events <> [] ->
    exists rc',
      SmartFilterState.add_rejections rc company events = Py.Ok rc'
      /\ SmartFilterState.recorded_count rc' company
         = Some (default 0 (SmartFilterState.recorded_count rc company)
                 + Z.of_nat (length events))
      /\ (forall other, other <> company ->
            SmartFilter.companies_or_empty rc' !! other
            = SmartFilter.companies_or_empty rc !! other).
Proof.
  induction events as [|[[reason nf] nl] events IH]; intros rc company Hc Hne;
    [contradiction|].
  destruct (add_rejected_company_entry rc company reason nf nl Hc)
    as (cs' & e' & Hadd & He' & Hcnt & _ & Hother & _).
  cbn [SmartFilterState.add_rejections]. rewrite Hadd.
  assert (Hrec : SmartFilterState.recorded_count (Some cs') company
                 = Some (default 0 (SmartFilterState.recorded_count rc company) + 1)).
  { unfold SmartFilterState.recorded_count at 1. simpl. now rewrite He', Hcnt. }
  destruct events as [|ev events].
  - exists (Some cs'). split; [reflexivity|]. split; [|exact Hother].
    rewrite Hrec. reflexivity.
  - destruct (IH (Some cs') company) as (rc' & Hadds & Hcnt' & Hother'); [|discriminate|].
    + simpl. intros e0 He0. rewrite He' in He0. injection He0 as <-. now rewrite Hcnt.
    + exists rc'. split; [exact Hadds|]. split.
      * rewrite Hcnt', Hrec. simpl default. f_equal.
        change (length ((reason, nf, nl) :: ev :: events)) with (S (length (ev :: events))).
        lia.
      * intros other Hneq. rewrite Hother' by exact Hneq. simpl. now apply Hother.
Qed.

End Rejections.

(** X10. [add_rejected_company] on a table whose entry for the company,
    if any, carries a count: the call succeeds; afterwards the company
    has an entry whose count is the earlier one plus one (one for a new
    company) and whose reasons contain the reason given; an existing
    entry keeps its first-rejection time and its earlier reasons, without
    a duplicate; the entries of other companies are as before. *)
Theorem add_rejected_company_records
    (rc : SmartFilter.rejected_companies) (company reason now_first now_last : string) :
  (forall e, SmartFilter.companies_or_empty rc !! company = Some e ->
             SmartFilter.rejection_count e <> None) ->
  exists cs' e',
    SmartFilterState.add_rejected_company rc company reason now_first now_last
      = Py.Ok (Some cs')
    /\ cs' !! company = Some e'
    /\ SmartFilter.rejection_count e'
       = Some (default 0 (SmartFilterState.recorded_count rc company) + 1)
    /\ In reason (SmartFilter.reasons e')
    /\ (forall other, other <> company ->
          cs' !! other = SmartFilter.companies_or_empty rc !! other)
    /\ (forall e, SmartFilter.companies_or_empty rc !! company = Some e ->
          SmartFilter.first_rejection e' = SmartFilter.first_rejection e
          /\ (List.NoDup (SmartFilter.reasons e) -> List.NoDup (SmartFilter.reasons e'))
          /\ (forall r, In r (SmartFilter.reasons e) -> In r (SmartFilter.reasons e'))).
Proof. apply add_rejected_company_entry. Qed.

Lemma add_rejected_company_records_witness :
  exists cs' e',
    SmartFilterState.add_rejected_company sample_rejections "Bolt"
      "No visa sponsorship" "2024-05-04T12:00:00" "2024-05-04T12:00:01" = Py.Ok (Some cs')
    /\ cs' !! "Bolt" = Some e'
    /\ SmartFilter.rejection_count e' = Some 2
    /\ SmartFilter.reasons e' = ["Rejected application"; "No visa sponsorship"].
Proof.
  destruct (add_rejected_company_records sample_rejections "Bolt"
              "No visa sponsorship" "2024-05-04T12:00:00" "2024-05-04T12:00:01")
    as (cs' & e' & Hadd & He' & Hcnt & _).
  - intros e He. vm_compute in He. injection He as <-. discriminate.
  - exists cs', e'. split; [exact Hadd|]. split; [exact He'|]. split; [exact Hcnt|].
    vm_compute in Hadd. injection Hadd as <-. vm_compute in He'. now injection He' as <-.
Defined.

(** X11. Rejections accumulate up to the skip: after [n >= 1] recorded
    rejections of a company that had a count [c] (0 when it had no
    entry), [should_skip_company] answers whether the threshold is at
    most [c + n]; what it answers for other companies is unchanged. *)
Theorem skip_after_recorded_rejections
    (rc : SmartFilter.rejected_companies) (company : string)
    (events : list (string * string * string)) (rejection_threshold : Z) :
  (forall e, SmartFilter.companies_or_empty rc !! company = Some e ->
             SmartFilter.rejection_count e <> None) ->
  events <> [] ->
  exists rc',
    SmartFilterState.add_rejections rc company events = Py.Ok rc'
    /\ SmartFilter.should_skip_company rc' company rejection_threshold
       = Z.leb rejection_threshold
           (default 0 (SmartFilterState.recorded_count rc company)
            + Z.of_nat (length events))
    /\ (forall other threshold, other <> company ->
          SmartFilter.should_skip_company rc' other threshold
          = SmartFilter.should_skip_company rc other threshold).
Proof.
  intros Hc Hne.
  destruct (add_rejections_count events rc company Hc Hne) as (rc' & Hadd & Hcnt & Hother).
  exists rc'. split; [exact Hadd|]. split.
  - unfold SmartFilterState.recorded_count in Hcnt at 1.
    unfold SmartFilter.should_skip_company.
    destruct (SmartFilter.companies_or_empty rc' !! company) as [e|]; [|discriminate].
    injection Hcnt as ->. reflexivity.
  - intros other threshold Hneq. unfold SmartFilter.should_skip_company.
    now rewrite Hother.
Qed.

Lemma skip_after_recorded_rejections_witness :
  exists rc',
    SmartFilterState.add_rejections (Some ∅) "Dune"
      [("Rejected application", "2024-06-01T09:00:00", "2024-06-01T09:00:00");
       ("Rejected application", "2024-06-08T09:00:00", "2024-06-08T09:00:00")] = Py.Ok rc'
    /\ SmartFilter.should_skip_company rc' "Dune" 2 = true.
Proof.
  destruct (skip_after_recorded_rejections (Some ∅) "Dune"
              [("Rejected application", "2024-06-01T09:00:00", "2024-06-01T09:00:00");
               ("Rejected application", "2024-06-08T09:00:00", "2024-06-08T09:00:00")] 2)
    as (rc' & Hadd & Hskip & _).
  - intros e He. vm_compute in He. discriminate.
  - discriminate.
  - exists rc'. split; [exact Hadd | exact Hskip].
Defined.

(** X12. [cleanup_old_data] with any positive number of days forgets
    every viewed job, however recently it was marked, and leaves the
    rejected companies as they were; with [days <= 0] it changes
    nothing. A job is viewed after [mark_as_viewed] exactly when it is
    the marked job or was viewed before. *)
Theorem cleanup_forgets_all_viewed_jobs
    (st : SmartFilterState.filter_state) (job_id other : string) (days : Z) :
  (SmartFilterState.is_viewed (SmartFilterState.mark_as_viewed st job_id) other = true
   <-> other = job_id \/ SmartFilterState.is_viewed st other = true)
  /\ (0 < days ->
      SmartFilterState.is_viewed
        (SmartFilterState.cleanup_old_data
           (SmartFilterState.mark_as_viewed st job_id) days) other = false
      /\ SmartFilterState.rejected
           (SmartFilterState.cleanup_old_data
              (SmartFilterState.mark_as_viewed st job_id) days)
         = SmartFilterState.rejected st)
  /\ (days <= 0 -> SmartFilterState.cleanup_old_data st days = st).
Proof.
  unfold SmartFilterState.is_viewed, SmartFilterState.cleanup_old_data,
    SmartFilterState.mark_as_viewed.
  split; [|split].
  - simpl. rewrite !bool_decide_eq_true. set_solver.
  - intros Hd. destruct (Z.ltb_spec 0 days) as [_|Hle]; [|lia]. simpl.
    split; [|reflexivity]. apply bool_decide_eq_false. set_solver.
  - intros Hd. destruct (Z.ltb_spec 0 days) as [Hlt|_]; [lia | reflexivity].
Qed.

Lemma cleanup_forgets_all_viewed_jobs_witness :
  SmartFilterState.is_viewed
    (SmartFilterState.cleanup_old_data
       (SmartFilterState.mark_as_viewed
          {| SmartFilterState.viewed_jobs := ∅;
             SmartFilterState.rejected := sample_rejections |} "3901234567") 90)
    "3901234567" = false.
Proof.
  apply (proj1 (proj2 (cleanup_forgets_all_viewed_jobs
           {| SmartFilterState.viewed_jobs := ∅;
              SmartFilterState.rejected := sample_rejections |}
           "3901234567" "3901234567" 90))).
  lia.
Defined.

(** ** Applicant counts: how the patterns run on numbers *)
Section RegexRuns.

Lemma str_app_cons (c : ascii) (s t : string) : String c s ++ t = String c (s ++ t).
Proof. reflexivity. Qed.

Lemma str_app_nil (t : string) : "" ++ t = t.
Proof. reflexivity. Qed.

Lemma str_app_nil_r (s : string) : s ++ "" = s.
Proof.
  induction s as [|c s IH]; [reflexivity|]. rewrite str_app_cons. now rewrite IH.
Qed.

Lemma lower_app (a b : string) : PyStr.lower (a ++ b) = PyStr.lower a ++ PyStr.lower b.
Proof.
  induction a as [|c a IH]; [reflexivity|].
  rewrite str_app_cons. simpl. now rewrite IH.
Qed.

Lemma digit_lower (c : ascii) : PyStr.is_digit c = true -> PyStr.lower_char c = c.
Proof.
  destruct c as [[] [] [] [] [] [] [] []]; vm_compute; solve [reflexivity | discriminate].
Qed.

Lemma digit_not_space (c : ascii) : PyStr.is_digit c = true -> PyStr.is_space c = false.
Proof.
  destruct c as [[] [] [] [] [] [] [] []]; vm_compute; solve [reflexivity | discriminate].
Qed.

Lemma digit_not_o (c : ascii) : PyStr.is_digit c = true -> Ascii.eqb "o" c = false.
Proof.
  destruct c as [[] [] [] [] [] [] [] []]; vm_compute; solve [reflexivity | discriminate].
Qed.

Lemma lower_digits (ds : string) :
  JobScreening.all_digits ds = true -> PyStr.lower ds = ds.
Proof.
  induction ds as [|c ds IH]; [reflexivity|]. simpl.
  intros H. apply andb_true_iff in H as [Hc Hds].
  now rewrite digit_lower, IH.
Qed.

(** A run of digits holds no [over]. *)
Lemma contains_over_digits (ds tail : string) :
  JobScreening.all_digits ds = true ->
  PyStr.contains "over" (ds ++ tail) = PyStr.contains "over" tail.
Proof.
  induction ds as [|c ds IH]; [reflexivity|]. simpl JobScreening.all_digits.
  intros H. apply andb_true_iff in H as [Hc Hds].
  rewrite str_app_cons.
  change (PyStr.contains "over" (String c (ds ++ tail)))
    with (if PyStr.startswith "over" (String c (ds ++ tail)) then true
          else PyStr.contains "over" (ds ++ tail)).
  change (PyStr.startswith "over" (String c (ds ++ tail)))
    with (if Ascii.eqb "o" c then PyStr.startswith "ver" (ds ++ tail) else false).
  rewrite (digit_not_o c Hc). auto.
Qed.

Lemma match_here_plus_cons (ic : bool) (cls : ascii -> bool) (cap : bool)
    (re' : Regex.pattern) (c : ascii) (s' : string) :
  Regex.match_here ic (Regex.Plus cls cap :: re') (String c s')
  = if cls c then
      match Regex.match_here ic (Regex.Plus cls cap :: re') s' with
      | Some g => Some (Regex.keep cap c g)
      | None =>
          match Regex.match_here ic re' s' with
          | Some g => Some (Regex.keep cap c g)
          | None => None
          end
      end
    else None.
Proof. reflexivity. Qed.

(** A repetition fails where the text does not start in its class. *)
Lemma plus_fails_at (ic : bool) (cls : ascii -> bool) (cap : bool)
    (re' : Regex.pattern) (s : string) :
  JobScreening.starts_with cls s = false ->
  Regex.match_here ic (Regex.Plus cls cap :: re') s = None.
Proof.
  destruct s as [|c s]; [reflexivity|]. simpl JobScreening.starts_with. intros H.
  now rewrite match_here_plus_cons, H.
Qed.

(** A literal prefix of the pattern consumes the same prefix of the text. *)
Lemma match_lits (ic : bool) (p : string) (re' : Regex.pattern) (rest : string) :
  Regex.match_here ic (Regex.lits p ++ re')%list (p ++ rest)
  = Regex.match_here ic re' rest.
Proof.
  induction p as [|c p IH]; [reflexivity|].
  rewrite str_app_cons. simpl Regex.lits. simpl app.
  change (Regex.match_here ic (Regex.Lit c :: (Regex.lits p ++ re')%list)
            (String c (p ++ rest)))
    with (if Regex.char_eq ic c c
          then Regex.match_here ic (Regex.lits p ++ re')%list (p ++ rest) else None).
  assert (H : Regex.char_eq ic c c = true)
    by (unfold Regex.char_eq; destruct ic; apply Ascii.eqb_refl).
  now rewrite H.
Qed.

(** One blank before a text that does not start with a blank. *)
Lemma ws_single (ic : bool) (re' : Regex.pattern) (t : string) :
  JobScreening.starts_with PyStr.is_space t = false ->
  Regex.match_here ic (Regex.ws :: re') (String " " t) = Regex.match_here ic re' t.
Proof.
  intros H. unfold Regex.ws. rewrite match_here_plus_cons.
  change (PyStr.is_space " ") with true. cbv iota.
  rewrite (plus_fails_at ic PyStr.is_space false re' t H).
  destruct (Regex.match_here ic re' t); reflexivity.
Qed.

(** The captured digits are the whole run when the rest of the pattern
    cannot start at a digit. *)
Lemma digits_run (ic : bool) (re' : Regex.pattern) (ds tail : string) :
  JobScreening.is_number ds ->
  JobScreening.starts_with PyStr.is_digit tail = false ->
  (forall c s, PyStr.is_digit c = true -> Regex.match_here ic re' (String c s) = None) ->
  Regex.match_here ic (Regex.digits :: re') (ds ++ tail)
  = match Regex.match_here ic re' tail with
    | Some g => Some (ds ++ g)
    | None => None
    end.
Proof.
  intros [Hne Hds] Htail Hre. induction ds as [|c ds IH]; [contradiction|].
  simpl JobScreening.all_digits in Hds. apply andb_true_iff in Hds as [Hc Hds].
  rewrite str_app_cons. unfold Regex.digits. rewrite match_here_plus_cons, Hc.
  fold Regex.digits.
  destruct ds as [|c' ds].
  - rewrite str_app_nil. unfold Regex.digits at 1.
    rewrite (plus_fails_at ic PyStr.is_digit true re' tail Htail).
    destruct (Regex.match_here ic re' tail); reflexivity.
  - rewrite IH by (try discriminate; assumption).
    destruct (Regex.match_here ic re' tail) as [g|]; [reflexivity|].
    rewrite str_app_cons. rewrite Hre; [reflexivity|].
    simpl in Hds. now apply andb_true_iff in Hds as [Hc' _].
Qed.

(** At the end of the pattern the captured digits are the whole run. *)
Lemma digits_run_end (ic : bool) (ds tail : string) :
  JobScreening.is_number ds ->
  JobScreening.starts_with PyStr.is_digit tail = false ->
  Regex.match_here ic [Regex.digits] (ds ++ tail) = Some ds.
Proof.
  intros [Hne Hds] Htail. induction ds as [|c ds IH]; [contradiction|].
  simpl JobScreening.all_digits in Hds. apply andb_true_iff in Hds as [Hc Hds].
  rewrite str_app_cons. unfold Regex.digits. rewrite match_here_plus_cons, Hc.
  fold Regex.digits.
  destruct ds as [|c' ds].
  - rewrite str_app_nil. unfold Regex.digits at 1.
    rewrite (plus_fails_at ic PyStr.is_digit true [] tail Htail). reflexivity.
  - rewrite IH by (try discriminate; assumption). reflexivity.
Qed.

Lemma search_here (ic : bool) (re : Regex.pattern) (s g : string) :
  Regex.match_here ic re s = Some g -> Regex.search ic re s = Some g.
Proof. intros H. destruct s; simpl; now rewrite H. Qed.

Lemma ws_fails_at_digit (ic : bool) (re' : Regex.pattern) (c : ascii) (s : string) :
  PyStr.is_digit c = true -> Regex.match_here ic (Regex.ws :: re') (String c s) = None.
Proof.
  intros H. apply plus_fails_at. simpl. now apply digit_not_space.
Qed.

Lemma number_starts_with_digit (ds tail : string) :
  JobScreening.is_number ds -> JobScreening.starts_with PyStr.is_space (ds ++ tail) = false.
Proof.
  intros [Hne Hds]. destruct ds as [|c ds]; [contradiction|].
  simpl in Hds. apply andb_true_iff in Hds as [Hc _].
  rewrite str_app_cons. simpl. now apply digit_not_space.
Qed.

End RegexRuns.

(** X13. For every non-empty run of digits [N], both extractors return
    the number [N] on the text [N applicants]; the class method does so
    on any text that starts with [N applicant] and holds no [over]. *)
Theorem extract_exact_applicant_count (ds rest : string) :
  JobScreening.is_number ds ->
  (PyStr.contains "over" (PyStr.lower rest) = false ->
   SmartFilter.extract_applicant_count (ds ++ " applicant" ++ rest)
   = Some (PyStr.int_of_digits ds))
  /\ SmartFilter.extract_applicant_count (ds ++ " applicants")
     = Some (PyStr.int_of_digits ds)
  /\ SmartFilters.count_of_text (ds ++ " applicants") = Some (PyStr.int_of_digits ds).
Proof.
  intros Hnum.
  assert (Hgen : forall rest', PyStr.contains "over" (PyStr.lower rest') = false ->
            SmartFilter.extract_applicant_count (ds ++ " applicant" ++ rest')
            = Some (PyStr.int_of_digits ds)).
  { intros rest' Hover. unfold SmartFilter.extract_applicant_count. cbv zeta.
    rewrite !lower_app, (lower_digits ds (proj2 Hnum)).
    change (PyStr.lower " applicant") with " applicant".
    rewrite (contains_over_digits ds _ (proj2 Hnum)).
    assert (Hno : PyStr.contains "over" (" applicant" ++ PyStr.lower rest') = false).
    { rewrite !str_app_cons, str_app_nil.
      repeat (match goal with
              | |- context [PyStr.contains "over" (String ?c ?s)] =>
                  change (PyStr.contains "over" (String c s))
                    with (PyStr.contains "over" s)
              end).
      exact Hover. }
    rewrite Hno.
    assert (Hm : Regex.match_here false Regex.re_n_applicant
                   (ds ++ " applicant" ++ PyStr.lower rest') = Some ds).
    { unfold Regex.re_n_applicant.
      change ([Regex.digits; Regex.ws] ++ Regex.lits "applicant")%list
        with (Regex.digits :: Regex.ws :: (Regex.lits "applicant" ++ [])%list).
      rewrite digits_run; [| exact Hnum | reflexivity | intros; now apply ws_fails_at_digit].
      change (" applicant" ++ PyStr.lower rest')
        with (String " " ("applicant" ++ PyStr.lower rest')).
      rewrite ws_single by reflexivity.
      rewrite match_lits.
      change (Regex.match_here false [] (PyStr.lower rest')) with (Some EmptyString).
      cbv beta iota. now rewrite str_app_nil_r. }
    now rewrite (search_here _ _ _ _ Hm). }
  split; [apply Hgen|]. split.
  - apply (Hgen "s"). reflexivity.
  - unfold SmartFilters.count_of_text.
    rewrite lower_app, (lower_digits ds (proj2 Hnum)).
    rewrite (contains_over_digits ds _ (proj2 Hnum)).
    change (PyStr.contains "over" (PyStr.lower " applicants")) with false. cbv iota.
    assert (Hm : Regex.match_here false Regex.re_number (ds ++ " applicants") = Some ds)
      by (apply digits_run_end; [exact Hnum | reflexivity]).
    now rewrite (search_here _ _ _ _ Hm).
Qed.

Lemma extract_exact_applicant_count_witness :
  SmartFilter.extract_applicant_count ("1284" ++ " applicant" ++ "s so far")
  = Some 1284.
Proof.
  refine (proj1 (extract_exact_applicant_count "1284" "s so far" (conj _ eq_refl))
            eq_refl).
  discriminate.
Defined.

Section OverCounts.

Lemma over_run (ic : bool) (ds : string) :
  JobScreening.is_number ds ->
  Regex.match_here ic [Regex.ws; Regex.digits] (String " " (ds ++ " applicants"))
  = Some ds.
Proof.
  intros Hnum. rewrite ws_single by (now apply number_starts_with_digit).
  apply digits_run_end; [exact Hnum | reflexivity].
Qed.

(** The module-level extractor on [Over N applicants]. *)
Lemma count_of_text_over (ds : string) :
  JobScreening.is_number ds ->
  SmartFilters.count_of_text ("Over " ++ ds ++ " applicants")
  = Some (PyStr.int_of_digits ds).
Proof.
  intros Hnum. unfold SmartFilters.count_of_text.
  rewrite !lower_app, (lower_digits ds (proj2 Hnum)).
  change (PyStr.lower "Over ") with "over ".
  rewrite !str_app_cons, !str_app_nil.
  change (PyStr.contains "over" (String "o" (String "v" (String "e" (String "r"
            (String " " (ds ++ PyStr.lower " applicants"))))))) with true. cbv iota.
  assert (Hm : Regex.match_here true Regex.re_over
                 (String "O" (String "v" (String "e" (String "r"
                    (String " " (ds ++ " applicants")))))) = Some ds).
  { unfold Regex.re_over.
    change (Regex.match_here true (Regex.lits "over" ++ [Regex.ws; Regex.digits])%list
              (String "O" (String "v" (String "e" (String "r"
                 (String " " (ds ++ " applicants")))))))
      with (Regex.match_here true [Regex.ws; Regex.digits]
              (String " " (ds ++ " applicants"))).
    now apply over_run. }
  now rewrite (search_here _ _ _ _ Hm).
Qed.

End OverCounts.

(** X14. On [Over N applicants], for every non-empty run of digits [N],
    the class method returns [N + 50] and the module-level extractor
    returns [N]: the two differ by exactly 50. *)
Theorem extract_over_applicant_count (ds : string) :
  JobScreening.is_number ds ->
  SmartFilter.extract_applicant_count ("Over " ++ ds ++ " applicants")
  = Some (PyStr.int_of_digits ds + 50)
  /\ SmartFilters.count_of_text ("Over " ++ ds ++ " applicants")
     = Some (PyStr.int_of_digits ds).
Proof.
  intros Hnum. split; [|now apply count_of_text_over].
  unfold SmartFilter.extract_applicant_count. cbv zeta.
  rewrite !lower_app, (lower_digits ds (proj2 Hnum)).
  change (PyStr.lower "Over ") with "over ".
  change (PyStr.lower " applicants") with " applicants".
  rewrite !str_app_cons, !str_app_nil.
  change (PyStr.contains "over" (String "o" (String "v" (String "e" (String "r"
            (String " " (ds ++ " applicants"))))))) with true. cbv iota.
  assert (Hm : Regex.match_here false Regex.re_over
                 (String "o" (String "v" (String "e" (String "r"
                    (String " " (ds ++ " applicants")))))) = Some ds).
  { change (String "o" (String "v" (String "e" (String "r"
              (String " " (ds ++ " applicants"))))))
      with ("over" ++ String " " (ds ++ " applicants")).
    unfold Regex.re_over. rewrite match_lits. now apply over_run. }
  now rewrite (search_here _ _ _ _ Hm).
Qed.

Lemma extract_over_applicant_count_witness :
  SmartFilter.extract_applicant_count ("Over " ++ "200" ++ " applicants") = Some 250
  /\ SmartFilters.count_of_text ("Over " ++ "200" ++ " applicants") = Some 200.
Proof.
  refine (extract_over_applicant_count "200" (conj _ eq_refl)).
  discriminate.
Defined.

(** X15. [should_skip_high_applicants] skips only above the threshold.
    When the page shows [Over N applicants], the job is skipped exactly
    when [N] is larger than the threshold, so [Over 200 applicants] with
    the threshold 200 is not skipped; when no applicant text is found
    the job is not skipped. *)
Theorem skip_high_applicants_over
    (find_element : string -> option string) (ds : string) (threshold : Z) :
  JobScreening.is_number ds ->
  (SmartFilters.first_text find_element SmartFilters.selectors
   = Some ("Over " ++ ds ++ " applicants") ->
   fst (JobScreening.should_skip_high_applicants find_element threshold)
   = Z.ltb threshold (PyStr.int_of_digits ds)
   /\ (PyStr.int_of_digits ds = threshold ->
       JobScreening.should_skip_high_applicants find_element threshold = (false, None)))
  /\ (SmartFilters.first_text find_element SmartFilters.selectors = None ->
      JobScreening.should_skip_high_applicants find_element threshold = (false, None)).
Proof.
  intros Hnum. unfold JobScreening.should_skip_high_applicants,
    SmartFilters.extract_applicant_count.
  split.
  - intros ->. rewrite str_app_cons. rewrite <- str_app_cons.
    change (match Some ("Over " ++ ds ++ " applicants") with
            | Some "" => None
            | Some (String a s as applicant_text) => SmartFilters.count_of_text applicant_text
            | None => None
            end)
      with (SmartFilters.count_of_text ("Over " ++ ds ++ " applicants")).
    rewrite (count_of_text_over ds Hnum).
    split.
    + destruct (Z.ltb threshold (PyStr.int_of_digits ds)); reflexivity.
    + intros ->. now rewrite Z.ltb_irrefl.
  - intros ->. reflexivity.
Qed.

Lemma skip_high_applicants_over_witness :
  JobScreening.should_skip_high_applicants
    (fun selector =>
       if String.eqb selector ".//span[contains(text(), 'applicant')]"
       then Some ("Over " ++ "200" ++ " applicants") else None) 200 = (false, None).
Proof.
  refine (proj2 (proj1 (skip_high_applicants_over
            (fun selector =>
               if String.eqb selector ".//span[contains(text(), 'applicant')]"
               then Some ("Over " ++ "200" ++ " applicants") else None)
            "200" 200 (conj _ eq_refl)) eq_refl) eq_refl).
  discriminate.
Defined.

Section TitleKeywords.

Lemma contains_empty (s : string) : PyStr.contains "" s = true.
Proof. destruct s; reflexivity. Qed.

Lemma first_excluded_some (title_lower : string) (exclude : list string) (keyword : string) :
  JobScreening.first_excluded title_lower exclude = Some keyword ->
  In keyword exclude /\ PyStr.contains (PyStr.lower keyword) title_lower = true.
Proof.
  induction exclude as [|k ks IH]; simpl; [discriminate|].
  destruct (PyStr.contains (PyStr.lower k) title_lower) eqn:E.
  - intros H. injection H as <-. auto.
  - intros H. destruct (IH H). auto.
Qed.

Lemma first_excluded_none (title_lower : string) (exclude : list string) :
  JobScreening.first_excluded title_lower exclude = None <->
  forall keyword, In keyword exclude ->
                  PyStr.contains (PyStr.lower keyword) title_lower = false.
Proof.
  induction exclude as [|k ks IH]; simpl.
  - split; [intros _ ? [] | reflexivity].
  - destruct (PyStr.contains (PyStr.lower k) title_lower) eqn:E.
    + split; [discriminate|]. intros H. rewrite (H k) in E; [discriminate | now left].
    + rewrite IH. split.
      * intros H keyword [<-|Hin]; auto.
      * intros H keyword Hin. apply H. now right.
Qed.

Lemma has_required_false (title_lower : string) (required : list string) :
  JobScreening.has_required title_lower required = false <->
  forall keyword, In keyword required ->
                  PyStr.contains (PyStr.lower keyword) title_lower = false.
Proof.
  unfold JobScreening.has_required. induction required as [|k ks IH]; simpl.
  - split; [intros _ ? [] | reflexivity].
  - rewrite orb_false_iff, IH. split.
    + intros [Hk Hks] keyword [<-|Hin]; auto.
    + intros H. split; [apply H; now left | intros; apply H; now right].
Qed.

End TitleKeywords.

(** X16. [match_title_keywords] skips a title exactly when it contains
    an excluded keyword, whatever its case, or when required keywords
    are given and it contains none of them. An excluded keyword wins
    over every required one and is the reason reported; an empty
    excluded keyword excludes every title. *)
Theorem match_title_keywords_decides
    (title : string) (required_keywords exclude_keywords : list string) :
  let hit keyword := PyStr.contains (PyStr.lower keyword) (PyStr.lower title) in
  let r := JobScreening.match_title_keywords title required_keywords exclude_keywords in
  (fst r = true <->
     (exists keyword, In keyword exclude_keywords /\ hit keyword = true)
     \/ (required_keywords <> []
         /\ forall keyword, In keyword required_keywords -> hit keyword = false))
  /\ ((exists keyword, In keyword exclude_keywords /\ hit keyword = true) ->
      exists keyword, In keyword exclude_keywords /\ hit keyword = true
                      /\ r = (true, Some (JobScreening.ExcludedKeyword keyword)))
  /\ (In "" exclude_keywords -> fst r = true).
Proof.
  intros hit r. subst r. unfold JobScreening.match_title_keywords. cbv zeta.
  assert (Hex : (exists keyword, In keyword exclude_keywords /\ hit keyword = true) ->
                exists keyword, In keyword exclude_keywords /\ hit keyword = true
                    /\ JobScreening.first_excluded (PyStr.lower title) exclude_keywords
                       = Some keyword).
  { intros (k & Hin & Hk).
    destruct (JobScreening.first_excluded (PyStr.lower title) exclude_keywords)
      as [k'|] eqn:E.
    - destruct (first_excluded_some _ _ _ E). exists k'. auto.
    - rewrite first_excluded_none in E. unfold hit in Hk. rewrite (E k Hin) in Hk.
      discriminate. }
  split; [|split].
  - destruct (JobScreening.first_excluded (PyStr.lower title) exclude_keywords)
      as [k'|] eqn:E.
    + destruct (first_excluded_some _ _ _ E). simpl. split; [|reflexivity].
      intros _. left. exists k'. auto.
    + rewrite first_excluded_none in E.
      destruct required_keywords as [|k ks].
      * simpl. split; [discriminate|].
        intros [(kw & Hin & Hk)|[Hne _]]; [|contradiction].
        unfold hit in Hk. rewrite (E kw Hin) in Hk. discriminate.
      * destruct (JobScreening.has_required (PyStr.lower title) (k :: ks)) eqn:Hreq; simpl.
        -- split; [discriminate|].
           intros [(kw & Hin & Hk)|[_ Hall]].
           ++ unfold hit in Hk. rewrite (E kw Hin) in Hk. discriminate.
           ++ pose proof (proj2 (has_required_false (PyStr.lower title) (k :: ks)) Hall)
                as Hf.
              congruence.
        -- split; [|reflexivity]. intros _. right. split; [discriminate|].
           exact (proj1 (has_required_false (PyStr.lower title) (k :: ks)) Hreq).
  - intros H. destruct (Hex H) as (k & Hin & Hk & ->). exists k. auto.
  - intros Hin. destruct Hex as (k & _ & _ & ->); [|reflexivity].
    exists "". split; [exact Hin|]. unfold hit. apply contains_empty.
Qed.

Lemma match_title_keywords_decides_witness :
  exists keyword,
    In keyword ["intern"; "senior"]
    /\ PyStr.contains (PyStr.lower keyword) (PyStr.lower "Senior Python Developer") = true
    /\ JobScreening.match_title_keywords "Senior Python Developer" ["python"]
         ["intern"; "senior"]
       = (true, Some (JobScreening.ExcludedKeyword keyword)).
Proof.
  apply (proj1 (proj2 (match_title_keywords_decides "Senior Python Developer"
                         ["python"] ["intern"; "senior"]))).
  exists "senior". split; [right; now left | reflexivity].
Defined.

(** ** Checkpoints: save, load, clear *)

(** X17. After a completed [save_checkpoint] at a time [t], whatever
    the slot held before: [load_checkpoint] returns the saved data, and
    [should_resume] asked at time [now] answers whether [now - t] is
    below 24 hours, provided the written time stamp reads back as [t]. *)
Theorem save_then_resume
    (fromisoformat : string -> Py.result SessionManager.datetime)
    (data : SessionManager.pyval) (now_iso : string) (t now : Z)
    (f : SessionManager.slot) :
  now_iso <> "" ->
  fromisoformat now_iso = Py.Ok (SessionManager.Naive t) ->
  let saved := CheckpointStore.save_checkpoint data now_iso CheckpointStore.Written f in
  fst saved = true
  /\ CheckpointStore.load_checkpoint (snd saved) = Py.Ok data
  /\ SessionManager.should_resume fromisoformat (snd saved) now
     = Py.Ok (Z.ltb (now - t) (24 * SessionManager.hour)).
Proof.
  intros Hne Hiso saved. subst saved. simpl.
  split; [reflexivity|]. split.
  - unfold CheckpointStore.load_checkpoint. simpl.
    rewrite lookup_insert_ne by discriminate. now rewrite lookup_insert_eq.
  - unfold SessionManager.should_resume, SessionManager.should_resume_body. simpl.
    rewrite lookup_insert_eq. simpl.
    destruct (String.eqb_spec now_iso "") as [->|_]; [contradiction|]. simpl.
    rewrite Hiso. simpl. f_equal.
    destruct (Z.ltb_spec (now - t) (24 * SessionManager.hour)) as [Hlt|Hge].
    + now apply age_below_24.
    + now apply age_not_below_24.
Qed.

Lemma save_then_resume_witness :
  CheckpointStore.load_checkpoint
    (snd (CheckpointStore.save_checkpoint (SessionManager.PInt 17) "2024-01-02T00:00:00"
            CheckpointStore.Written (checkpoint_at "2024-01-01T00:00:00")))
  = Py.Ok (SessionManager.PInt 17)
  /\ SessionManager.should_resume two_stamps
       (snd (CheckpointStore.save_checkpoint (SessionManager.PInt 17) "2024-01-02T00:00:00"
               CheckpointStore.Written (checkpoint_at "2024-01-01T00:00:00")))
       (47 * SessionManager.hour) = Py.Ok true.
Proof.
  refine (proj2 (save_then_resume two_stamps (SessionManager.PInt 17)
                   "2024-01-02T00:00:00" (24 * SessionManager.hour)
                   (47 * SessionManager.hour) (checkpoint_at "2024-01-01T00:00:00")
                   _ eq_refl)).
  discriminate.
Defined.

(** X18. [load_checkpoint] returns [None] when there is no file, when
    the file does not parse, and when it holds no object. After a
    [clear_checkpoint] that reports success, [load_checkpoint] returns
    [None] and [should_resume] answers [False], and clearing again
    reports success; a failed removal reports failure and leaves the
    checkpoint in place. *)
Theorem clear_then_fresh_start
    (fromisoformat : string -> Py.result SessionManager.datetime)
    (f : SessionManager.slot) (removed : bool) (now : Z) :
  CheckpointStore.load_checkpoint None = Py.Ok SessionManager.PNone
  /\ (forall name,
        CheckpointStore.load_checkpoint (Some (Py.Raise (Py.Exception name)))
        = Py.Ok SessionManager.PNone)
  /\ CheckpointStore.load_checkpoint (Some (Py.Ok SessionManager.JOther))
     = Py.Ok SessionManager.PNone
  /\ (fst (CheckpointStore.clear_checkpoint removed f) = true ->
      CheckpointStore.load_checkpoint (snd (CheckpointStore.clear_checkpoint removed f))
      = Py.Ok SessionManager.PNone
      /\ SessionManager.should_resume fromisoformat
           (snd (CheckpointStore.clear_checkpoint removed f)) now = Py.Ok false
      /\ CheckpointStore.clear_checkpoint false
           (snd (CheckpointStore.clear_checkpoint removed f)) = (true, None))
  /\ (fst (CheckpointStore.clear_checkpoint removed f) = false ->
      snd (CheckpointStore.clear_checkpoint removed f) = f /\ f <> None).
Proof.
  repeat split; try reflexivity.
  - destruct f as [c|]; [destruct removed|]; simpl in *; try discriminate; reflexivity.
  - destruct f as [c|]; [destruct removed|]; simpl in *; try discriminate; reflexivity.
  - destruct f as [c|]; [destruct removed|]; simpl in *; try discriminate; reflexivity.
  - destruct f as [c|]; [destruct removed|]; simpl in *; try discriminate; reflexivity.
  - destruct f as [c|]; [destruct removed|]; simpl in *; discriminate.
Qed.

Lemma clear_then_fresh_start_witness :
  SessionManager.should_resume two_stamps
    (snd (CheckpointStore.clear_checkpoint true (checkpoint_at "2024-01-02T00:00:00")))
    (25 * SessionManager.hour) = Py.Ok false.
Proof.
  refine (proj1 (proj2 (proj1 (proj2 (proj2 (proj2 (clear_then_fresh_start two_stamps
            (checkpoint_at "2024-01-02T00:00:00") true (25 * SessionManager.hour)))))
            eq_refl))).
Defined.

(** ** ATS detection: range, case and the DOM fallback *)
Section DetectionRange.

Lemma lower_char_idem (c : ascii) : PyStr.lower_char (PyStr.lower_char c) = PyStr.lower_char c.
Proof.
  destruct c as [[] [] [] [] [] [] [] []]; vm_compute; reflexivity.
Qed.

Lemma lower_idem (s : string) : PyStr.lower (PyStr.lower s) = PyStr.lower s.
Proof.
  induction s as [|c s IH]; [reflexivity|]. simpl. now rewrite lower_char_idem, IH.
Qed.

(** The scan ends on a name of the table or on [unknown]. *)
Lemma scan_url_range (table : list (string * list string)) (u : string) :
  AtsDetector.scan_url table u = "unknown"
  \/ In (AtsDetector.scan_url table u) (map fst table).
Proof.
  induction table as [|[n ps] table IH]; simpl; [now left|].
  destruct (AtsDetector.any_pattern ps u); [right; now left|].
  destruct IH; [now left | right; now right].
Qed.

Lemma scan_url_unknown (table : list (string * list string)) (u : string) :
  ~ In "unknown" (map fst table) ->
  (AtsDetector.scan_url table u = "unknown" <->
   forall name patterns, In (name, patterns) table ->
                         AtsDetector.any_pattern patterns u = false).
Proof.
  induction table as [|[n ps] table IH]; simpl; intros Hnot.
  - split; [intros _ ? ? [] | reflexivity].
  - destruct (AtsDetector.any_pattern ps u) eqn:E.
    + split.
      * intros ->. exfalso. apply Hnot. now left.
      * intros H. rewrite (H n ps) in E; [discriminate | now left].
    + rewrite IH by tauto. split.
      * intros H name patterns [Heq|Hin]; [inversion Heq; subst; exact E | eauto].
      * intros H name patterns Hin. apply (H name patterns). now right.
Qed.

Lemma probe_spec (d : AtsDetector.driver) (selectors : list string) :
  forall probed,
    fst (AtsDetector.probe d selectors probed)
    = existsb (SiteChecks.finds d) selectors
    /\ exists tried,
         snd (AtsDetector.probe d selectors probed) = (probed ++ tried)%list
         /\ (length tried <= length selectors)%nat.
Proof.
  induction selectors as [|s ss IH]; intros probed; simpl.
  - split; [reflexivity|]. exists []. rewrite app_nil_r. auto.
  - unfold SiteChecks.finds at 1.
    destruct (AtsDetector.find_elements d s) as [n|e].
    + destruct (Nat.ltb 0 n); simpl.
      * split; [reflexivity|]. exists [s]. split; [reflexivity | simpl; lia].
      * destruct (IH (probed ++ [s])%list) as (H1 & tried & H2 & H3).
        rewrite H1. split; [reflexivity|]. exists (s :: tried).
        rewrite H2, <- app_assoc. split; [reflexivity | simpl; lia].
    + destruct (IH (probed ++ [s])%list) as (H1 & tried & H2 & H3).
      rewrite H1. split; [reflexivity|]. exists (s :: tried).
      rewrite H2, <- app_assoc. split; [reflexivity | simpl; lia].
Qed.

Lemma scan_dom_spec (d : AtsDetector.driver) (table : list (string * list string)) :
  forall probed,
    (fst (AtsDetector.scan_dom d table probed) = "unknown"
     \/ In (fst (AtsDetector.scan_dom d table probed)) (map fst table))
    /\ (~ In "unknown" (map fst table) ->
        (fst (AtsDetector.scan_dom d table probed) = "unknown" <->
         existsb (SiteChecks.finds d) (concat (map snd table)) = false))
    /\ exists tried,
         snd (AtsDetector.scan_dom d table probed) = (probed ++ tried)%list
         /\ (length tried <= length (concat (map snd table)))%nat.
Proof.
  induction table as [|[n ss] table IH]; intros probed; simpl.
  - split; [now left|]. split; [intros _; split; reflexivity|].
    exists []. rewrite app_nil_r. auto.
  - destruct (probe_spec d ss probed) as (Hp & tried & Ht & Hl).
    destruct (AtsDetector.probe d ss probed) as [[|] probed'] eqn:Ep;
      simpl in Hp, Ht; rewrite existsb_app, <- Hp; simpl.
    + split; [right; now left|]. split.
      * intros Hnot. split; [|discriminate]. intros ->. exfalso. apply Hnot. now left.
      * exists tried. split; [exact Ht|]. rewrite length_app. lia.
    + destruct (IH probed') as (H1 & H2 & tried' & Ht' & Hl').
      split; [destruct H1; [now left | right; now right]|]. split.
      * intros Hnot. apply H2. tauto.
      * exists (tried ++ tried')%list. rewrite Ht', Ht, <- app_assoc.
        split; [reflexivity|]. rewrite !length_app. lia.
Qed.

End DetectionRange.

(** X19. [is_greenhouse_site] and the URL detector agree: the site
    check answers [True] exactly when [detect_ats_from_url] names
    [greenhouse]. *)
Theorem is_greenhouse_site_agrees (d : AtsDetector.driver) :
  SiteChecks.is_greenhouse_site d = true
  <-> AtsDetector.detect_ats_from_url (AtsDetector.current_url d) = "greenhouse".
Proof.
  unfold SiteChecks.is_greenhouse_site, AtsDetector.detect_ats_from_url. cbv zeta.
  set (u := PyStr.lower (AtsDetector.current_url d)).
  unfold AtsDetector.ATS_PATTERNS.
  cbn [AtsDetector.scan_url AtsDetector.any_pattern].
  destruct (PyStr.contains "greenhouse.io" u) eqn:E1.
  - simpl. tauto.
  - destruct (PyStr.contains "boards.greenhouse.io" u) eqn:E2.
    + apply (contains_suffix "boards." "greenhouse.io") in E2. congruence.
    + destruct (PyStr.contains "job-boards.greenhouse.io" u) eqn:E3.
      * apply (contains_suffix "job-boards." "greenhouse.io") in E3. congruence.
      * simpl. split; [discriminate|].
        repeat match goal with
               | |- context [if ?b then _ else _] => destruct b; [discriminate|]
               end.
        discriminate.
Qed.

(** X20. URL detection does not depend on the case of the URL: a URL
    and its lower-cased form are detected alike. *)
Theorem detect_ats_from_url_ignores_case (url : string) :
  AtsDetector.detect_ats_from_url (PyStr.lower url) = AtsDetector.detect_ats_from_url url.
Proof.
  unfold AtsDetector.detect_ats_from_url. now rewrite lower_idem.
Qed.

(** X21. [detect_ats_platform] returns one of the eight platform names
    or [unknown], after handing at most five selectors to the DOM. It
    returns [unknown] exactly when no fragment of the URL table occurs
    in the lower-cased URL and no probed signature finds an element; a
    selector whose probe raises counts as finding none. *)
Theorem detect_ats_platform_range (d : AtsDetector.driver) :
  In (fst (AtsDetector.detect_ats_platform d))
     ["greenhouse"; "lever"; "workday"; "taleo"; "icims"; "bamboohr"; "jobvite";
      "smartrecruiters"; "unknown"]
  /\ (length (snd (AtsDetector.detect_ats_platform d)) <= 5)%nat
  /\ (fst (AtsDetector.detect_ats_platform d) = "unknown" <->
      (forall name patterns, In (name, patterns) AtsDetector.ATS_PATTERNS ->
         AtsDetector.any_pattern patterns (PyStr.lower (AtsDetector.current_url d)) = false)
      /\ forall selector, In selector SiteChecks.all_signatures ->
                          SiteChecks.finds d selector = false).
Proof.
  assert (Hnames : ~ In "unknown" (map fst AtsDetector.ATS_PATTERNS)).
  { simpl. intros H. repeat (destruct H as [H|H]; [discriminate|]). exact H. }
  assert (Hdom : ~ In "unknown" (map fst AtsDetector.ATS_DOM_SIGNATURES)).
  { simpl. intros H. repeat (destruct H as [H|H]; [discriminate|]). exact H. }
  pose proof (scan_url_unknown AtsDetector.ATS_PATTERNS
                (PyStr.lower (AtsDetector.current_url d)) Hnames) as Hurl.
  pose proof (scan_url_range AtsDetector.ATS_PATTERNS
                (PyStr.lower (AtsDetector.current_url d))) as Hrange.
  destruct (scan_dom_spec d AtsDetector.ATS_DOM_SIGNATURES []) as (D1 & D2 & tried & D3 & D4).
  specialize (D2 Hdom).
  unfold AtsDetector.detect_ats_platform, AtsDetector.detect_ats_from_url,
    AtsDetector.detect_ats_from_dom in *. cbv zeta.
  destruct (String.eqb_spec
              (AtsDetector.scan_url AtsDetector.ATS_PATTERNS
                 (PyStr.lower (AtsDetector.current_url d))) "unknown") as [E|E]; simpl negb;
    cbv iota.
  - split; [|split].
    + destruct D1 as [->|D1]; [simpl; tauto|].
      simpl in D1. simpl. tauto.
    + rewrite D3. simpl in D4 |- *. lia.
    + rewrite D2. unfold SiteChecks.all_signatures.
      rewrite <- not_true_iff_false, existsb_exists. split.
      * intros Hno. split; [now apply Hurl|].
        intros s Hs. destruct (SiteChecks.finds d s) eqn:Ef; [|reflexivity].
        exfalso. apply Hno. eauto.
      * intros [_ Hall] (s & Hs & Hf). rewrite (Hall s Hs) in Hf. discriminate.
  - split; [|split].
    + destruct Hrange as [Hr|Hr]; [contradiction|].
      simpl in Hr. simpl. tauto.
    + simpl. lia.
    + simpl. split; [contradiction|]. intros [Hall _]. exfalso. apply E.
      now apply Hurl.
Qed.

(** ** Field detection and filling *)
Section FieldPatterns.

Lemma field_any_pattern_eq (patterns : list string) (text : string) :
  FieldDetection.any_pattern patterns text = AtsDetector.any_pattern patterns text.
Proof. induction patterns as [|p ps IH]; simpl; [reflexivity | now rewrite IH]. Qed.

Lemma match_patterns_eq (table : list (string * list string)) (text : string) :
  FieldDetection.match_patterns table text = AtsDetector.scan_url table text.
Proof.
  induction table as [|[t ps] table IH]; simpl; [reflexivity|].
  now rewrite field_any_pattern_eq, IH.
Qed.

(** The scan returns the first row one of whose patterns occurs. *)
Lemma scan_url_first_hit (before after : list (string * list string))
    (t : string) (patterns : list string) (text : string) :
  (forall row, In row before -> AtsDetector.any_pattern (snd row) text = false) ->
  AtsDetector.any_pattern patterns text = true ->
  AtsDetector.scan_url (before ++ (t, patterns) :: after)%list text = t.
Proof.
  intros Hmiss Hhit. induction before as [|[n ps] before IH]; simpl.
  - now rewrite Hhit.
  - pose proof (Hmiss (n, ps) (or_introl eq_refl)) as H. simpl in H. rewrite H.
    apply IH. intros row Hin. apply Hmiss. now right.
Qed.

(** After the first teaching of an identifier, the lookup on the same
    platform gives the taught type. *)
Lemma learn_then_lookup (kb : FieldKnowledgeBase.knowledge) (i t p : string) :
  FieldKnowledgeBase.field_mappings kb !! i = None ->
  (p <> "unknown" ->
   FieldKnowledgeBase.platform_entry (FieldKnowledgeBase.ats_specific_mappings kb) p i
   = None) ->
  FieldKnowledgeBase.get_field_type (FieldKnowledgeBase.learn_field_mapping kb i t p) i p
  = Some t.
Proof.
  intros Hfresh Hnone. destruct (String.eqb_spec p "unknown") as [->|Hp].
  - rewrite get_field_type_general. unfold FieldKnowledgeBase.get_general. simpl.
    rewrite learn_general_same, Hfresh. simpl. now rewrite bump_first.
  - apply get_field_type_specific; [exact Hp|]. simpl. apply learn_ats_first; auto.
Qed.

End FieldPatterns.

(** X22. When the knowledge base has no answer for the field's name
    and id, [detect_field_type] returns the type of the first row of the
    pattern table one of whose patterns occurs in the lower-cased text of
    name, id, placeholder and label, and [unknown] exactly when no
    pattern of any row occurs in it. *)
Theorem detect_field_type_by_patterns
    (field : FieldDetection.web_element)
    (knowledge_base : option FieldKnowledgeBase.knowledge)
    (ats_platform field_name field_id field_placeholder : string) :
  FieldDetection.readable field field_name field_id field_placeholder ->
  (forall kb, knowledge_base = Some kb ->
     FieldDetection.known_type kb [field_name; field_id] ats_platform = None) ->
  let text := FieldDetection.combined field_name field_id field_placeholder
                (FieldDetection.label_or_empty field) in
  (forall before t patterns after,
      FieldDetection.STANDARD_FIELD_PATTERNS = (before ++ (t, patterns) :: after)%list ->
      (forall row, In row before -> FieldDetection.any_pattern (snd row) text = false) ->
      FieldDetection.any_pattern patterns text = true ->
      FieldDetection.detect_field_type field knowledge_base ats_platform = Py.Ok t)
  /\ (FieldDetection.detect_field_type field knowledge_base ats_platform = Py.Ok "unknown"
      <-> forall t patterns,
            In (t, patterns) FieldDetection.STANDARD_FIELD_PATTERNS ->
            FieldDetection.any_pattern patterns text = false).
Proof.
  intros (Hn & Hi & Hp) Hkb text.
  assert (Hdet : FieldDetection.detect_field_type field knowledge_base ats_platform
                 = Py.Ok (AtsDetector.scan_url FieldDetection.STANDARD_FIELD_PATTERNS text)).
  { unfold FieldDetection.detect_field_type. rewrite Hn, Hi, Hp.
    cbn [Py.bind]. fold (FieldDetection.label_or_empty field). fold text.
    destruct knowledge_base as [kb|]; [rewrite (Hkb kb eq_refl)|];
      cbn [Py.try_except_Exception]; now rewrite match_patterns_eq. }
  rewrite Hdet. split.
  - intros before t patterns after Htab Hmiss Hhit. rewrite Htab. f_equal.
    apply scan_url_first_hit.
    + intros row Hin. rewrite <- field_any_pattern_eq. now apply Hmiss.
    + now rewrite <- field_any_pattern_eq.
  - assert (Hnames : ~ In "unknown" (map fst FieldDetection.STANDARD_FIELD_PATTERNS)).
    { simpl. intros H. repeat (destruct H as [H|H]; [discriminate|]). exact H. }
    pose proof (scan_url_unknown FieldDetection.STANDARD_FIELD_PATTERNS text Hnames) as Hu.
    split.
    + intros H. injection H as H. intros t patterns Hin.
      rewrite field_any_pattern_eq. exact (proj1 Hu H t patterns Hin).
    + intros H. f_equal. apply Hu. intros t patterns Hin.
      rewrite <- field_any_pattern_eq. now apply (H t patterns).
Qed.

Lemma detect_field_type_by_patterns_witness :
  FieldDetection.detect_field_type email_input None "greenhouse" = Py.Ok "full_name".
Proof.
  refine (proj1 (detect_field_type_by_patterns email_input None "greenhouse"
                   "email" "username" ""
                   (conj eq_refl (conj eq_refl eq_refl)) _)
            [("first_name", ["first_name"; "firstname"; "fname"; "given_name"; "forename";
                             "first name"; "given name"]);
             ("last_name", ["last_name"; "lastname"; "lname"; "surname"; "family_name";
                            "last name"; "family name"])]
            "full_name"
            ["full_name"; "fullname"; "name"; "your_name"; "applicant_name";
             "full name"; "your name"]
            _ eq_refl _ eq_refl).
  - intros kb H. discriminate.
  - intros row [<-|[<-|[]]]; reflexivity.
Defined.

(** X23. The knowledge base is asked before the pattern table: when
    it holds a non-empty type for the field's name on the platform,
    [detect_field_type] returns that type whatever the patterns say; so
    after the first [learn_field_mapping] of a name, a field with that
    name is detected as the taught type on the same platform. *)
Theorem detect_field_type_prefers_knowledge
    (field : FieldDetection.web_element) (kb : FieldKnowledgeBase.knowledge)
    (ats_platform field_name field_id field_placeholder t : string) :
  FieldDetection.readable field field_name field_id field_placeholder ->
  field_name <> "" -> t <> "" ->
  (FieldKnowledgeBase.get_field_type kb field_name ats_platform = Some t ->
   FieldDetection.detect_field_type field (Some kb) ats_platform = Py.Ok t)
  /\ (FieldKnowledgeBase.field_mappings kb !! field_name = None ->
      (ats_platform <> "unknown" ->
       FieldKnowledgeBase.platform_entry
         (FieldKnowledgeBase.ats_specific_mappings kb) ats_platform field_name = None) ->
      FieldDetection.detect_field_type field
        (Some (FieldKnowledgeBase.learn_field_mapping kb field_name t ats_platform))
        ats_platform = Py.Ok t).
Proof.
  intros (Hn & Hi & Hp) Hname Ht.
  assert (Hgen : forall k,
             FieldKnowledgeBase.get_field_type k field_name ats_platform = Some t ->
             FieldDetection.detect_field_type field (Some k) ats_platform = Py.Ok t).
  { intros k Hget. unfold FieldDetection.detect_field_type. rewrite Hn, Hi, Hp. simpl.
    apply String.eqb_neq in Hname. apply String.eqb_neq in Ht.
    now rewrite Hname, Hget, Ht. }
  split; [apply Hgen|].
  intros Hfresh Hnone. apply Hgen. now apply learn_then_lookup.
Qed.

Lemma detect_field_type_prefers_knowledge_witness :
  FieldDetection.detect_field_type email_input
    (Some (FieldKnowledgeBase.learn_field_mapping FieldKnowledgeBase.empty_knowledge
             "email" "email" "greenhouse")) "greenhouse" = Py.Ok "email".
Proof.
  refine (proj2 (detect_field_type_prefers_knowledge email_input
                   FieldKnowledgeBase.empty_knowledge "greenhouse"
                   "email" "username" "" "email"
                   (conj eq_refl (conj eq_refl eq_refl)) _ _) eq_refl (fun _ => eq_refl));
    discriminate.
Defined.

(** X24. [fill_field] touches the element only when the profile holds
    a non-empty text for the field type: without one it returns [False]
    and does nothing; it returns [True] only after clearing the field
    and typing exactly that text; and an [Exception] raised by the
    element makes it return [False]. *)
Theorem fill_field_types_profile_value
    (field : FieldDetection.web_element) (field_type : string)
    (user_data : gmap string string) :
  (default "" (user_data !! field_type) = "" ->
   FieldDetection.fill_field field field_type user_data = (Py.Ok false, []))
  /\ (fst (FieldDetection.fill_field field field_type user_data) = Py.Ok true ->
      exists value,
        user_data !! field_type = Some value /\ value <> ""
        /\ snd (FieldDetection.fill_field field field_type user_data)
           = [FieldDetection.Cleared; FieldDetection.Typed value])
  /\ (forall name,
        fst (FieldDetection.fill_field field field_type user_data)
        <> Py.Raise (Py.Exception name)).
Proof.
  unfold FieldDetection.fill_field.
  destruct (user_data !! field_type) as [[|c v]|] eqn:E; simpl.
  - repeat split; try discriminate; reflexivity.
  - split; [discriminate|].
    destruct (FieldDetection.clear field) as [[]|[n|n]]; simpl.
    + destruct (FieldDetection.send_keys field (String c v)) as [[]|[n|n]]; simpl.
      * split; [|discriminate]. intros _. exists (String c v).
        split; [reflexivity|]. split; [discriminate | reflexivity].
      * split; discriminate.
      * split; discriminate.
    + split; discriminate.
    + split; discriminate.
  - repeat split; try discriminate; reflexivity.
Qed.

Lemma fill_field_types_profile_value_witness :
  FieldDetection.fill_field email_input "phone" sample_profile = (Py.Ok false, []).
Proof.
  refine (proj1 (fill_field_types_profile_value email_input "phone" sample_profile) eq_refl).
Defined.

(** ** Greenhouse handler: what a fill teaches and what it reports *)
Section GreenhouseFill.
Context {Client : Type}.
Variable gemini_completion :
  Client -> list (string * string) -> Py.result UniversalFormFiller.response.
Variable gemini_client : option Client.
Variable user_data : gmap string string.

Lemma fill_field_true (field : FieldDetection.web_element) (field_type : string) :
  fst (FieldDetection.fill_field field field_type user_data) = Py.Ok true ->
  exists value, user_data !! field_type = Some value /\ value <> "".
Proof.
  unfold FieldDetection.fill_field.
  destruct (user_data !! field_type) as [[|c v]|] eqn:E; simpl; try discriminate.
  intros _. exists (String c v). split; [reflexivity | discriminate].
Qed.

Lemma learn_all_app (c1 c2 : list (string * string * string))
    (kb : FieldKnowledgeBase.knowledge) :
  FieldKnowledgeBase.learn_all (c1 ++ c2)%list kb
  = FieldKnowledgeBase.learn_all c2 (FieldKnowledgeBase.learn_all c1 kb).
Proof.
  revert kb. induction c1 as [|[[i t] q] c1 IH]; intros kb; simpl; [reflexivity | apply IH].
Qed.

Lemma step_teaches_refl (st : GreenhouseHandler.state) : GreenhouseHandler.step_teaches user_data st st.
Proof.
  split; [lia|]. split; [auto|]. intros kb H. exists []. simpl.
  split; [exact H|]. split; [constructor | lia].
Qed.

Lemma step_teaches_counted (st : GreenhouseHandler.state) :
  GreenhouseHandler.step_teaches user_data st (fst st, S (snd st)).
Proof.
  split; [simpl; lia|]. split; [auto|]. intros kb H. exists []. simpl.
  split; [exact H|]. split; [constructor | lia].
Qed.

Lemma step_teaches_trans (a b c : GreenhouseHandler.state) :
  GreenhouseHandler.step_teaches user_data a b -> GreenhouseHandler.step_teaches user_data b c -> GreenhouseHandler.step_teaches user_data a c.
Proof.
  intros (H1 & H2 & H3) (K1 & K2 & K3). split; [lia|]. split; [auto|].
  intros kb Ha. destruct (H3 kb Ha) as (c1 & Hb & F1 & L1).
  destruct (K3 _ Hb) as (c2 & Hc & F2 & L2).
  exists (c1 ++ c2)%list. rewrite learn_all_app. split; [exact Hc|].
  split; [now apply Forall_app | rewrite length_app; lia].
Qed.

Lemma process_field_teaches (st st' : GreenhouseHandler.state)
    (field : FieldDetection.web_element) :
  GreenhouseHandler.process_field gemini_completion gemini_client user_data st field
  = Py.Ok st' ->
  GreenhouseHandler.step_teaches user_data st st'.
Proof.
  unfold GreenhouseHandler.process_field.
  destruct (GreenhouseHandler.resolve_type gemini_completion gemini_client field (fst st))
    as [ft|e]; cbn [Py.bind Py.try_except_Exception].
  - destruct (String.eqb_spec ft "unknown") as [Hu|Hu].
    + intros H. injection H as <-. apply step_teaches_refl.
    + destruct (fst (FieldDetection.fill_field field ft user_data)) as [[|]|e] eqn:Ef;
        cbn [Py.bind Py.try_except_Exception].
      * destruct (fill_field_true field ft Ef) as (value & Hv & Hne).
        destruct (fst st) as [kb|] eqn:Ekb.
        -- destruct (GreenhouseHandler.name_or_id field) as [[[|c n]|]|e];
             cbn [Py.bind Py.try_except_Exception].
           ++ intros H. injection H as <-. rewrite <- Ekb. apply step_teaches_counted.
           ++ intros H. injection H as <-. split; [simpl; lia|].
              split; [congruence|]. intros kb' Hkb'. rewrite Ekb in Hkb'.
              injection Hkb' as <-.
              exists [(String c n, ft, "greenhouse")]. simpl.
              split; [reflexivity|]. split; [|lia].
              constructor; [|constructor].
              split; [reflexivity|]. split; [discriminate|]. split; [exact Hu|].
              exists value. auto.
           ++ intros H. injection H as <-. rewrite <- Ekb. apply step_teaches_counted.
           ++ destruct (Py.is_Exception e) eqn:Ee;
                cbn [Py.bind Py.try_except_Exception]; rewrite ?Ee.
              ** intros H. injection H as <-. rewrite <- Ekb. apply step_teaches_counted.
              ** discriminate.
        -- intros H. injection H as <-. rewrite <- Ekb. apply step_teaches_counted.
      * intros H. injection H as <-. apply step_teaches_refl.
      * destruct (Py.is_Exception e); [|discriminate].
        intros H. injection H as <-. apply step_teaches_refl.
  - destruct (Py.is_Exception e); [|discriminate].
    intros H. injection H as <-. apply step_teaches_refl.
Qed.

Lemma process_field_raises (st : GreenhouseHandler.state)
    (field : FieldDetection.web_element) (e : Py.exn) :
  GreenhouseHandler.process_field gemini_completion gemini_client user_data st field
  = Py.Raise e ->
  Py.is_Exception e = false.
Proof.
  unfold GreenhouseHandler.process_field, Py.try_except_Exception.
  destruct (Py.bind _ _) as [x|e0]; [discriminate|].
  destruct (Py.is_Exception e0) eqn:E; [discriminate|]. congruence.
Qed.

Lemma fill_fields_teaches (fields : list FieldDetection.web_element) :
  forall st,
    GreenhouseHandler.step_teaches user_data st
      (snd (GreenhouseHandler.fill_fields gemini_completion gemini_client user_data
              fields st))
    /\ forall e,
         fst (GreenhouseHandler.fill_fields gemini_completion gemini_client user_data
                fields st) = Py.Raise e ->
         Py.is_Exception e = false.
Proof.
  induction fields as [|field rest IH]; intros st; simpl.
  - split; [apply step_teaches_refl | discriminate].
  - destruct (GreenhouseHandler.process_field gemini_completion gemini_client user_data
                st field) as [st'|e0] eqn:Ep.
    + destruct (IH st') as [H1 H2]. split; [|exact H2].
      eapply step_teaches_trans; [eapply process_field_teaches; exact Ep | exact H1].
    + simpl. split; [apply step_teaches_refl|].
      intros e H. injection H as <-. eapply process_field_raises; exact Ep.
Qed.

Lemma upload_resume_raises (p : GreenhouseHandler.page) (resume_path : string) (e : Py.exn) :
  GreenhouseHandler.upload_resume p resume_path = Py.Raise e ->
  Py.is_Exception e = false.
Proof.
  unfold GreenhouseHandler.upload_resume, Py.try_except_Exception.
  destruct (Py.bind _ _) as [x|e0]; [discriminate|].
  destruct (Py.is_Exception e0) eqn:E; [discriminate|]. congruence.
Qed.

End GreenhouseFill.

(** X25. [fill_greenhouse_application] teaches the knowledge base only
    what it filled: the knowledge base it leaves is the given one after a
    sequence of [learn_field_mapping] calls, each for a non-empty
    identifier on the platform [greenhouse] with a type other than
    [unknown] for which the profile holds a non-empty text; the number of
    these calls is at most the number of filled fields it reports.
    Without a knowledge base none is created. *)
Theorem greenhouse_teaches_only_filled_fields {Client : Type}
    (gemini_completion :
       Client -> list (string * string) -> Py.result UniversalFormFiller.response)
    (gemini_client : option Client) (user_data : gmap string string)
    (p : GreenhouseHandler.page) (resume_path : string)
    (kb : FieldKnowledgeBase.knowledge) :
  (exists calls,
      snd (GreenhouseHandler.fill_greenhouse_application gemini_completion gemini_client
             user_data p resume_path (Some kb))
      = Some (FieldKnowledgeBase.learn_all calls kb)
      /\ Forall (GreenhouseHandler.taught_by_fill user_data) calls
      /\ forall success report,
           fst (GreenhouseHandler.fill_greenhouse_application gemini_completion
                  gemini_client user_data p resume_path (Some kb))
           = Py.Ok (success, report) ->
           (length calls <= GreenhouseHandler.reported_count report)%nat)
  /\ snd (GreenhouseHandler.fill_greenhouse_application gemini_completion gemini_client
            user_data p resume_path None) = None.
Proof.
  unfold GreenhouseHandler.fill_greenhouse_application.
  destruct (GreenhouseHandler.input_fields p) as [fields|e].
  - split.
    + destruct (fill_fields_teaches gemini_completion gemini_client user_data fields
                  (Some kb, 0%nat)) as [(Hle & _ & Hkb) Hraise].
      destruct (GreenhouseHandler.fill_fields gemini_completion gemini_client user_data
                  fields (Some kb, 0%nat)) as [[u|e] [kb' n]] eqn:Ef;
        simpl in Hle, Hkb, Hraise;
        destruct (Hkb kb eq_refl) as (calls & Hkb' & Hall & Hlen);
        exists calls.
      * destruct (GreenhouseHandler.upload_resume p resume_path) as [u'|e] eqn:Eu.
        -- destruct (GreenhouseHandler.submit_found p);
             [|destruct (Nat.ltb_spec 0 n) as [Hn|Hn]];
             simpl; (split; [exact Hkb'|]); (split; [exact Hall|]);
             intros success report H; injection H as <- <-; simpl; lia.
        -- simpl. split; [exact Hkb'|]. split; [exact Hall|].
           intros success report H. unfold GreenhouseHandler.failed in H.
           rewrite (upload_resume_raises p resume_path e Eu) in H. discriminate.
      * simpl. split; [exact Hkb'|]. split; [exact Hall|].
        intros success report H. unfold GreenhouseHandler.failed in H.
        rewrite (Hraise e eq_refl) in H. discriminate.
    + destruct (fill_fields_teaches gemini_completion gemini_client user_data fields
                  (None, 0%nat)) as [(_ & Hnone & _) _].
      destruct (GreenhouseHandler.fill_fields gemini_completion gemini_client user_data
                  fields (None, 0%nat)) as [[u|e] [kb' n]]; simpl in Hnone.
      * destruct (GreenhouseHandler.upload_resume p resume_path);
          [destruct (GreenhouseHandler.submit_found p); [|destruct (Nat.ltb 0 n)]|];
          simpl; auto.
      * simpl. auto.
  - split; [|reflexivity]. exists []. simpl. split; [reflexivity|].
    split; [constructor|]. intros success report H.
    unfold GreenhouseHandler.failed in H.
    destruct (Py.is_Exception e); [|discriminate]. injection H as <- <-. simpl. lia.
Qed.

(** X26. What [fill_greenhouse_application] reports. It never raises
    an [Exception]. It reports failure only when no field was filled and
    no submit control was found, or when listing the input fields raised.
    When the fields can be listed and a submit control is found, a
    returned report is a success that gives the number of filled fields,
    which may be zero. *)
Theorem greenhouse_report {Client : Type}
    (gemini_completion :
       Client -> list (string * string) -> Py.result UniversalFormFiller.response)
    (gemini_client : option Client) (user_data : gmap string string)
    (p : GreenhouseHandler.page) (resume_path : string)
    (knowledge_base : option FieldKnowledgeBase.knowledge) :
  let r := fst (GreenhouseHandler.fill_greenhouse_application gemini_completion
                  gemini_client user_data p resume_path knowledge_base) in
  (forall name, r <> Py.Raise (Py.Exception name))
  /\ (forall report, r = Py.Ok (false, report) ->
        (report = GreenhouseHandler.NoFieldsFilled
         /\ GreenhouseHandler.submit_found p = false)
        \/ (exists e, report = GreenhouseHandler.ApplicationFailed e
                      /\ GreenhouseHandler.input_fields p = Py.Raise e))
  /\ (forall fields success report,
        GreenhouseHandler.input_fields p = Py.Ok fields ->
        GreenhouseHandler.submit_found p = true ->
        r = Py.Ok (success, report) ->
        success = true /\ exists n, report = GreenhouseHandler.FormFilled n).
Proof.
  intros r. subst r. unfold GreenhouseHandler.fill_greenhouse_application.
  destruct (GreenhouseHandler.input_fields p) as [fields|e].
  - destruct (fill_fields_teaches gemini_completion gemini_client user_data fields
                (knowledge_base, 0%nat)) as [_ Hraise].
    destruct (GreenhouseHandler.fill_fields gemini_completion gemini_client user_data
                fields (knowledge_base, 0%nat)) as [[u|e] [kb' n]]; simpl in Hraise.
    + destruct (GreenhouseHandler.upload_resume p resume_path) as [u'|e] eqn:Eu.
      * destruct (GreenhouseHandler.submit_found p) eqn:Es;
          [|destruct (Nat.ltb 0 n)]; simpl.
        -- split; [discriminate|]. split; [discriminate|].
           intros fs success report _ _ H. injection H as <- <-. eauto.
        -- split; [discriminate|]. split; [discriminate|].
           intros fs success report _ Hs. discriminate Hs.
        -- split; [discriminate|]. split.
           ++ intros report H. injection H as <-. now left.
           ++ intros fs success report _ Hs. discriminate Hs.
      * simpl. unfold GreenhouseHandler.failed.
        pose proof (upload_resume_raises p resume_path e Eu) as He. rewrite He.
        split; [intros name H; injection H as ->; simpl in He; discriminate He|].
        split; [discriminate|]. intros fs success report _ _ H. discriminate H.
    + simpl. unfold GreenhouseHandler.failed. pose proof (Hraise e eq_refl) as He.
      rewrite He.
      split; [intros name H; injection H as ->; simpl in He; discriminate He|].
      split; [discriminate|]. intros fs success report _ _ H. discriminate H.
  - simpl. unfold GreenhouseHandler.failed.
    destruct (Py.is_Exception e) eqn:Ee.
    + split; [discriminate|]. split.
      * intros report H. injection H as <-. right. eauto.
      * intros fs success report H. discriminate H.
    + split; [intros name H; injection H as ->; simpl in Ee; discriminate Ee|].
      split; [discriminate|]. intros fs success report H. discriminate H.
Qed.

Lemma greenhouse_report_witness :
  fst (GreenhouseHandler.fill_greenhouse_application (answers "email") (Some tt)
         sample_profile bare_submit_page "resume.pdf" None)
  = Py.Ok (true, GreenhouseHandler.FormFilled 0).
Proof.
  destruct (proj2 (proj2 (greenhouse_report (answers "email") (Some tt) sample_profile
                            bare_submit_page "resume.pdf" None))
              [] true (GreenhouseHandler.FormFilled 0) eq_refl eq_refl eq_refl)
    as [_ _].
  reflexivity.
Defined.
